(** * raylib.utils: trace log and whole-file helpers

    A shallow embedding of [src/utils.c] (raylib, 2020): the trace-log
    function with its three globals, the four whole-file helpers and the
    Android asset shim.  The C code is effectful throughout, so it is
    embedded in a small monad over an explicit [world]: the module's globals
    together with the part of the C library and of the Android NDK the code
    talks to (disk, open streams, asset bundle).  A computation either
    returns, terminates the process through [exit], or runs into undefined
    behaviour (a store outside an object); the calls it makes to the outside
    are collected as a list of events. *)

From Stdlib Require Import ZArith Lia.
From Stdlib Require Import Strings.Byte Strings.Ascii.
From stdpp Require Import base option list strings gmap.

Local Open Scope Z_scope.

(** ** Build configuration *)

(** The preprocessor symbols the file branches on, and the one property of
    the host C library the text helpers are sensitive to (translation of
    carriage return + line feed on streams opened in text mode). *)
Record config : Type := Config {
  SUPPORT_TRACELOG : bool;
  PLATFORM_ANDROID : bool;
  TEXT_MODE_CRLF : bool
}.

(** ** Constants *)

Definition MAX_TRACELOG_MSG_LENGTH : nat := 128.

(** Modelled from the spec: the [LogType] enumeration is declared in
    raylib.h, which is not part of the sources at hand.  The spec orders it
    trace < debug < info < warning < error < fatal; the values are the ones
    of that header, where [LOG_ALL] comes first and [LOG_NONE] last. *)
Definition LOG_ALL : Z := 0.
Definition LOG_TRACE : Z := 1.
Definition LOG_DEBUG : Z := 2.
Definition LOG_INFO : Z := 3.
Definition LOG_WARNING : Z := 4.
Definition LOG_ERROR : Z := 5.
Definition LOG_FATAL : Z := 6.
Definition LOG_NONE : Z := 7.

(** [EACCES] comes from the platform's errno.h; like every errno value it is
    a positive [int] (13 on Android and Linux). *)
Definition EACCES : Z := 13.

Definition SEEK_SET : Z := 0.
Definition SEEK_CUR : Z := 1.
Definition SEEK_END : Z := 2.

(** Priorities of the Android log API used by the platform branch. *)
Inductive android_LogPriority : Type :=
| ANDROID_LOG_VERBOSE
| ANDROID_LOG_DEBUG
| ANDROID_LOG_INFO
| ANDROID_LOG_WARN
| ANDROID_LOG_ERROR
| ANDROID_LOG_FATAL.

(** ** Machine integers *)

Definition to_uint32 (z : Z) : Z := z mod 2 ^ 32.

Definition to_int32 (z : Z) : Z :=
  let u := to_uint32 z in
  if u <? 2 ^ 31 then u else u - 2 ^ 32.

(** [size_t], taken 32 bits wide as on the 32-bit ABIs of Android. *)
Definition to_size_t (z : Z) : Z := z mod 2 ^ 32.

(** ** C strings and byte buffers *)

Definition NUL : byte := x00.

(** The one byte of the C string ["\n"]. *)
Definition LF : byte := x0a.
Definition CR : byte := x0d.

Definition is_NUL (b : byte) : bool := Byte.eqb b NUL.

(** Index of the first NUL of a byte array, that is, what [strlen] returns
    when the terminator lies inside the array. *)
Fixpoint strlen (buf : list byte) : option nat :=
  match buf with
  | [] => None
  | b :: rest => if is_NUL b then Some O else S <$> strlen rest
  end.

(** The bytes a [const char *] denotes: everything before the first NUL. *)
Fixpoint until_NUL (bs : list byte) : list byte :=
  match bs with
  | [] => []
  | b :: rest => if is_NUL b then [] else b :: until_NUL rest
  end.

Definition c_str (s : string) : list byte :=
  until_NUL (String.list_byte_of_string s).

(** Store [src] into the array at offset [off]; [None] when the store would
    run past the end of the array. *)
Definition store_bytes (buf : list byte) (off : nat) (src : list byte)
  : option (list byte) :=
  if decide (off + length src ≤ length buf)%nat
  then Some (take off buf ++ src ++ drop (off + length src) buf)
  else None.

Definition strcpy (dst : list byte) (src : list byte) : option (list byte) :=
  store_bytes dst 0 (src ++ [NUL]).

Definition strcat (dst : list byte) (src : list byte) : option (list byte) :=
  n ← strlen dst; store_bytes dst n (src ++ [NUL]).

(** Prefix and suffix of a list with a count in [Z], recursive on the list so
    that a count near [2 ^ 32] costs nothing. *)
Fixpoint takeZ {A} (n : Z) (l : list A) : list A :=
  match l with
  | [] => []
  | x :: rest => if n <=? 0 then [] else x :: takeZ (n - 1) rest
  end.

Fixpoint dropZ {A} (n : Z) (l : list A) : list A :=
  match l with
  | [] => []
  | x :: rest => if n <=? 0 then l else dropZ (n - 1) rest
  end.

Definition lengthZ {A} (l : list A) : Z := Z.of_nat (length l).

(** ** Variadic arguments *)

Inductive va_arg : Type :=
| VaStr (s : string)
| VaInt (i : Z).

Definition va_list : Type := list va_arg.

(** ** The world *)

(** A log callback is a function pointer; only its identity matters here. *)
Inductive TraceLogCallback : Type := FunPtr (addr : positive).

(** What a path of the disk names: a regular file, or the reading end of a
    pipe, which can be neither written nor repositioned. *)
Inductive inode : Type :=
| Regular (data : list byte) (writable : bool)
| Fifo (pending : list byte).

(** An asset of the bundle once opened: its bytes and the read position. *)
Record AAsset : Type := Asset { asset_data : list byte; asset_pos : Z }.

(** The asset manager gives access to the bundle, a read-only map from names
    to contents. *)
Record AAssetManager : Type := Manager { bundle : gmap string (list byte) }.

(** How a stream of the C library may be used. *)
Inductive access : Type := ReadOnly | WriteOnly | ReadWrite.

(** What a pointer handed out by the C library or by the NDK points to: a
    stream on a path of the disk, the stream [funopen] builds around a cookie
    and the four [android_*] functions, or an opened asset. *)
Inductive object : Type :=
| DiskStream (path : string) (pos : Z) (acc : access) (text : bool)
| FunopenStream (cookie : positive)
| AssetObject (asset : AAsset).

(** A block of the C heap: [None] is a byte that was never written. *)
Abbreviation block := (list (option byte)) (only parsing).

(** [FILE *] and [AAsset *] are addresses. *)
Abbreviation FILE := positive (only parsing).
Abbreviation AAssetPtr := positive (only parsing).

Record world : Type := World {
  (* globals of the module *)
  logTypeLevel : Z;
  logTypeExit : Z;
  logCallback : option TraceLogCallback;
  assetManager : option AAssetManager;
  internalDataPath : option string;
  (* the environment *)
  disk : gmap string inode;
  heap : gmap positive object;
  next_object : positive;
  io_quota : option Z
}.

(** [io_quota] is the most one [fread], [fwrite] or [fprintf] transfers;
    [None] means that transfers complete. *)

(** The state the module starts in: the initialisers of its globals. *)
Definition initial_world (d : gmap string inode) : world :=
  {| logTypeLevel := LOG_INFO; logTypeExit := LOG_ERROR; logCallback := None;
     assetManager := None; internalDataPath := None;
     disk := d; heap := ∅; next_object := 1%positive; io_quota := None |}.

(** ** Events *)

Inductive event : Type :=
| EvVprintf (format : string) (args : va_list)
| EvAndroidLog (prio : android_LogPriority) (tag text : string) (args : va_list)
| EvCallback (cb : TraceLogCallback) (logType : Z) (text : string) (args : va_list)
| EvFopen (path mode : string)
| EvFseek (file : FILE) (offset whence : Z)
| EvFtell (file : FILE)
| EvFread (file : FILE) (count : Z)
| EvFwrite (file : FILE) (count : Z)
| EvFprintf (file : FILE) (text : string)
| EvFclose (file : FILE)
| EvAssetOpen (name : string)
| EvAssetRead (count : Z)
| EvAssetSeek (offset whence : Z)
| EvAssetClose.

Definition is_log_event (e : event) : bool :=
  match e with
  | EvVprintf _ _ | EvAndroidLog _ _ _ _ | EvCallback _ _ _ _ => true
  | _ => false
  end.

Definition is_stdio_event (e : event) : bool :=
  match e with
  | EvFopen _ _ | EvFseek _ _ _ | EvFtell _ | EvFread _ _ | EvFwrite _ _
  | EvFprintf _ _ | EvFclose _ => true
  | _ => false
  end.

Definition is_asset_event (e : event) : bool :=
  match e with
  | EvAssetOpen _ | EvAssetRead _ | EvAssetSeek _ _ | EvAssetClose => true
  | _ => false
  end.

Definition log_stream (t : list event) : list event := List.filter is_log_event t.

Definition file_calls (t : list event) : list event :=
  List.filter (fun e => is_stdio_event e || is_asset_event e) t.

Definition asset_calls (t : list event) : list event := List.filter is_asset_event t.

(** ** The monad *)

Inductive outcome (A : Type) : Type :=
| Returned (t : list event) (w : world) (a : A)
| Exited (t : list event) (w : world) (status : Z)
| Undefined.

Arguments Returned {A} t w a.
Arguments Exited {A} t w status.
Arguments Undefined {A}.

Definition M (A : Type) : Type := world -> outcome A.

Definition ret {A} (a : A) : M A := fun w => Returned [] w a.

Definition after {A} (t : list event) (o : outcome A) : outcome A :=
  match o with
  | Returned t' w a => Returned (t ++ t') w a
  | Exited t' w s => Exited (t ++ t') w s
  | Undefined => Undefined
  end.

Definition bind {A B} (m : M A) (k : A -> M B) : M B :=
  fun w =>
    match m w with
    | Returned t w' a => after t (k a w')
    | Exited t w' s => Exited t w' s
    | Undefined => Undefined
    end.

Notation "x <- m ;; k" := (bind m (fun x => k))
  (at level 100, m at next level, right associativity).
Notation "m ;; k" := (bind m (fun _ => k))
  (at level 100, right associativity).

Definition get {A} (field : world -> A) : M A := fun w => Returned [] w (field w).
Definition modify (f : world -> world) : M unit := fun w => Returned [] (f w) tt.
Definition emit (e : event) : M unit := fun w => Returned [e] w tt.
Definition exit {A} (status : Z) : M A := fun w => Exited [] w status.
Definition undefined {A} : M A := fun _ => Undefined.

(** A partial operation on memory; [None] is undefined behaviour. *)
Definition defined {A} (o : option A) : M A :=
  match o with Some a => ret a | None => undefined end.

Definition events_of {A} (o : outcome A) : list event :=
  match o with
  | Returned t _ _ | Exited t _ _ => t
  | Undefined => []
  end.

(** ** Setters of the globals *)

Definition set_logTypeLevel (v : Z) (w : world) : world :=
  {| logTypeLevel := v; logTypeExit := logTypeExit w; logCallback := logCallback w;
     assetManager := assetManager w; internalDataPath := internalDataPath w;
     disk := disk w; heap := heap w; next_object := next_object w;
     io_quota := io_quota w |}.

Definition set_logTypeExit (v : Z) (w : world) : world :=
  {| logTypeLevel := logTypeLevel w; logTypeExit := v; logCallback := logCallback w;
     assetManager := assetManager w; internalDataPath := internalDataPath w;
     disk := disk w; heap := heap w; next_object := next_object w;
     io_quota := io_quota w |}.

Definition set_logCallback (v : option TraceLogCallback) (w : world) : world :=
  {| logTypeLevel := logTypeLevel w; logTypeExit := logTypeExit w; logCallback := v;
     assetManager := assetManager w; internalDataPath := internalDataPath w;
     disk := disk w; heap := heap w; next_object := next_object w;
     io_quota := io_quota w |}.

Definition set_android (m : option AAssetManager) (p : option string) (w : world) : world :=
  {| logTypeLevel := logTypeLevel w; logTypeExit := logTypeExit w;
     logCallback := logCallback w;
     assetManager := m; internalDataPath := p;
     disk := disk w; heap := heap w; next_object := next_object w;
     io_quota := io_quota w |}.

Definition set_disk (d : gmap string inode) (w : world) : world :=
  {| logTypeLevel := logTypeLevel w; logTypeExit := logTypeExit w;
     logCallback := logCallback w;
     assetManager := assetManager w; internalDataPath := internalDataPath w;
     disk := d; heap := heap w; next_object := next_object w;
     io_quota := io_quota w |}.

Definition set_heap (s : gmap positive object) (n : positive) (w : world) : world :=
  {| logTypeLevel := logTypeLevel w; logTypeExit := logTypeExit w;
     logCallback := logCallback w;
     assetManager := assetManager w; internalDataPath := internalDataPath w;
     disk := disk w; heap := s; next_object := n;
     io_quota := io_quota w |}.

Definition set_io_quota (q : option Z) (w : world) : world :=
  {| logTypeLevel := logTypeLevel w; logTypeExit := logTypeExit w;
     logCallback := logCallback w;
     assetManager := assetManager w; internalDataPath := internalDataPath w;
     disk := disk w; heap := heap w; next_object := next_object w;
     io_quota := q |}.

(** ** The logger *)

Definition SetTraceLogLevel (logType : Z) : M unit :=
  modify (set_logTypeLevel logType).

Definition SetTraceLogExit (logType : Z) : M unit :=
  modify (set_logTypeExit logType).

Definition SetTraceLogCallback (callback : option TraceLogCallback) : M unit :=
  modify (set_logCallback callback).

(** The [switch] of the default branch: the label copied to the front of the
    staging buffer, if any. *)
Definition log_prefix (logType : Z) : option string :=
  if logType =? LOG_TRACE then Some "TRACE: "
  else if logType =? LOG_DEBUG then Some "DEBUG: "
  else if logType =? LOG_INFO then Some "INFO: "
  else if logType =? LOG_WARNING then Some "WARNING: "
  else if logType =? LOG_ERROR then Some "ERROR: "
  else if logType =? LOG_FATAL then Some "FATAL: "
  else None.

(** The [switch] of the Android branch. *)
Definition android_priority (logType : Z) : option android_LogPriority :=
  if logType =? LOG_TRACE then Some ANDROID_LOG_VERBOSE
  else if logType =? LOG_DEBUG then Some ANDROID_LOG_DEBUG
  else if logType =? LOG_INFO then Some ANDROID_LOG_INFO
  else if logType =? LOG_WARNING then Some ANDROID_LOG_WARN
  else if logType =? LOG_ERROR then Some ANDROID_LOG_ERROR
  else if logType =? LOG_FATAL then Some ANDROID_LOG_FATAL
  else None.

(** [vprintf(buffer, args)]: the format is the C string held by the array. *)
Definition vprintf (buffer : list byte) (args : va_list) : M unit :=
  n <- defined (strlen buffer) ;;
  emit (EvVprintf (String.string_of_list_byte (take n buffer)) args).

Section Utils.

Variable cfg : config.

Definition TraceLog (logType : Z) (text : string) (args : va_list) : M unit :=
  if negb (SUPPORT_TRACELOG cfg) then ret tt else
  level <- get logTypeLevel ;;
  (* Message has level below current threshold, don't emit *)
  if logType <? level then ret tt else
  callback <- get logCallback ;;
  match callback with
  | Some cb => emit (EvCallback cb logType text args)
  | None =>
      (if PLATFORM_ANDROID cfg then
         match android_priority logType with
         | Some prio => emit (EvAndroidLog prio "raylib" text args)
         | None => ret tt
         end
       else
         let buffer := replicate MAX_TRACELOG_MSG_LENGTH NUL in
         buffer <- match log_prefix logType with
                   | Some label => defined (strcpy buffer (c_str label))
                   | None => ret buffer
                   end ;;
         buffer <- defined (strcat buffer (c_str text)) ;;
         buffer <- defined (strcat buffer [LF]) ;;
         vprintf buffer args) ;;
      exitLevel <- get logTypeExit ;;
      (* If exit message, exit program *)
      if exitLevel <=? logType then exit 1 else ret tt
  end.

(** Modelled from the spec: the macro [TRACELOG] the rest of the file logs
    through is defined in utils.h, which is not among the sources.  The spec
    has the helpers and the shim report through the logger: the macro stands
    for a call of [TraceLog]. *)
Definition TRACELOG := TraceLog.

(** *** Memory blocks *)

(** [RL_MALLOC] and [RL_REALLOC] are the library's names for [malloc] and
    [realloc].  Allocation is taken to succeed; a fresh byte was never
    written. *)

Definition malloc (size : Z) : block := replicate (Z.to_nat size) None.

Definition realloc (b : block) (size : Z) : block := resize (Z.to_nat size) None b.

(** [b[i] = v] *)
Definition poke (b : block) (i : Z) (v : byte) : M block :=
  if (0 <=? i) && (i <? lengthZ b) then ret (<[Z.to_nat i := Some v]> b)
  else undefined.

(** *** Objects behind pointers *)

Definition alloc (o : object) : M positive :=
  fun w =>
    let p := next_object w in
    Returned [] (set_heap (<[p := o]> (heap w)) (Pos.succ p) w) p.

Definition update (p : positive) (o : object) : M unit :=
  modify (fun w => set_heap (<[p := o]> (heap w)) (next_object w) w).

Definition free (p : positive) : M unit :=
  modify (fun w => set_heap (delete p (heap w)) (next_object w) w).

Definition deref (p : positive) : M object :=
  h <- get heap ;; defined (h !! p).

(** *** The asset API of the NDK *)

Definition seek_target (len pos offset whence : Z) : option Z :=
  let target :=
    if whence =? SEEK_SET then Some offset
    else if whence =? SEEK_CUR then Some (pos + offset)
    else if whence =? SEEK_END then Some (len + offset)
    else None in
  t ← target; if (0 <=? t) then Some t else None.

Definition AAssetManager_open (mgr : option AAssetManager) (name : string)
  : M (option AAssetPtr) :=
  emit (EvAssetOpen name) ;;
  match mgr with
  | None => undefined
  | Some m =>
      match bundle m !! name with
      | Some data => p <- alloc (AssetObject (Asset data 0)) ;; ret (Some p)
      | None => ret None
      end
  end.

Definition AAsset_read (asset : AAssetPtr) (count : Z) : M (Z * list byte) :=
  emit (EvAssetRead count) ;;
  o <- deref asset ;;
  match o with
  | AssetObject a =>
      let bytes := takeZ count (dropZ (asset_pos a) (asset_data a)) in
      update asset (AssetObject (Asset (asset_data a) (asset_pos a + lengthZ bytes))) ;;
      ret (lengthZ bytes, bytes)
  | _ => undefined
  end.

Definition AAsset_seek (asset : AAssetPtr) (offset whence : Z) : M Z :=
  emit (EvAssetSeek offset whence) ;;
  o <- deref asset ;;
  match o with
  | AssetObject a =>
      match seek_target (lengthZ (asset_data a)) (asset_pos a) offset whence with
      | Some t =>
          if t <=? lengthZ (asset_data a)
          then update asset (AssetObject (Asset (asset_data a) t)) ;; ret t
          else ret (-1)
      | None => ret (-1)
      end
  | _ => undefined
  end.

Definition AAsset_close (asset : AAssetPtr) : M unit :=
  emit EvAssetClose ;;
  o <- deref asset ;;
  match o with
  | AssetObject _ => free asset
  | _ => undefined
  end.

(** *** The stream functions handed to [funopen] *)

(** [static int android_read(void *cookie, char *buf, int size)]: the count
    arrives as an [int], is handed to [AAsset_read] as a [size_t], and what
    comes back is an [int] again. *)
Definition android_read (cookie : AAssetPtr) (size : Z) : M (Z * list byte) :=
  r <- AAsset_read cookie (to_size_t (to_int32 size)) ;;
  ret (to_int32 r.1, r.2).

Definition android_write (cookie : AAssetPtr) (buf : list byte) (size : Z) : M Z :=
  TRACELOG LOG_WARNING "ANDROID: Failed to provide write access to APK" [] ;;
  ret EACCES.

Definition android_seek (cookie : AAssetPtr) (offset whence : Z) : M Z :=
  AAsset_seek cookie offset whence.

Definition android_close (cookie : AAssetPtr) : M Z :=
  AAsset_close cookie ;;
  ret 0.

(** [funopen(cookie, android_read, android_write, android_seek,
    android_close)]: the only way the file calls it. *)
Definition funopen (cookie : AAssetPtr) : M (option FILE) :=
  p <- alloc (FunopenStream cookie) ;; ret (Some p).

(** What the stream layer makes of the value a write function returns: the
    number of bytes it took, or, when not positive, a failed write. *)
Inductive write_report : Type :=
| WriteFailed
| Transferred (count : Z).

Definition funopen_write_report (r : Z) : write_report :=
  if r <=? 0 then WriteFailed else Transferred r.

(** *** The C library on the disk *)

Definition first_char_is (c : ascii) (s : string) : bool :=
  match s with
  | String c' _ => Ascii.eqb c' c
  | EmptyString => false
  end.

Fixpoint has_char (c : ascii) (s : string) : bool :=
  match s with
  | String c' rest => Ascii.eqb c' c || has_char c rest
  | EmptyString => false
  end.

Inductive open_kind : Type := OpenExisting | OpenTruncate | OpenAppend.

Definition parse_mode (mode : string) : option (open_kind * access) :=
  let plus := has_char "+" mode in
  if first_char_is "r" mode then Some (OpenExisting, if plus then ReadWrite else ReadOnly)
  else if first_char_is "w" mode then Some (OpenTruncate, if plus then ReadWrite else WriteOnly)
  else if first_char_is "a" mode then Some (OpenAppend, if plus then ReadWrite else WriteOnly)
  else None.

Definition can_read (a : access) : bool :=
  match a with WriteOnly => false | _ => true end.

Definition can_write (a : access) : bool :=
  match a with ReadOnly => false | _ => true end.

(** Text-mode translation, where the host has it. *)
Fixpoint crlf_decode (bs : list byte) : list byte :=
  match bs with
  | [] => []
  | b :: rest =>
      match rest with
      | b' :: _ =>
          if Byte.eqb b CR && Byte.eqb b' LF then crlf_decode rest
          else b :: crlf_decode rest
      | [] => [b]
      end
  end.

Fixpoint crlf_encode (bs : list byte) : list byte :=
  match bs with
  | [] => []
  | b :: rest => if Byte.eqb b LF then CR :: LF :: crlf_encode rest else b :: crlf_encode rest
  end.

Definition limit (q : option Z) (n : Z) : Z :=
  match q with
  | Some k => Z.min n (Z.max 0 k)
  | None => n
  end.

(** [fopen] of the C library.  A pipe is modelled from its reading end
    only: what a writer on a pipe sees depends on the reader at the other
    end, which the world does not hold, so the results on saving are stated
    for regular files and for names not yet taken. *)
Definition std_fopen (path mode : string) : M (option FILE) :=
  emit (EvFopen path mode) ;;
  d <- get disk ;;
  let text := TEXT_MODE_CRLF cfg && negb (has_char "b" mode) in
  match parse_mode mode with
  | None => ret None
  | Some (kind, acc) =>
      match d !! path with
      | Some (Regular data writable) =>
          if can_write acc && negb writable then ret None else
          match kind with
          | OpenExisting =>
              p <- alloc (DiskStream path 0 acc text) ;; ret (Some p)
          | OpenTruncate =>
              modify (set_disk (<[path := Regular [] writable]> d)) ;;
              p <- alloc (DiskStream path 0 acc text) ;; ret (Some p)
          | OpenAppend =>
              p <- alloc (DiskStream path (lengthZ data) acc text) ;; ret (Some p)
          end
      | Some (Fifo _) =>
          if can_write acc then ret None
          else p <- alloc (DiskStream path 0 acc text) ;; ret (Some p)
      | None =>
          match kind with
          | OpenExisting => ret None
          | _ =>
              if decide (path = "") then ret None else
              modify (set_disk (<[path := Regular [] true]> d)) ;;
              p <- alloc (DiskStream path 0 acc text) ;; ret (Some p)
          end
      end
  end.

(** The bytes a stream delivers to a read of at most [n] bytes. *)
Definition stream_read (file : FILE) (n : Z) : M (list byte) :=
  o <- deref file ;;
  match o with
  | DiskStream path pos acc text =>
      if negb (can_read acc) then ret [] else
      d <- get disk ;;
      q <- get io_quota ;;
      match d !! path with
      | Some (Regular data _) =>
          let raw := takeZ (limit q n) (dropZ pos data) in
          update file (DiskStream path (pos + lengthZ raw) acc text) ;;
          ret (if text then crlf_decode raw else raw)
      | Some (Fifo pending) =>
          let raw := takeZ (limit q n) pending in
          modify (set_disk (<[path := Fifo (dropZ (lengthZ raw) pending)]> d)) ;;
          ret (if text then crlf_decode raw else raw)
      | None => ret []
      end
  | FunopenStream cookie =>
      r <- android_read cookie n ;;
      ret (if r.1 <? 0 then [] else r.2)
  | AssetObject _ => undefined
  end.

(** How many of [bytes] a stream takes.  The stream is modelled without a
    buffer of its own: the bytes reach the file inside the call, and a
    transfer that falls short shows in the count returned. *)
Definition stream_write (file : FILE) (bytes : list byte) : M Z :=
  o <- deref file ;;
  match o with
  | DiskStream path pos acc text =>
      if negb (can_write acc) then ret 0 else
      d <- get disk ;;
      q <- get io_quota ;;
      match d !! path with
      | Some (Regular old writable) =>
          let sent := takeZ (limit q (lengthZ bytes)) bytes in
          let out := if text then crlf_encode sent else sent in
          let gap := replicate (Z.to_nat (pos - lengthZ old)) NUL in
          let new := takeZ pos old ++ gap ++ out ++ dropZ (pos + lengthZ out) old in
          modify (set_disk (<[path := Regular new writable]> d)) ;;
          update file (DiskStream path (pos + lengthZ out) acc text) ;;
          ret (lengthZ sent)
      | _ => ret 0
      end
  | FunopenStream cookie =>
      r <- android_write cookie bytes (lengthZ bytes) ;;
      ret match funopen_write_report r with
          | WriteFailed => 0
          | Transferred k => Z.min k (lengthZ bytes)
          end
  | AssetObject _ => undefined
  end.

(** [fread(buf, 1, n, file)]: the count and the block afterwards. *)
Definition fread (buf : block) (n : Z) (file : FILE) : M (Z * block) :=
  emit (EvFread file n) ;;
  bytes <- stream_read file n ;;
  if decide (length bytes ≤ length buf)%nat
  then ret (lengthZ bytes, (Some <$> bytes) ++ drop (length bytes) buf)
  else undefined.

(** [fwrite(data, 1, n, file)] *)
Definition fwrite (data : list byte) (n : Z) (file : FILE) : M Z :=
  emit (EvFwrite file n) ;;
  if lengthZ data <? n then undefined else
  stream_write file (takeZ n data).

(** [fprintf(file, "%s", text)] *)
Definition fprintf_s (file : FILE) (text : string) : M Z :=
  emit (EvFprintf file text) ;;
  let bytes := c_str text in
  r <- stream_write file bytes ;;
  ret (if r =? lengthZ bytes then r else -1).

Definition fseek (file : FILE) (offset whence : Z) : M Z :=
  emit (EvFseek file offset whence) ;;
  o <- deref file ;;
  match o with
  | DiskStream path pos acc text =>
      d <- get disk ;;
      match d !! path with
      | Some (Regular data _) =>
          match seek_target (lengthZ data) pos offset whence with
          | Some t => update file (DiskStream path t acc text) ;; ret 0
          | None => ret (-1)
          end
      | _ => ret (-1)
      end
  | FunopenStream cookie =>
      r <- android_seek cookie offset whence ;;
      ret (if r <? 0 then -1 else 0)
  | AssetObject _ => undefined
  end.

Definition ftell (file : FILE) : M Z :=
  emit (EvFtell file) ;;
  o <- deref file ;;
  match o with
  | DiskStream path pos acc text =>
      d <- get disk ;;
      match d !! path with
      | Some (Regular _ _) => ret pos
      | _ => ret (-1)
      end
  | FunopenStream cookie =>
      r <- android_seek cookie 0 SEEK_CUR ;;
      ret (if r <? 0 then -1 else r)
  | AssetObject _ => undefined
  end.

Definition fclose (file : FILE) : M Z :=
  emit (EvFclose file) ;;
  o <- deref file ;;
  match o with
  | DiskStream _ _ _ _ => free file ;; ret 0
  | FunopenStream cookie => r <- android_close cookie ;; free file ;; ret r
  | AssetObject _ => undefined
  end.

(** ** The asset shim *)

Definition InitAssetManager (manager : option AAssetManager) (dataPath : option string)
  : M unit :=
  modify (set_android manager dataPath).

(** Modelled from the spec: [TextFormat] is defined in another file of the
    library, absent here.  The shim uses it with the format ["%s/%s"] to name
    the file under the base data path; a base path that was never set is a
    null pointer given to [%s]. *)
Definition TextFormat_path (base : option string) (fileName : string) : M string :=
  match base with
  | Some b => ret (b +:+ "/" +:+ fileName)
  | None => undefined
  end.

(** Replacement for [fopen] *)
Definition android_fopen (fileName mode : string) : M (option FILE) :=
  if first_char_is "w" mode then
    base <- get internalDataPath ;;
    path <- TextFormat_path base fileName ;;
    std_fopen path mode
  else
    (* NOTE: AAsset provides access to read-only asset *)
    manager <- get assetManager ;;
    asset <- AAssetManager_open manager fileName ;;
    match asset with
    | Some asset =>
        (* Return pointer to file in the assets *)
        funopen asset
    | None =>
        (* Just do a regular open if file is not found in the assets *)
        base <- get internalDataPath ;;
        path <- TextFormat_path base fileName ;;
        std_fopen path mode
    end.

(** On Android utils.h maps [fopen] to [android_fopen]; the two [#undef] /
    [#define] pairs inside [android_fopen] switch the mapping off and on. *)
Definition fopen (path mode : string) : M (option FILE) :=
  if PLATFORM_ANDROID cfg then android_fopen path mode else std_fopen path mode.

(** ** The file helpers *)

(** Load data from file into a buffer: the pointer returned and what is left
    in [*bytesRead]. *)
Definition LoadFileData (fileName : option string) : M (option block * Z) :=
  match fileName with
  | Some fileName =>
      file <- fopen fileName "rb" ;;
      match file with
      | Some file =>
          fseek file 0 SEEK_END ;;
          pos <- ftell file ;;
          let size := to_int32 pos in
          fseek file 0 SEEK_SET ;;
          result <-
            (if 0 <? size then
               let data := malloc size in
               r <- fread data size file ;;
               let count := to_uint32 r.1 in
               (if negb (count =? to_uint32 size)
                then TRACELOG LOG_WARNING "FILEIO: [%s] File partially loaded" [VaStr fileName]
                else TRACELOG LOG_INFO "FILEIO: [%s] File loaded successfully" [VaStr fileName]) ;;
               ret (Some r.2, count)
             else
               TRACELOG LOG_WARNING "FILEIO: [%s] Failed to read file" [VaStr fileName] ;;
               ret (None, 0)) ;;
          fclose file ;;
          ret result
      | None =>
          TRACELOG LOG_WARNING "FILEIO: [%s] Failed to open file" [VaStr fileName] ;;
          ret (None, 0)
      end
  | None =>
      TRACELOG LOG_WARNING "FILEIO: File name provided is not valid" [] ;;
      ret (None, 0)
  end.

(** Save data to file from buffer *)
Definition SaveFileData (fileName : option string) (data : list byte) (bytesToWrite : Z)
  : M unit :=
  match fileName with
  | Some fileName =>
      file <- fopen fileName "wb" ;;
      match file with
      | Some file =>
          r <- fwrite data bytesToWrite file ;;
          let count := to_uint32 r in
          (if count =? 0
           then TRACELOG LOG_WARNING "FILEIO: [%s] Failed to write file" [VaStr fileName]
           else if negb (count =? bytesToWrite)
           then TRACELOG LOG_WARNING "FILEIO: [%s] File partially written" [VaStr fileName]
           else TRACELOG LOG_INFO "FILEIO: [%s] File saved successfully" [VaStr fileName]) ;;
          fclose file ;;
          ret tt
      | None =>
          TRACELOG LOG_WARNING "FILEIO: [%s] Failed to open file" [VaStr fileName]
      end
  | None =>
      TRACELOG LOG_WARNING "FILEIO: File name provided is not valid" []
  end.

(** Load text data from file, returns a NUL terminated string *)
Definition LoadFileText (fileName : option string) : M (option block) :=
  match fileName with
  | Some fileName =>
      textFile <- fopen fileName "rt" ;;
      match textFile with
      | Some textFile =>
          fseek textFile 0 SEEK_END ;;
          pos <- ftell textFile ;;
          let size := to_uint32 pos in
          fseek textFile 0 SEEK_SET ;;
          text <-
            (if 0 <? size then
               let text := malloc (to_uint32 (size + 1)) in
               r <- fread text size textFile ;;
               let count := to_uint32 r.1 in
               let text := r.2 in
               let text := if count <? size then realloc text (to_uint32 (count + 1)) else text in
               (* Zero-terminate the string *)
               text <- poke text count NUL ;;
               TRACELOG LOG_INFO "FILEIO: [%s] Text file loaded successfully" [VaStr fileName] ;;
               ret (Some text)
             else
               TRACELOG LOG_WARNING "FILEIO: [%s] Failed to read text file" [VaStr fileName] ;;
               ret None) ;;
          fclose textFile ;;
          ret text
      | None =>
          TRACELOG LOG_WARNING "FILEIO: [%s] Failed to open text file" [VaStr fileName] ;;
          ret None
      end
  | None =>
      TRACELOG LOG_WARNING "FILEIO: File name provided is not valid" [] ;;
      ret None
  end.

(** Save text data to file (write), string must be NUL terminated *)
Definition SaveFileText (fileName : option string) (text : string) : M unit :=
  match fileName with
  | Some fileName =>
      file <- fopen fileName "wt" ;;
      match file with
      | Some file =>
          count <- fprintf_s file text ;;
          (if count <? 0
           then TRACELOG LOG_WARNING "FILEIO: [%s] Failed to write text file" [VaStr fileName]
           else TRACELOG LOG_INFO "FILEIO: [%s] Text file saved successfully" [VaStr fileName]) ;;
          fclose file ;;
          ret tt
      | None =>
          TRACELOG LOG_WARNING "FILEIO: [%s] Failed to open text file" [VaStr fileName]
      end
  | None =>
      TRACELOG LOG_WARNING "FILEIO: File name provided is not valid" []
  end.

End Utils.

Definition desktop : config :=
  {| SUPPORT_TRACELOG := true; PLATFORM_ANDROID := false; TEXT_MODE_CRLF := false |}.

Definition windows : config :=
  {| SUPPORT_TRACELOG := true; PLATFORM_ANDROID := false; TEXT_MODE_CRLF := true |}.

Definition android : config :=
  {| SUPPORT_TRACELOG := true; PLATFORM_ANDROID := true; TEXT_MODE_CRLF := false |}.

(** * Vocabulary of the statements *)

(** The array while it is being filled: the text so far, then NULs up to
    [MAX_TRACELOG_MSG_LENGTH] bytes. *)
Definition padded (content : list byte) : list byte :=
  content ++ replicate (MAX_TRACELOG_MSG_LENGTH - length content) NUL.

Definition NUL_free (bs : list byte) : Prop :=
  Forall (fun b => is_NUL b = false) bs.

Definition label_bytes (logType : Z) : list byte :=
  match log_prefix logType with
  | Some label => c_str label
  | None => []
  end.

(** Label, text, line feed and terminator fit the array. *)
Definition fits_staging_buffer (logType : Z) (text : string) : bool :=
  bool_decide (length (label_bytes logType) + length (c_str text) + 2
               ≤ MAX_TRACELOG_MSG_LENGTH)%nat.

(** The format string [vprintf] is given when everything fits. *)
Definition formatted_message (logType : Z) (text : string) : string :=
  String.string_of_list_byte (label_bytes logType ++ c_str text ++ [LF]).

(** The three string operations of the default branch, on their own. *)
Definition staged (logType : Z) (text : string) : option (list byte) :=
  buffer ← match log_prefix logType with
            | Some label => strcpy (replicate MAX_TRACELOG_MSG_LENGTH NUL) (c_str label)
            | None => Some (replicate MAX_TRACELOG_MSG_LENGTH NUL)
            end;
  buffer ← strcat buffer (c_str text);
  strcat buffer [LF].

(** What the default branch hands to the output: one [vprintf] of the staged
    message or, on Android, one call of the platform log for a severity the
    [switch] knows. *)
Definition default_event (cfg : config) (logType : Z) (text : string) (args : va_list)
  : option event :=
  if PLATFORM_ANDROID cfg
  then prio ← android_priority logType; Some (EvAndroidLog prio "raylib" text args)
  else Some (EvVprintf (formatted_message logType text) args).

(** The default branch stays inside the staging buffer (the Android branch
    has none). *)
Definition well_staged (cfg : config) (logType : Z) (text : string) : bool :=
  PLATFORM_ANDROID cfg || fits_staging_buffer logType text.

(** A format string of [n] letters. *)
Definition letters (n : nat) : string :=
  String.string_of_list_byte (replicate n "A"%byte).

Definition invalid_name : string := "FILEIO: File name provided is not valid".

(** What a helper does with a name it rejects: it logs [invalid_name] as a
    warning and nothing else happens; no call reaches the C library or the
    asset manager, the world is left alone and, unless the logger terminates
    the process on warnings, the helper returns its empty result. *)
Definition rejects_name {A} (cfg : config) (w : world) (sentinel : A) (o : outcome A)
  : Prop :=
  events_of o = events_of (TraceLog cfg LOG_WARNING invalid_name [] w)
  /\ file_calls (events_of o) = []
  /\ match o with
     | Returned _ w' r => w' = w /\ r = sentinel
     | Exited _ w' _ => w' = w /\ logTypeExit w <= LOG_WARNING
     | Undefined => False
     end.

Definition value_of {A} (o : outcome A) : option A :=
  match o with
  | Returned _ _ a => Some a
  | _ => None
  end.

(** A world of the Android build after start-up: the bundle holds one asset
    and the base data path is set. *)
Definition android_world : world :=
  set_android (Some (Manager {[ "logo.png" := String.list_byte_of_string "PNG" ]}))
              (Some "/data/app") (initial_world ∅).

(** The words of the spec, "mode indicates write intent", read as the C
    library reads a mode string: the stream may be written when the mode
    begins with [w] or [a], or asks for update with [+]. *)
Definition indicates_write_intent (mode : string) : bool :=
  first_char_is "w" mode || first_char_is "a" mode || has_char "+" mode.

(** The settings a call of the C library leaves alone: the module's globals
    and the transfer quota. *)
Definition same_settings (w w' : world) : Prop :=
  logTypeLevel w' = logTypeLevel w
  /\ logTypeExit w' = logTypeExit w
  /\ logCallback w' = logCallback w
  /\ assetManager w' = assetManager w
  /\ internalDataPath w' = internalDataPath w
  /\ io_quota w' = io_quota w.

(** The state of one open stream on one file, in a world whose settings are
    those of [w0]. *)
Definition holds (w0 w : world) (file : FILE) (s : object) (path : string) (n : inode)
  : Prop :=
  heap w !! file = Some s /\ disk w !! path = Some n /\ same_settings w0 w.

(** The outcome of a computation, placed in another world. *)
Definition in_world {A} (w : world) (o : outcome A) : outcome A :=
  match o with
  | Returned t _ a => Returned t w a
  | Exited t _ s => Exited t w s
  | Undefined => Undefined
  end.

(** Where an open for writing ends up on the disk. *)
Definition disk_target (cfg : config) (w : world) (path : string) : option string :=
  if PLATFORM_ANDROID cfg
  then base ← internalDataPath w; Some (base +:+ "/" +:+ path)
  else Some path.

(** Where an open for reading ends up when it ends up on the disk, that is,
    on Android, when the bundle has no asset of that name. *)
Definition read_target (cfg : config) (w : world) (path : string) : option string :=
  if PLATFORM_ANDROID cfg
  then manager ← assetManager w;
       match bundle manager !! path with
       | Some _ => None
       | None => base ← internalDataPath w; Some (base +:+ "/" +:+ path)
       end
  else Some path.

(** A file of that name can be opened for writing: it exists and may be
    written, or it does not exist and has a name. *)
Definition opens_for_writing (d : gmap string inode) (path : string) : bool :=
  match d !! path with
  | Some (Regular _ writable) => writable
  | Some (Fifo _) => false
  | None => negb (String.eqb path "")
  end.

(** What one transfer carries of the bytes offered. *)
Definition transferred (q : option Z) (offered : list byte) : list byte :=
  takeZ (limit q (lengthZ offered)) offered.

(** The message [SaveFileData] picks for a count of bytes written. *)
Definition save_report (count bytesToWrite : Z) : Z * string :=
  if count =? 0 then (LOG_WARNING, "FILEIO: [%s] Failed to write file")
  else if negb (count =? bytesToWrite)
       then (LOG_WARNING, "FILEIO: [%s] File partially written")
       else (LOG_INFO, "FILEIO: [%s] File saved successfully").

(** The bytes a read of [n] bytes finds on a stream at position [pos]. *)
Definition delivered (q : option Z) (text : bool) (data : list byte) (pos n : Z)
  : list byte * Z :=
  let raw := takeZ (limit q n) (dropZ pos data) in
  (if text then crlf_decode raw else raw, pos + lengthZ raw).

(** The logger lets the process live after a message of this severity. *)
Definition survives (cfg : config) (w : world) (logType : Z) : bool :=
  negb (SUPPORT_TRACELOG cfg)
  || (logType <? logTypeLevel w)
  || match logCallback w with Some _ => true | None => false end
  || (logType <? logTypeExit w).

(** The world while a helper holds the one stream it opened: the stream sits
    at the address [file] the allocator handed out, and nothing else differs
    from the world [b]. *)
Definition streaming (file : positive) (s : object) (b : world) : world :=
  set_heap (<[file := s]> (heap b)) (Pos.succ file) b.

(** The world once that stream is closed again: its address is used up and
    nothing lives there. *)
Definition released (file : positive) (b : world) : world :=
  set_heap (delete file (heap b)) (Pos.succ file) b.

(** The world with one file of the disk replaced. *)
Definition with_file (path : string) (n : inode) (w : world) : world :=
  set_disk (<[path := n]> (disk w)) w.

(** The message [LoadFileData] picks for a count of bytes read. *)
Definition load_report (count size : Z) : Z * string :=
  if negb (count =? size)
  then (LOG_WARNING, "FILEIO: [%s] File partially loaded")
  else (LOG_INFO, "FILEIO: [%s] File loaded successfully").


(** The events of opening [path] for reading when the open ends up on the
    disk at [target]: on Android the asset manager is asked first. *)
Definition open_events (cfg : config) (path target mode : string) : list event :=
  (if PLATFORM_ANDROID cfg then [EvAssetOpen path] else []) ++ [EvFopen target mode].

(** A severity the two [switch] statements have no case for. *)
Definition unknown_severity (logType : Z) : Prop :=
  logType < LOG_TRACE \/ LOG_FATAL < logType.

(** One of the six severities the [switch] statements have a case for. *)
Definition known_severity (logType : Z) : Prop :=
  LOG_TRACE <= logType <= LOG_FATAL.

(** A name no open for writing gets through: a regular file that may not be
    written, or the empty name with no file behind it. *)
Definition write_protected (d : gmap string inode) (path : string) : bool :=
  match d !! path with
  | Some (Regular _ writable) => negb writable
  | Some (Fifo _) => false
  | None => String.eqb path ""
  end.

(** The message [SaveFileData] picks when every byte asked for was taken. *)
Definition complete_report (bytesToWrite : Z) : Z * string :=
  if bytesToWrite =? 0
  then (LOG_WARNING, "FILEIO: [%s] Failed to write file")
  else (LOG_INFO, "FILEIO: [%s] File saved successfully").

(** The world while a helper reads an asset of the bundle: the asset object
    sits at [asset], and the stream [funopen] made for it at the address
    after that. *)
Definition serving (asset : positive) (a : AAsset) (b : world) : world :=
  streaming (Pos.succ asset) (FunopenStream asset) (streaming asset (AssetObject a) b).

(** The world once that stream is closed: both addresses are used up. *)
Definition served (asset : positive) (b : world) : world :=
  released (Pos.succ asset) (released asset b).

(** The events of [LoadFileData] and [LoadFileText] up to the message, when
    the stream [file] reads an asset of [size] bytes under the name [name]:
    every call on the stream is answered by one call of the asset API. *)
Definition asset_events (name : string) (file : FILE) (size : Z) : list event :=
  [EvAssetOpen name;
   EvFseek file 0 SEEK_END; EvAssetSeek 0 SEEK_END;
   EvFtell file; EvAssetSeek 0 SEEK_CUR;
   EvFseek file 0 SEEK_SET; EvAssetSeek 0 SEEK_SET;
   EvFread file size; EvAssetRead size].

(** * Properties *)

(** ** The monad *)

Lemma after_nil {A} (o : outcome A) : after [] o = o.
Proof. destruct o; reflexivity. Qed.

Lemma after_after {A} t1 t2 (o : outcome A) :
  after t1 (after t2 o) = after (t1 ++ t2) o.
Proof. destruct o; cbn [after]; rewrite ?app_assoc; reflexivity. Qed.

Lemma ret_bind {A B} (a : A) (k : A -> M B) w : (x <- ret a ;; k x) w = k a w.
Proof. unfold bind, ret. apply after_nil. Qed.

Lemma bind_ret {A} (m : M A) w : (x <- m ;; ret x) w = m w.
Proof.
  unfold bind, ret. destruct (m w); cbn [after]; rewrite ?app_nil_r; reflexivity.
Qed.

Lemma bind_bind {A B C} (m : M A) (f : A -> M B) (g : B -> M C) w :
  (y <- (x <- m ;; f x) ;; g y) w = (x <- m ;; y <- f x ;; g y) w.
Proof.
  unfold bind. destruct (m w) as [t w' a|t w' s|]; cbn [after]; [|reflexivity..].
  destruct (f a w') as [t1 w1 b|t1 w1 s|]; cbn [after]; [|reflexivity..].
  rewrite after_after. reflexivity.
Qed.

(** ** The staging buffer of [TraceLog] *)

Lemma until_NUL_free bs : NUL_free (until_NUL bs).
Proof.
  induction bs as [|b bs IH]; simpl; [constructor|].
  destruct (is_NUL b) eqn:E; constructor; assumption.
Qed.

Lemma NUL_free_app xs ys : NUL_free xs -> NUL_free ys -> NUL_free (xs ++ ys).
Proof. unfold NUL_free. intros. apply Forall_app; split; assumption. Qed.

Lemma strlen_terminated content rest :
  NUL_free content -> strlen (content ++ NUL :: rest) = Some (length content).
Proof.
  induction 1 as [|b bs Hb _ IH]; simpl; [reflexivity|].
  rewrite Hb, IH. reflexivity.
Qed.

Lemma replicate_pred {A} (n : nat) (x : A) :
  (0 < n)%nat -> replicate n x = x :: replicate (n - 1) x.
Proof. destruct n; [lia|]. intros _. simpl. rewrite Nat.sub_0_r. reflexivity. Qed.

Lemma padded_cons content :
  (length content < MAX_TRACELOG_MSG_LENGTH)%nat ->
  padded content =
  content ++ NUL :: replicate (MAX_TRACELOG_MSG_LENGTH - length content - 1) NUL.
Proof.
  intros H. unfold padded. f_equal. apply replicate_pred. lia.
Qed.

Lemma strlen_padded content :
  NUL_free content -> (length content < MAX_TRACELOG_MSG_LENGTH)%nat ->
  strlen (padded content) = Some (length content).
Proof.
  intros Hfree Hlen. rewrite padded_cons by assumption.
  apply strlen_terminated, Hfree.
Qed.

Lemma length_padded content :
  (length content ≤ MAX_TRACELOG_MSG_LENGTH)%nat ->
  length (padded content) = MAX_TRACELOG_MSG_LENGTH.
Proof. intros H. unfold padded. rewrite length_app, length_replicate. lia. Qed.

Lemma store_bytes_padded content src :
  (length content + length src ≤ MAX_TRACELOG_MSG_LENGTH)%nat ->
  store_bytes (padded content) (length content) src
  = Some (content ++ src ++
          replicate (MAX_TRACELOG_MSG_LENGTH - length content - length src) NUL).
Proof.
  intros H. unfold store_bytes.
  rewrite length_padded by lia.
  destruct (decide _) as [_|Hn]; [|lia].
  unfold padded. rewrite take_app_length.
  rewrite drop_app_ge, drop_replicate by lia.
  do 4 f_equal. lia.
Qed.

Lemma store_bytes_overflow buf off src :
  (length buf < off + length src)%nat -> store_bytes buf off src = None.
Proof. intros H. unfold store_bytes. destruct (decide _); [lia|reflexivity]. Qed.

Lemma strcat_padded content src :
  NUL_free content ->
  (length content + length src < MAX_TRACELOG_MSG_LENGTH)%nat ->
  strcat (padded content) src = Some (padded (content ++ src)).
Proof.
  intros Hfree Hlen. unfold strcat.
  rewrite strlen_padded by (assumption || lia). simpl.
  rewrite store_bytes_padded by (rewrite length_app; simpl; lia).
  f_equal. unfold padded. rewrite <- !app_assoc. do 2 f_equal.
  rewrite !length_app. simpl.
  rewrite (replicate_pred (MAX_TRACELOG_MSG_LENGTH - _)) by lia.
  do 2 f_equal. lia.
Qed.

Lemma strcat_overflow content src :
  NUL_free content ->
  (length content < MAX_TRACELOG_MSG_LENGTH)%nat ->
  (MAX_TRACELOG_MSG_LENGTH ≤ length content + length src)%nat ->
  strcat (padded content) src = None.
Proof.
  intros Hfree Hlen Hover. unfold strcat.
  rewrite strlen_padded by assumption. simpl.
  apply store_bytes_overflow.
  rewrite length_padded, length_app by lia. simpl. lia.
Qed.

Lemma strcpy_blank src :
  (length src < MAX_TRACELOG_MSG_LENGTH)%nat ->
  strcpy (replicate MAX_TRACELOG_MSG_LENGTH NUL) src = Some (padded src).
Proof.
  intros H. unfold strcpy.
  change (replicate MAX_TRACELOG_MSG_LENGTH NUL) with (padded []).
  change 0%nat with (length (@nil byte)).
  rewrite store_bytes_padded by (rewrite length_app; simpl; lia).
  f_equal. unfold padded. simpl. rewrite <- app_assoc. f_equal.
  rewrite length_app. simpl. unfold MAX_TRACELOG_MSG_LENGTH in *.
  rewrite (replicate_pred (128 - length src)) by lia.
  do 2 f_equal. lia.
Qed.

Lemma label_bytes_facts logType :
  NUL_free (label_bytes logType) /\ (length (label_bytes logType) ≤ 9)%nat.
Proof.
  split; [unfold label_bytes; destruct (log_prefix logType);
          [apply until_NUL_free | constructor]|].
  unfold label_bytes, log_prefix.
  repeat (destruct (_ =? _); [vm_compute; lia|]). simpl. lia.
Qed.

Lemma staged_label logType :
  match log_prefix logType with
  | Some label => strcpy (replicate MAX_TRACELOG_MSG_LENGTH NUL) (c_str label)
  | None => Some (replicate MAX_TRACELOG_MSG_LENGTH NUL)
  end = Some (padded (label_bytes logType)).
Proof.
  pose proof (label_bytes_facts logType) as [_ Hlen].
  unfold label_bytes in *. destruct (log_prefix logType).
  - apply strcpy_blank. unfold MAX_TRACELOG_MSG_LENGTH. lia.
  - reflexivity.
Qed.

(** When the message fits, the array ends up holding label, text and line
    feed; when it does not, one of the two [strcat] stores past the end. *)
Lemma staged_fits logType text :
  fits_staging_buffer logType text = true ->
  staged logType text
  = Some (padded (label_bytes logType ++ c_str text ++ [LF])).
Proof.
  intros Hfit. apply bool_decide_eq_true in Hfit.
  pose proof (label_bytes_facts logType) as [Hfree Hlen].
  unfold staged. rewrite staged_label. simpl.
  rewrite strcat_padded by (assumption || lia). simpl.
  rewrite strcat_padded.
  - rewrite <- app_assoc. reflexivity.
  - apply NUL_free_app; [assumption | apply until_NUL_free].
  - rewrite length_app. simpl. lia.
Qed.

Lemma staged_overflow logType text :
  fits_staging_buffer logType text = false ->
  staged logType text = None.
Proof.
  intros Hfit. apply bool_decide_eq_false in Hfit.
  pose proof (label_bytes_facts logType) as [Hfree Hlen].
  unfold staged. rewrite staged_label. simpl.
  destruct (decide (length (label_bytes logType) + length (c_str text)
                    < MAX_TRACELOG_MSG_LENGTH)%nat) as [Hin|Hout].
  - rewrite strcat_padded by assumption. simpl.
    apply strcat_overflow.
    + apply NUL_free_app; [assumption | apply until_NUL_free].
    + rewrite length_app. lia.
    + rewrite length_app. simpl. lia.
  - rewrite strcat_overflow; [reflexivity | assumption | | lia].
    unfold MAX_TRACELOG_MSG_LENGTH. lia.
Qed.

(** ** [TraceLog] in closed form *)

Lemma vprintf_padded content args w :
  NUL_free content -> (length content < MAX_TRACELOG_MSG_LENGTH)%nat ->
  vprintf (padded content) args w
  = Returned [EvVprintf (String.string_of_list_byte content) args] w tt.
Proof.
  intros Hfree Hlen. unfold vprintf, bind.
  rewrite strlen_padded by assumption.
  unfold defined, ret, emit. cbn [after app].
  unfold padded. rewrite take_app_length. reflexivity.
Qed.

Lemma stage_and_print logType text args w :
  (buffer <- match log_prefix logType with
             | Some label =>
                 defined (strcpy (replicate MAX_TRACELOG_MSG_LENGTH NUL) (c_str label))
             | None => ret (replicate MAX_TRACELOG_MSG_LENGTH NUL)
             end ;;
   buffer <- defined (strcat buffer (c_str text)) ;;
   buffer <- defined (strcat buffer [LF]) ;;
   vprintf buffer args) w
  = if fits_staging_buffer logType text
    then Returned [EvVprintf (formatted_message logType text) args] w tt
    else Undefined.
Proof.
  pose proof (label_bytes_facts logType) as [Hfree Hlen].
  assert (Hstaged :
    (buffer <- match log_prefix logType with
               | Some label =>
                   defined (strcpy (replicate MAX_TRACELOG_MSG_LENGTH NUL) (c_str label))
               | None => ret (replicate MAX_TRACELOG_MSG_LENGTH NUL)
               end ;;
     buffer <- defined (strcat buffer (c_str text)) ;;
     buffer <- defined (strcat buffer [LF]) ;;
     vprintf buffer args) w
    = match staged logType text with
      | Some buffer => vprintf buffer args w
      | None => Undefined
      end).
  { unfold staged, bind.
    destruct (log_prefix logType) as [label|]; simpl.
    - destruct (strcpy _ (c_str label)) as [b1|]; simpl; [|reflexivity].
      destruct (strcat b1 (c_str text)) as [b2|]; simpl; [|reflexivity].
      destruct (strcat b2 [LF]) as [b3|]; simpl; [|reflexivity].
      destruct (vprintf b3 args w); reflexivity.
    - destruct (strcat _ (c_str text)) as [b2|]; simpl; [|reflexivity].
      destruct (strcat b2 [LF]) as [b3|]; simpl; [|reflexivity].
      destruct (vprintf b3 args w); reflexivity. }
  rewrite Hstaged.
  destruct (fits_staging_buffer logType text) eqn:Hfit.
  - rewrite staged_fits by assumption.
    apply bool_decide_eq_true in Hfit.
    apply vprintf_padded.
    + apply NUL_free_app; [assumption|].
      apply NUL_free_app; [apply until_NUL_free|].
      repeat constructor.
    + rewrite !length_app. simpl. lia.
  - rewrite staged_overflow by assumption. reflexivity.
Qed.

Lemma TraceLog_closed_form cfg logType text args w :
  TraceLog cfg logType text args w =
  if negb (SUPPORT_TRACELOG cfg) then Returned [] w tt
  else if logType <? logTypeLevel w then Returned [] w tt
  else match logCallback w with
       | Some cb => Returned [EvCallback cb logType text args] w tt
       | None =>
           if well_staged cfg logType text then
             let t := option_list (default_event cfg logType text args) in
             if logTypeExit w <=? logType then Exited t w 1 else Returned t w tt
           else Undefined
       end.
Proof.
  unfold TraceLog.
  destruct (negb (SUPPORT_TRACELOG cfg)); [reflexivity|].
  unfold bind at 1. unfold get at 1. cbn [after].
  destruct (logType <? logTypeLevel w); [reflexivity|].
  unfold bind at 1. unfold get at 1. cbn [after].
  destruct (logCallback w) as [cb|]; [reflexivity|].
  unfold well_staged, default_event.
  destruct (PLATFORM_ANDROID cfg).
  - unfold bind, get, emit, ret, exit.
    destruct (android_priority logType); simpl;
      destruct (logTypeExit w <=? logType); reflexivity.
  - unfold bind at 1. rewrite stage_and_print.
    destruct (fits_staging_buffer logType text); [|reflexivity].
    unfold bind, get, exit, ret. simpl.
    destruct (logTypeExit w <=? logType); reflexivity.
Qed.

(** Whatever it does otherwise, [TraceLog] leaves the world as it found it
    and only ever talks to the log. *)
Lemma TraceLog_world cfg logType text args w :
  match TraceLog cfg logType text args w with
  | Returned t w' _ => w' = w /\ Forall (fun e => is_log_event e = true) t
  | Exited t w' status => w' = w /\ Forall (fun e => is_log_event e = true) t
  | Undefined => well_staged cfg logType text = false
  end.
Proof.
  rewrite TraceLog_closed_form.
  destruct (negb (SUPPORT_TRACELOG cfg)); [split; constructor|].
  destruct (logType <? logTypeLevel w); [split; constructor|].
  destruct (logCallback w); [split; repeat constructor|].
  destruct (well_staged cfg logType text); [|reflexivity].
  unfold default_event.
  destruct (PLATFORM_ANDROID cfg).
  - destruct (android_priority logType), (logTypeExit w <=? logType);
      split; repeat constructor.
  - destruct (logTypeExit w <=? logType); split; repeat constructor.
Qed.

Lemma log_events_no_file_call t :
  Forall (fun e => is_log_event e = true) t -> file_calls t = [] /\ asset_calls t = [].
Proof.
  induction 1 as [|e t He _ [IH1 IH2]]; [split; reflexivity|].
  unfold file_calls, asset_calls in *. simpl. rewrite IH1, IH2.
  destruct e; try discriminate He; split; reflexivity.
Qed.

(** ** The logger: filtering, callback and exit *)

(** C1: a message whose severity lies below the minimum level is dropped on
    entry: [TraceLog] returns at once, with no event at all (no output, no
    callback), without reaching the exit test, and with the world, the
    logger's globals included, exactly as before.  This holds in every build,
    the one without [SUPPORT_TRACELOG] included. *)
Theorem TraceLog_below_level cfg w logType text args :
  logType < logTypeLevel w ->
  TraceLog cfg logType text args w = Returned [] w tt.
Proof.
  intros Hlow. unfold TraceLog.
  destruct (negb (SUPPORT_TRACELOG cfg)); [reflexivity|].
  unfold bind, get. cbn [after].
  apply Z.ltb_lt in Hlow. rewrite Hlow. reflexivity.
Qed.

Lemma TraceLog_below_level_witness :
  LOG_DEBUG < logTypeLevel (initial_world ∅)
  /\ TraceLog desktop LOG_DEBUG "Loading" [VaInt 3] (initial_world ∅)
     = Returned [] (initial_world ∅) tt.
Proof.
  split; [reflexivity|].
  apply (TraceLog_below_level desktop (initial_world ∅) LOG_DEBUG "Loading" [VaInt 3]).
  reflexivity.
Defined.

(** C2: with a callback installed, a message at or above the minimum level
    is handed to the callback with the severity, the format string and the
    argument list as they came in; that call is the only event, so nothing is
    formatted or printed, and [TraceLog] returns, whatever the exit threshold
    is, with the world unchanged. *)
Theorem TraceLog_callback cfg w logType text args cb :
  SUPPORT_TRACELOG cfg = true ->
  logTypeLevel w <= logType ->
  logCallback w = Some cb ->
  TraceLog cfg logType text args w
  = Returned [EvCallback cb logType text args] w tt.
Proof.
  intros Hsupport Hlevel Hcb. unfold TraceLog.
  rewrite Hsupport. cbn [negb].
  unfold bind at 1. unfold get at 1. cbn [after].
  apply Z.ltb_ge in Hlevel. rewrite Hlevel.
  unfold bind, get. rewrite Hcb. reflexivity.
Qed.

Lemma TraceLog_callback_witness :
  let w := set_logCallback (Some (FunPtr 7)) (initial_world ∅) in
  SUPPORT_TRACELOG desktop = true
  /\ logTypeLevel w <= LOG_FATAL
  /\ logCallback w = Some (FunPtr 7)
  /\ logTypeExit w <= LOG_FATAL
  /\ TraceLog desktop LOG_FATAL "Out of memory: %i" [VaInt 12] w
     = Returned [EvCallback (FunPtr 7) LOG_FATAL "Out of memory: %i" [VaInt 12]] w tt.
Proof.
  cbv zeta. split; [reflexivity|]. split; [vm_compute; discriminate|].
  split; [reflexivity|]. split; [vm_compute; discriminate|].
  apply (TraceLog_callback desktop);
    [reflexivity | vm_compute; discriminate | reflexivity].
Defined.

(** C3, as amended: without a callback, a message at or above the minimum
    level, of one of the six severities the [switch] knows (or of any
    severity in the build without the Android log) and short enough for the
    staging buffer, is written to the default output with exactly one call
    (one [vprintf] of label, text and line feed, or one call of the Android
    log), and then the exit test runs: at or above the exit threshold the
    process terminates with status 1 after that single output event, below
    it [TraceLog] returns. *)
Theorem TraceLog_exit_threshold cfg w logType text args :
  SUPPORT_TRACELOG cfg = true ->
  logTypeLevel w <= logType ->
  logCallback w = None ->
  well_staged cfg logType text = true ->
  PLATFORM_ANDROID cfg = false \/ known_severity logType ->
  exists ev,
    (if PLATFORM_ANDROID cfg
     then exists prio, ev = EvAndroidLog prio "raylib" text args
     else ev = EvVprintf (formatted_message logType text) args)
    /\ (logTypeExit w <= logType ->
        TraceLog cfg logType text args w = Exited [ev] w 1)
    /\ (logType < logTypeExit w ->
        TraceLog cfg logType text args w = Returned [ev] w tt).
Proof.
  intros Hsupport Hlevel Hcb Hstaged Hknown.
  assert (Hev : exists ev,
    default_event cfg logType text args = Some ev
    /\ (if PLATFORM_ANDROID cfg
        then exists prio, ev = EvAndroidLog prio "raylib" text args
        else ev = EvVprintf (formatted_message logType text) args)).
  { unfold default_event. destruct (PLATFORM_ANDROID cfg).
    - destruct Hknown as [Hknown|Hknown]; [discriminate|].
      unfold known_severity, LOG_TRACE, LOG_FATAL in Hknown.
      assert (Hprio : exists prio, android_priority logType = Some prio).
      { unfold android_priority,
          LOG_TRACE, LOG_DEBUG, LOG_INFO, LOG_WARNING, LOG_ERROR, LOG_FATAL.
        repeat match goal with
               | |- context [logType =? ?k] =>
                   destruct (Z.eqb_spec logType k); [eexists; reflexivity|]
               end.
        lia. }
      destruct Hprio as [prio Hprio]. rewrite Hprio. cbn [mbind option_bind].
      eexists. split; [reflexivity|]. exists prio. reflexivity.
    - eexists. split; reflexivity. }
  destruct Hev as (ev & Hev & Hshape). exists ev. split; [exact Hshape|].
  rewrite TraceLog_closed_form, Hsupport, Hcb, Hstaged, Hev.
  apply Z.ltb_ge in Hlevel. rewrite Hlevel. cbn [negb option_list].
  split; intros Hexit.
  - apply Z.leb_le in Hexit. rewrite Hexit. reflexivity.
  - apply Z.leb_gt in Hexit. rewrite Hexit. reflexivity.
Qed.

Lemma TraceLog_exit_threshold_witness :
  let w := initial_world ∅ in
  (logTypeExit w <= LOG_ERROR /\
   TraceLog desktop LOG_ERROR "Failed to initialize GLFW" [] w
   = Exited [EvVprintf (formatted_message LOG_ERROR "Failed to initialize GLFW") []] w 1)
  /\ (LOG_WARNING < logTypeExit w /\
      TraceLog desktop LOG_WARNING "Failed to initialize GLFW" [] w
      = Returned [EvVprintf (formatted_message LOG_WARNING "Failed to initialize GLFW") []]
                 w tt)
  /\ (known_severity LOG_FATAL /\ logTypeExit w <= LOG_FATAL /\
      exists prio,
        TraceLog android LOG_FATAL "Out of memory" [] w
        = Exited [EvAndroidLog prio "raylib" "Out of memory" []] w 1).
Proof.
  cbv zeta. split; [|split].
  - split; [vm_compute; discriminate|].
    destruct (TraceLog_exit_threshold desktop (initial_world ∅) LOG_ERROR
                "Failed to initialize GLFW" []) as (ev & -> & Hexit & _);
      [reflexivity | vm_compute; discriminate | reflexivity | reflexivity
      | left; reflexivity |].
    apply Hexit. vm_compute. discriminate.
  - split; [reflexivity|].
    destruct (TraceLog_exit_threshold desktop (initial_world ∅) LOG_WARNING
                "Failed to initialize GLFW" []) as (ev & -> & _ & Hreturn);
      [reflexivity | vm_compute; discriminate | reflexivity | reflexivity
      | left; reflexivity |].
    apply Hreturn. reflexivity.
  - split; [split; vm_compute; discriminate|].
    split; [vm_compute; discriminate|].
    destruct (TraceLog_exit_threshold android (initial_world ∅) LOG_FATAL
                "Out of memory" []) as (ev & [prio ->] & Hexit & _);
      [reflexivity | vm_compute; discriminate | reflexivity | reflexivity
      | right; split; vm_compute; discriminate |].
    exists prio. apply Hexit. vm_compute. discriminate.
Defined.

(** C3, the claim as stated fails: on Android the [switch] has no case for a
    severity outside the six, so a message of severity [LOG_NONE], at or
    above both thresholds and with no callback installed, is written
    nowhere, and the process is terminated all the same. *)
Lemma exit_without_output :
  let w := initial_world ∅ in
  logTypeLevel w <= LOG_NONE
  /\ logTypeExit w <= LOG_NONE
  /\ logCallback w = None
  /\ TraceLog android LOG_NONE "shutting down" [] w = Exited [] w 1.
Proof.
  cbv zeta. split; [vm_compute; discriminate|]. split; [vm_compute; discriminate|].
  split; reflexivity.
Qed.

(** Past the limit the default branch is undefined: one of the two [strcat]
    stores outside the array. *)
Lemma TraceLog_overflow cfg w logType text args :
  SUPPORT_TRACELOG cfg = true ->
  PLATFORM_ANDROID cfg = false ->
  logTypeLevel w <= logType ->
  logCallback w = None ->
  fits_staging_buffer logType text = false ->
  TraceLog cfg logType text args w = Undefined.
Proof.
  intros Hsupport Handroid Hlevel Hcb Hfit.
  rewrite TraceLog_closed_form, Hsupport, Hcb.
  unfold well_staged. rewrite Handroid, Hfit.
  apply Z.ltb_ge in Hlevel. rewrite Hlevel. reflexivity.
Qed.

(** C5: the composition of label, format string and line feed is not
    guarded.  [strcpy] and [strcat] write into the 128-byte array without any
    test of the length: a format string of 128 letters makes the first
    [strcat] store past the end of the array, which is undefined behaviour;
    for an INFO message 120 letters still fit and 121 do not. *)
Theorem TraceLog_overruns_staging_buffer :
  TraceLog desktop LOG_INFO (letters 128) [] (initial_world ∅) = Undefined
  /\ strcat (padded (label_bytes LOG_INFO)) (c_str (letters 128)) = None
  /\ TraceLog desktop LOG_INFO (letters 121) [] (initial_world ∅) = Undefined
  /\ TraceLog desktop LOG_INFO (letters 120) [] (initial_world ∅)
     = Returned [EvVprintf (formatted_message LOG_INFO (letters 120)) []]
                (initial_world ∅) tt.
Proof. repeat split; vm_compute; reflexivity. Qed.

(** ** Names that are not valid *)

Lemma invalid_name_staged cfg : well_staged cfg LOG_WARNING invalid_name = true.
Proof. unfold well_staged. destruct (PLATFORM_ANDROID cfg); reflexivity. Qed.

Lemma invalid_name_outcome cfg w :
  match TraceLog cfg LOG_WARNING invalid_name [] w with
  | Returned t w' _ => w' = w /\ file_calls t = []
  | Exited t w' _ => w' = w /\ file_calls t = [] /\ logTypeExit w <= LOG_WARNING
  | Undefined => False
  end.
Proof.
  pose proof (TraceLog_world cfg LOG_WARNING invalid_name [] w) as Hw.
  rewrite invalid_name_staged in Hw.
  pose proof (TraceLog_closed_form cfg LOG_WARNING invalid_name [] w) as Hc.
  destruct (TraceLog cfg LOG_WARNING invalid_name [] w) as [t w' []|t w' s|].
  - destruct Hw as [-> Hlog]. split; [reflexivity|].
    apply log_events_no_file_call, Hlog.
  - destruct Hw as [-> Hlog]. split; [reflexivity|].
    split; [apply log_events_no_file_call, Hlog|].
    destruct (negb _); [discriminate|].
    destruct (_ <? _); [discriminate|].
    destruct (logCallback w); [discriminate|].
    destruct (well_staged _ _ _); [|discriminate].
    cbv zeta in Hc. destruct (logTypeExit w <=? LOG_WARNING) eqn:E; [|discriminate].
    apply Z.leb_le, E.
  - discriminate.
Qed.

Lemma rejects_name_log cfg w :
  rejects_name cfg w tt (TraceLog cfg LOG_WARNING invalid_name [] w).
Proof.
  unfold rejects_name.
  pose proof (invalid_name_outcome cfg w) as H.
  destruct (TraceLog cfg LOG_WARNING invalid_name [] w) as [t w' []|t w' s|];
    cbn [events_of]; [| |contradiction].
  - destruct H as [-> Hcalls]. repeat split. assumption.
  - destruct H as (-> & Hcalls & Hexit). repeat split; assumption.
Qed.

Lemma rejects_name_then {A} cfg w (sentinel : A) :
  rejects_name cfg w sentinel
    ((TraceLog cfg LOG_WARNING invalid_name [] ;; ret sentinel) w).
Proof.
  unfold rejects_name, bind, ret.
  pose proof (invalid_name_outcome cfg w) as H.
  destruct (TraceLog cfg LOG_WARNING invalid_name [] w) as [t w' []|t w' s|];
    cbn [after events_of]; [| |contradiction].
  - destruct H as [-> Hcalls]. rewrite app_nil_r. repeat split. assumption.
  - destruct H as (-> & Hcalls & Hexit). repeat split; assumption.
Qed.

(** C4, as amended: each of the four helpers rejects the null name before
    anything is opened: the warning is logged, no call reaches the C library
    or the asset manager, and the empty result comes back. *)
Theorem null_name_rejected cfg w data bytesToWrite text :
  rejects_name cfg w (None, 0) (LoadFileData cfg None w)
  /\ rejects_name cfg w tt (SaveFileData cfg None data bytesToWrite w)
  /\ rejects_name cfg w None (LoadFileText cfg None w)
  /\ rejects_name cfg w tt (SaveFileText cfg None text w).
Proof.
  split; [|split; [|split]].
  - apply (rejects_name_then cfg w (None, 0)).
  - apply rejects_name_log.
  - apply (rejects_name_then cfg w None).
  - apply rejects_name_log.
Qed.

(** C4, the claim as stated fails: the empty name is not null.  Every helper
    hands it to [fopen], and the only thing that stops the call is that no
    file of that name can be opened. *)
Lemma empty_name_is_opened :
  let w := initial_world ∅ in
  file_calls (events_of (LoadFileData desktop (Some "") w)) = [EvFopen "" "rb"]
  /\ file_calls (events_of (SaveFileData desktop (Some "") [] 0 w)) = [EvFopen "" "wb"]
  /\ file_calls (events_of (LoadFileText desktop (Some "") w)) = [EvFopen "" "rt"]
  /\ file_calls (events_of (SaveFileText desktop (Some "") "" w)) = [EvFopen "" "wt"]
  /\ ~ rejects_name desktop w (None, 0) (LoadFileData desktop (Some "") w).
Proof.
  cbv zeta. do 4 (split; [vm_compute; reflexivity|]).
  intros (_ & Hcalls & _). vm_compute in Hcalls. discriminate Hcalls.
Qed.

(** ** The asset shim *)

Lemma std_fopen_events cfg path mode w :
  events_of (std_fopen cfg path mode w) = [EvFopen path mode].
Proof.
  unfold std_fopen, bind, emit, get, modify, alloc, ret. cbn [after].
  destruct (parse_mode mode) as [[kind acc]|]; [|reflexivity].
  destruct (disk w !! path) as [[data writable|pending]|].
  - destruct (can_write acc && negb writable); [reflexivity|].
    destruct kind; reflexivity.
  - destruct (can_write acc); reflexivity.
  - destruct kind; try reflexivity; destruct (decide (path = "")); reflexivity.
Qed.

(** C8, as amended: when the mode string begins with [w], the shim never
    calls the asset manager; its one and only call is the C library's [fopen]
    on the file name placed under the base data path, with the mode as
    given. *)
Theorem android_fopen_write_mode cfg w fileName mode base :
  first_char_is "w" mode = true ->
  internalDataPath w = Some base ->
  android_fopen cfg fileName mode w = std_fopen cfg (base +:+ "/" +:+ fileName) mode w
  /\ events_of (android_fopen cfg fileName mode w)
     = [EvFopen (base +:+ "/" +:+ fileName) mode]
  /\ asset_calls (events_of (android_fopen cfg fileName mode w)) = [].
Proof.
  intros Hmode Hbase.
  assert (Heq : android_fopen cfg fileName mode w
                = std_fopen cfg (base +:+ "/" +:+ fileName) mode w).
  { unfold android_fopen. rewrite Hmode.
    unfold bind at 1. unfold get at 1. rewrite Hbase. cbn [after].
    unfold bind at 1. unfold TextFormat_path, ret. cbn [after].
    destruct (std_fopen cfg _ mode w); reflexivity. }
  rewrite Heq, std_fopen_events. repeat split.
Qed.

Lemma android_fopen_write_mode_witness :
  first_char_is "w" "wb" = true
  /\ internalDataPath android_world = Some "/data/app"
  /\ events_of (android_fopen android "save.dat" "wb" android_world)
     = [EvFopen "/data/app/save.dat" "wb"]
  /\ asset_calls (events_of (android_fopen android "save.dat" "wb" android_world)) = [].
Proof.
  split; [reflexivity|]. split; [reflexivity|].
  apply (android_fopen_write_mode android android_world "save.dat" "wb" "/data/app");
    reflexivity.
Defined.

(** C8, the claim as stated fails: the shim looks at the first character
    only.  Opening for append or for update goes to the asset manager first,
    and for a name found in the bundle the caller gets the read-only adapter
    and the C library is never asked. *)
Lemma append_mode_reaches_bundle :
  indicates_write_intent "a" = true
  /\ events_of (android_fopen android "save.dat" "a" android_world)
     = [EvAssetOpen "save.dat"; EvFopen "/data/app/save.dat" "a"]
  /\ indicates_write_intent "r+" = true
  /\ events_of (android_fopen android "logo.png" "r+" android_world)
     = [EvAssetOpen "logo.png"]
  /\ asset_calls (events_of (android_fopen android "save.dat" "a" android_world)) <> [].
Proof.
  do 4 (split; [vm_compute; reflexivity|]).
  vm_compute. discriminate.
Qed.

(** Whatever the arguments, [android_write] answers [EACCES] and leaves the
    world alone. *)
Lemma android_write_result cfg cookie buf size w :
  match android_write cfg cookie buf size w with
  | Returned _ w' r => w' = w /\ r = EACCES
  | _ => True
  end.
Proof.
  unfold android_write, TRACELOG, bind, ret.
  pose proof (TraceLog_world cfg LOG_WARNING
                "ANDROID: Failed to provide write access to APK" [] w) as Hw.
  destruct (TraceLog cfg LOG_WARNING _ [] w) as [t w' []|t w' s|]; cbn [after].
  - destruct Hw as [-> _]. split; reflexivity.
  - exact I.
  - exact I.
Qed.

(** C9: a write through the adapter logs the warning, but what it returns
    to the stream layer is [EACCES], a positive number.  The write function
    given to [funopen] reports a failure with a negative value; a positive
    one is the number of bytes taken.  The attempt below, three bytes on the
    stream of the bundled asset, is answered with 13: not a failure, and more
    than was offered; [fwrite] on that stream reports all three bytes as
    written. *)
Theorem android_write_reports_bytes :
  let opened := android_fopen android "logo.png" "rb" android_world in
  let abc := String.list_byte_of_string "abc" in
  let warning := EvAndroidLog ANDROID_LOG_WARN "raylib"
                   "ANDROID: Failed to provide write access to APK" [] in
  exists w cookie,
    opened = Returned [EvAssetOpen "logo.png"] w (Some 2%positive)
    /\ heap w !! 2%positive = Some (FunopenStream cookie)
    /\ android_write android cookie abc 3 w = Returned [warning] w EACCES
    /\ funopen_write_report EACCES = Transferred 13
    /\ fwrite android abc 3 2%positive w
       = Returned [EvFwrite 2%positive 3; warning] w 3.
Proof.
  cbv zeta. eexists _, _. split; [vm_compute; reflexivity|].
  split; [vm_compute; reflexivity|].
  split; [vm_compute; reflexivity|].
  split; vm_compute; reflexivity.
Qed.

(** ** Loading text *)

(** C7: the size test of [LoadFileText] does not catch a size that could
    not be read.  On a stream that cannot be repositioned (here a pipe)
    [ftell] answers -1, which the cast to [unsigned int] turns into
    4294967295: the test [size > 0] passes, [malloc] is asked for
    [size + 1 = 0] bytes and [fread] for 4294967295.  With nothing in the
    pipe the helper returns an empty string and logs success; with anything
    in it [fread] stores into a block of no bytes.  [LoadFileData], which
    keeps the size in an [int], fails as it should on the same pipe. *)
Theorem LoadFileText_unreadable_size :
  let empty_pipe := initial_world {[ "pipe" := Fifo [] ]} in
  let full_pipe := initial_world {[ "pipe" := Fifo (String.list_byte_of_string "hi") ]} in
  to_uint32 (-1) = 4294967295
  /\ value_of (LoadFileText desktop (Some "pipe") empty_pipe) = Some (Some [Some NUL])
  /\ log_stream (events_of (LoadFileText desktop (Some "pipe") empty_pipe))
     = [EvVprintf (formatted_message LOG_INFO "FILEIO: [%s] Text file loaded successfully")
                  [VaStr "pipe"]]
  /\ LoadFileText desktop (Some "pipe") full_pipe = Undefined
  /\ value_of (LoadFileData desktop (Some "pipe") full_pipe) = Some (None, 0)
  /\ log_stream (events_of (LoadFileData desktop (Some "pipe") full_pipe))
     = [EvVprintf (formatted_message LOG_WARNING "FILEIO: [%s] Failed to read file")
                  [VaStr "pipe"]].
Proof. cbv zeta. repeat (split; [vm_compute; reflexivity|]). vm_compute; reflexivity. Qed.

(** ** Saving and loading back *)

(** C6, the claim as stated fails, in three ways.  Saving no bytes and
    loading the file back: the save logs a failed write, the load finds a
    size of zero, logs a failed read and returns the null pointer, not a
    buffer.  On Android, a name that is also the name of a bundled asset is
    saved under the base data path and loaded from the bundle: other bytes
    come back.  And with the exit threshold lowered to INFO the message of
    success ends the process inside the save. *)
Lemma round_trip_fails :
  let empty := (SaveFileData desktop (Some "a.bin") [] 0 ;;
                LoadFileData desktop (Some "a.bin")) (initial_world ∅) in
  let bundled := (SaveFileData android (Some "logo.png") [x01; x02] 2 ;;
                  LoadFileData android (Some "logo.png")) android_world in
  let strict := (SetTraceLogExit LOG_INFO ;;
                 SaveFileData desktop (Some "a.bin") [x01; x02] 2 ;;
                 LoadFileData desktop (Some "a.bin")) (initial_world ∅) in
  value_of empty = Some (None, 0)
  /\ value_of empty <> Some (Some (Some <$> []), 0)
  /\ log_stream (events_of empty)
     = [EvVprintf (formatted_message LOG_WARNING "FILEIO: [%s] Failed to write file")
                  [VaStr "a.bin"];
        EvVprintf (formatted_message LOG_WARNING "FILEIO: [%s] Failed to read file")
                  [VaStr "a.bin"]]
  /\ value_of bundled = Some (Some [Some x50; Some x4e; Some x47], 3)
  /\ value_of bundled <> Some (Some (Some <$> [x01; x02]), 2)
  /\ value_of strict = None
  /\ events_of strict
     = [EvFopen "a.bin" "wb"; EvFwrite 1 2;
        EvVprintf (formatted_message LOG_INFO "FILEIO: [%s] File saved successfully")
                  [VaStr "a.bin"]].
Proof.
  cbv zeta. split; [vm_compute; reflexivity|].
  split; [vm_compute; discriminate|].
  split; [vm_compute; reflexivity|].
  split; [vm_compute; reflexivity|].
  split; [vm_compute; discriminate|].
  split; vm_compute; reflexivity.
Qed.

(** ** Stepping through the C library *)

Lemma takeZ_ge {A} (l : list A) n : lengthZ l <= n -> takeZ n l = l.
Proof.
  unfold lengthZ. revert n. induction l as [|x l IH]; intros n Hn; [reflexivity|].
  cbn [takeZ]. cbn [length] in Hn.
  destruct (n <=? 0) eqn:E; [apply Z.leb_le in E; lia|].
  f_equal. apply IH. lia.
Qed.

Lemma takeZ_le0 {A} (l : list A) n : n <= 0 -> takeZ n l = [].
Proof.
  intros Hn. destruct l; [reflexivity|]. cbn [takeZ].
  apply Z.leb_le in Hn. rewrite Hn. reflexivity.
Qed.

Lemma dropZ_le0 {A} (l : list A) n : n <= 0 -> dropZ n l = l.
Proof.
  intros Hn. destruct l; [reflexivity|]. cbn [dropZ].
  apply Z.leb_le in Hn. rewrite Hn. reflexivity.
Qed.

Lemma to_uint32_small z : 0 <= z < 2 ^ 32 -> to_uint32 z = z.
Proof. intros H. unfold to_uint32. apply Z.mod_small, H. Qed.

Lemma to_int32_small z : 0 <= z < 2 ^ 31 -> to_int32 z = z.
Proof.
  intros H. unfold to_int32. rewrite to_uint32_small by lia.
  destruct (z <? 2 ^ 31) eqn:E; [reflexivity|]. apply Z.ltb_ge in E. lia.
Qed.

Lemma bind_Returned {A B} (m : M A) (k : A -> M B) w t w' a :
  m w = Returned t w' a -> bind m k w = after t (k a w').
Proof. intros H. unfold bind. rewrite H. reflexivity. Qed.

Lemma bind_Exited {A B} (m : M A) (k : A -> M B) w t w' s :
  m w = Exited t w' s -> bind m k w = Exited t w' s.
Proof. intros H. unfold bind. rewrite H. reflexivity. Qed.

(** [TraceLog] reads the three logger globals and nothing else. *)
Lemma TraceLog_globals cfg logType text args w w' :
  logTypeLevel w' = logTypeLevel w ->
  logTypeExit w' = logTypeExit w ->
  logCallback w' = logCallback w ->
  TraceLog cfg logType text args w' = in_world w' (TraceLog cfg logType text args w).
Proof.
  intros Hl He Hc. rewrite !TraceLog_closed_form, Hl, He, Hc.
  destruct (negb _); [reflexivity|].
  destruct (_ <? _); [reflexivity|].
  destruct (logCallback w); [reflexivity|].
  destruct (well_staged _ _ _); [|reflexivity].
  cbv zeta. destruct (_ <=? _); reflexivity.
Qed.

Lemma TraceLog_settings cfg logType text args w w' :
  same_settings w w' ->
  TraceLog cfg logType text args w' = in_world w' (TraceLog cfg logType text args w).
Proof. intros (Hl & He & Hc & _). apply TraceLog_globals; assumption. Qed.

Lemma events_in_world {A} w (o : outcome A) : events_of (in_world w o) = events_of o.
Proof. destruct o; reflexivity. Qed.

Lemma fopen_for_writing cfg w path mode target :
  first_char_is "w" mode = true ->
  disk_target cfg w path = Some target ->
  fopen cfg path mode w = std_fopen cfg target mode w.
Proof.
  unfold fopen, disk_target. intros Hmode Htarget.
  destruct (PLATFORM_ANDROID cfg).
  - destruct (internalDataPath w) as [base|] eqn:Hbase; [|discriminate].
    injection Htarget as <-.
    unfold android_fopen. rewrite Hmode.
    unfold bind at 1. unfold get at 1. rewrite Hbase. cbn [after].
    unfold bind at 1. unfold TextFormat_path, ret. cbn [after].
    destruct (std_fopen cfg _ mode w); reflexivity.
  - injection Htarget as <-. reflexivity.
Qed.

Lemma fopen_for_reading cfg w path mode target :
  first_char_is "w" mode = false ->
  read_target cfg w path = Some target ->
  fopen cfg path mode w
  = after (if PLATFORM_ANDROID cfg then [EvAssetOpen path] else [])
          (std_fopen cfg target mode w).
Proof.
  unfold fopen, read_target. intros Hmode Htarget.
  destruct (PLATFORM_ANDROID cfg).
  - destruct (assetManager w) as [manager|] eqn:Hmanager; [|discriminate].
    cbn [mbind option_bind] in Htarget.
    destruct (bundle manager !! path) eqn:Hasset; [discriminate|].
    destruct (internalDataPath w) as [base|] eqn:Hbase; [|discriminate].
    injection Htarget as <-.
    unfold android_fopen. rewrite Hmode.
    unfold bind at 1. unfold get at 1. rewrite Hmanager. cbn [after].
    unfold bind at 1. unfold AAssetManager_open.
    unfold bind at 1. unfold emit at 1. cbn [after].
    rewrite Hasset. unfold ret at 1. cbn [after app].
    unfold bind at 1. unfold get at 1. rewrite Hbase. cbn [after].
    unfold bind at 1. unfold TextFormat_path, ret. cbn [after].
    destruct (std_fopen cfg _ mode w); reflexivity.
  - injection Htarget as <-. destruct (std_fopen cfg path mode w); reflexivity.
Qed.

Lemma std_fopen_wb cfg w path :
  opens_for_writing (disk w) path = true ->
  exists w1 file,
    std_fopen cfg path "wb" w = Returned [EvFopen path "wb"] w1 (Some file)
    /\ holds w w1 file (DiskStream path 0 WriteOnly false) path (Regular [] true).
Proof.
  unfold opens_for_writing. intros Hopen.
  unfold std_fopen.
  change (parse_mode "wb") with (Some (OpenTruncate, WriteOnly)).
  change (has_char "b" "wb") with true.
  rewrite andb_false_r.
  unfold bind, emit, get, modify, alloc, ret. cbn [after app].
  destruct (disk w !! path) as [[data writable|pending]|] eqn:Hpath.
  - subst writable. cbn [can_write negb andb after app].
    eexists _, _. split; [reflexivity|].
    repeat split; cbn [heap disk set_heap set_disk]; apply lookup_insert_eq.
  - discriminate.
  - destruct (decide (path = "")) as [->|Hne]; [discriminate|].
    cbn [after app].
    eexists _, _. split; [reflexivity|].
    repeat split; cbn [heap disk set_heap set_disk]; apply lookup_insert_eq.
Qed.

Ltac settle_holds :=
  repeat split;
  cbn [heap disk logTypeLevel logTypeExit logCallback assetManager internalDataPath
       io_quota next_object set_heap set_disk];
  first [apply lookup_insert_eq | assumption | reflexivity].

Lemma fwrite_disk cfg w0 w file path pos acc old writable data n :
  holds w0 w file (DiskStream path pos acc false) path (Regular old writable) ->
  can_write acc = true ->
  n <= lengthZ data ->
  let sent := transferred (io_quota w0) (takeZ n data) in
  exists w',
    fwrite cfg data n file w = Returned [EvFwrite file n] w' (lengthZ sent)
    /\ holds w0 w' file (DiskStream path (pos + lengthZ sent) acc false) path
         (Regular (takeZ pos old ++ replicate (Z.to_nat (pos - lengthZ old)) NUL
                   ++ sent ++ dropZ (pos + lengthZ sent) old) writable).
Proof.
  intros (Hfile & Hpath & Hsame) Hacc Hn sent.
  pose proof Hsame as (Hl & He & Hc & Hm & Hb & Hq).
  unfold fwrite, stream_write, deref, update, bind, emit, get, defined, modify, ret.
  cbn [after app].
  apply Z.ltb_ge in Hn. rewrite Hn. cbn [after app].
  rewrite Hfile. cbn [after app].
  rewrite Hacc. cbn [negb after app].
  rewrite Hpath, Hq. cbn [after app].
  eexists. split; [reflexivity|]. settle_holds.
Qed.

Lemma fclose_disk w0 w file path pos acc text n :
  holds w0 w file (DiskStream path pos acc text) path n ->
  exists w',
    fclose file w = Returned [EvFclose file] w' 0
    /\ disk w' !! path = Some n /\ same_settings w0 w'.
Proof.
  intros (Hfile & Hpath & Hsame).
  pose proof Hsame as (Hl & He & Hc & Hm & Hb & Hq).
  unfold fclose, deref, free, bind, emit, get, defined, modify, ret.
  cbn [after app]. rewrite Hfile. cbn [after app].
  eexists. split; [reflexivity|]. settle_holds.
Qed.

Lemma log_stream_app t1 t2 : log_stream (t1 ++ t2) = log_stream t1 ++ log_stream t2.
Proof. apply List.filter_app. Qed.

Lemma log_stream_id t :
  Forall (fun e => is_log_event e = true) t -> log_stream t = t.
Proof.
  induction 1 as [|e t He _ IH]; [reflexivity|].
  unfold log_stream in *. cbn [List.filter]. rewrite He, IH. reflexivity.
Qed.

Lemma TraceLog_log_stream cfg logType text args w :
  log_stream (events_of (TraceLog cfg logType text args w))
  = events_of (TraceLog cfg logType text args w).
Proof.
  pose proof (TraceLog_world cfg logType text args w) as H.
  destruct (TraceLog cfg logType text args w); cbn [events_of];
    [apply log_stream_id, H | apply log_stream_id, H | reflexivity].
Qed.

(** [SaveFileData] on a file that opens: the bytes the C library took are on
    the disk, one message is logged, and the stream is closed unless that
    message ends the process. *)
Lemma SaveFileData_opened cfg w path target data n :
  disk_target cfg w path = Some target ->
  opens_for_writing (disk w) target = true ->
  n <= lengthZ data ->
  let sent := transferred (io_quota w) (takeZ n data) in
  let report := save_report (to_uint32 (lengthZ sent)) n in
  exists file w',
    disk w' !! target = Some (Regular sent true) /\ same_settings w w'
    /\ match TraceLog cfg report.1 report.2 [VaStr path] w with
       | Returned t _ _ =>
           SaveFileData cfg (Some path) data n w
           = Returned ([EvFopen target "wb"; EvFwrite file n] ++ t ++ [EvFclose file]) w' tt
       | Exited t _ s =>
           SaveFileData cfg (Some path) data n w
           = Exited ([EvFopen target "wb"; EvFwrite file n] ++ t) w' s
       | Undefined => SaveFileData cfg (Some path) data n w = Undefined
       end.
Proof.
  intros Htarget Hopen Hn sent report.
  destruct (std_fopen_wb cfg w target Hopen) as (w1 & file & Hfopen & Hholds).
  destruct (fwrite_disk cfg w w1 file target 0 WriteOnly [] true data n
              Hholds eq_refl Hn) as (w2 & Hfwrite & Hholds2).
  fold sent in Hfwrite, Hholds2.
  change (Z.to_nat (0 - lengthZ (@nil byte))) with 0%nat in Hholds2.
  cbn [takeZ dropZ replicate app] in Hholds2.
  rewrite app_nil_r in Hholds2.
  destruct (fclose_disk w w2 file target _ _ _ _ Hholds2)
    as (w3 & Hfclose & Hdisk3 & Hsame3).
  destruct Hholds2 as (_ & Hdisk2 & Hsame2).
  assert (Hlog : forall logType text,
             TraceLog cfg logType text [VaStr path] w2
             = in_world w2 (TraceLog cfg logType text [VaStr path] w))
    by (intros; apply TraceLog_settings, Hsame2).
  assert (Hrun :
    SaveFileData cfg (Some path) data n w
    = after [EvFopen target "wb"; EvFwrite file n]
        ((TraceLog cfg report.1 report.2 [VaStr path] ;; fclose file ;; ret tt) w2)).
  { unfold SaveFileData.
    rewrite (bind_Returned _ _ _ _ _ _
               (eq_trans (fopen_for_writing cfg w path "wb" target eq_refl Htarget) Hfopen)).
    rewrite (bind_Returned _ _ _ _ _ _ Hfwrite).
    unfold TRACELOG, report, save_report. fold sent.
    destruct (to_uint32 (lengthZ sent) =? 0).
    - destruct (bind _ _ w2); reflexivity.
    - destruct (negb (to_uint32 (lengthZ sent) =? n)); destruct (bind _ _ w2); reflexivity. }
  destruct (TraceLog cfg report.1 report.2 [VaStr path] w) as [t wl []|t wl s|] eqn:E;
    rewrite Hrun; unfold bind at 1; rewrite Hlog, E; cbn [in_world after].
  - exists file, w3. split; [assumption|]. split; [assumption|].
    rewrite (bind_Returned _ _ _ _ _ _ Hfclose). unfold ret. cbn [after app].
    reflexivity.
  - exists file, w2. split; [assumption|]. split; [assumption|]. reflexivity.
  - exists file, w2. split; [assumption|]. split; [assumption|]. reflexivity.
Qed.

Lemma SaveFileData_log cfg w path target data n :
  disk_target cfg w path = Some target ->
  opens_for_writing (disk w) target = true ->
  n <= lengthZ data ->
  let report :=
    save_report (to_uint32 (lengthZ (transferred (io_quota w) (takeZ n data)))) n in
  log_stream (events_of (SaveFileData cfg (Some path) data n w))
  = events_of (TraceLog cfg report.1 report.2 [VaStr path] w).
Proof.
  intros Htarget Hopen Hn report.
  destruct (SaveFileData_opened cfg w path target data n Htarget Hopen Hn)
    as (file & w' & _ & _ & Hrun).
  fold report in Hrun.
  pose proof (TraceLog_log_stream cfg report.1 report.2 [VaStr path] w) as Hlog.
  destruct (TraceLog cfg report.1 report.2 [VaStr path] w) as [t wl []|t wl s|];
    rewrite Hrun; cbn [events_of] in *.
  - rewrite !log_stream_app, Hlog. cbn. apply app_nil_r.
  - rewrite log_stream_app, Hlog. reflexivity.
  - reflexivity.
Qed.

Lemma transferred_nil q : transferred q [] = [].
Proof. reflexivity. Qed.

Lemma transferred_none q (offered : list byte) :
  q = Some 0 -> transferred q offered = [].
Proof.
  intros ->. unfold transferred, limit. apply takeZ_le0.
  change (Z.max 0 0) with 0. lia.
Qed.

Lemma transferred_all (offered : list byte) : transferred None offered = offered.
Proof. unfold transferred, limit. apply takeZ_ge. lia. Qed.

(** ** Saving no bytes *)

(** Whenever warnings reach the log at all, the warning of a failed write and
    the message of success leave different things on it. *)
Lemma failed_write_is_not_success cfg w path :
  SUPPORT_TRACELOG cfg = true ->
  logTypeLevel w <= LOG_WARNING ->
  events_of (TraceLog cfg LOG_WARNING "FILEIO: [%s] Failed to write file" [VaStr path] w)
  <> events_of (TraceLog cfg LOG_INFO "FILEIO: [%s] File saved successfully"
                  [VaStr path] w).
Proof.
  intros Hsupport Hlevel. rewrite !TraceLog_closed_form, Hsupport. cbn [negb].
  apply Z.ltb_ge in Hlevel. rewrite Hlevel.
  assert (Hw : well_staged cfg LOG_WARNING "FILEIO: [%s] Failed to write file" = true)
    by (unfold well_staged; destruct (PLATFORM_ANDROID cfg); reflexivity).
  assert (Hi : well_staged cfg LOG_INFO "FILEIO: [%s] File saved successfully" = true)
    by (unfold well_staged; destruct (PLATFORM_ANDROID cfg); reflexivity).
  rewrite Hw, Hi. cbv zeta. unfold default_event.
  destruct (logCallback w) as [cb|].
  - destruct (LOG_INFO <? logTypeLevel w); cbn [events_of]; discriminate.
  - destruct (PLATFORM_ANDROID cfg);
      destruct (LOG_INFO <? logTypeLevel w),
               (logTypeExit w <=? LOG_WARNING), (logTypeExit w <=? LOG_INFO);
      vm_compute; discriminate.
Qed.

(** C10: when the file opens and no byte is to be written, [fwrite]
    returns 0 and the test [count == 0] comes first: what reaches the log is
    what the warning "Failed to write file" leaves there, which is not what
    the message of success would have left.  A save that asks for bytes and
    gets none written leaves exactly the same on the log, so the log alone
    does not tell the two apart. *)
Theorem SaveFileData_zero_bytes cfg w path target data :
  disk_target cfg w path = Some target ->
  opens_for_writing (disk w) target = true ->
  let warning :=
    TraceLog cfg LOG_WARNING "FILEIO: [%s] Failed to write file" [VaStr path] w in
  log_stream (events_of (SaveFileData cfg (Some path) data 0 w)) = events_of warning
  /\ (SUPPORT_TRACELOG cfg = true ->
      logTypeLevel w <= LOG_WARNING ->
      events_of warning
      <> events_of (TraceLog cfg LOG_INFO "FILEIO: [%s] File saved successfully"
                      [VaStr path] w))
  /\ forall data' n,
       0 < n <= lengthZ data' ->
       log_stream (events_of (SaveFileData cfg (Some path) data' n
                                (set_io_quota (Some 0) w)))
       = events_of warning.
Proof.
  intros Htarget Hopen warning. split; [|split].
  - rewrite (SaveFileData_log cfg w path target data 0 Htarget Hopen)
      by (unfold lengthZ; lia).
    rewrite (takeZ_le0 data 0), transferred_nil by lia. reflexivity.
  - apply failed_write_is_not_success.
  - intros data' n Hn.
    rewrite (SaveFileData_log cfg (set_io_quota (Some 0) w) path target data' n)
      by (assumption || lia).
    rewrite transferred_none by reflexivity.
    change (save_report (to_uint32 (lengthZ (@nil byte))) n)
      with (LOG_WARNING, "FILEIO: [%s] Failed to write file").
    cbn [fst snd].
    rewrite (TraceLog_globals cfg _ _ _ w) by reflexivity.
    apply events_in_world.
Qed.

Lemma SaveFileData_zero_bytes_witness :
  let w := initial_world ∅ in
  let hello := String.list_byte_of_string "hello" in
  disk_target desktop w "a.bin" = Some "a.bin"
  /\ opens_for_writing (disk w) "a.bin" = true
  /\ log_stream (events_of (SaveFileData desktop (Some "a.bin") hello 0 w))
     = [EvVprintf (formatted_message LOG_WARNING "FILEIO: [%s] Failed to write file")
                  [VaStr "a.bin"]]
  /\ log_stream (events_of (SaveFileData desktop (Some "a.bin") hello 5
                              (set_io_quota (Some 0) w)))
     = [EvVprintf (formatted_message LOG_WARNING "FILEIO: [%s] Failed to write file")
                  [VaStr "a.bin"]]
  /\ log_stream (events_of (SaveFileData desktop (Some "a.bin") hello 5 w))
     = [EvVprintf (formatted_message LOG_INFO "FILEIO: [%s] File saved successfully")
                  [VaStr "a.bin"]].
Proof.
  cbv zeta. split; [reflexivity|]. split; [reflexivity|].
  pose proof (SaveFileData_zero_bytes desktop (initial_world ∅) "a.bin" "a.bin"
                (String.list_byte_of_string "hello") eq_refl eq_refl)
    as (Hzero & _ & Hfail).
  split; [rewrite Hzero; vm_compute; reflexivity|].
  split; [rewrite Hfail by (vm_compute; split; [reflexivity | discriminate]);
          vm_compute; reflexivity|].
  vm_compute; reflexivity.
Defined.

(** ** Loading back what was saved *)

Lemma std_fopen_rb cfg w path data writable :
  disk w !! path = Some (Regular data writable) ->
  exists w1 file,
    std_fopen cfg path "rb" w = Returned [EvFopen path "rb"] w1 (Some file)
    /\ holds w w1 file (DiskStream path 0 ReadOnly false) path (Regular data writable).
Proof.
  intros Hpath. unfold std_fopen.
  change (parse_mode "rb") with (Some (OpenExisting, ReadOnly)).
  change (has_char "b" "rb") with true.
  rewrite andb_false_r.
  unfold bind, emit, get, modify, alloc, ret. cbn [after app].
  rewrite Hpath. cbn [can_write negb andb after app].
  eexists _, _. split; [reflexivity|]. settle_holds.
Qed.

Lemma fseek_disk w0 w file path pos acc text data writable offset whence target :
  holds w0 w file (DiskStream path pos acc text) path (Regular data writable) ->
  seek_target (lengthZ data) pos offset whence = Some target ->
  exists w',
    fseek file offset whence w = Returned [EvFseek file offset whence] w' 0
    /\ holds w0 w' file (DiskStream path target acc text) path (Regular data writable).
Proof.
  intros (Hfile & Hpath & Hsame) Htarget.
  pose proof Hsame as (Hl & He & Hc & Hm & Hb & Hq).
  unfold fseek, deref, update, bind, emit, get, defined, modify, ret.
  cbn [after app]. rewrite Hfile. cbn [after app].
  rewrite Hpath, Htarget. cbn [after app].
  eexists. split; [reflexivity|]. settle_holds.
Qed.

Lemma ftell_disk w0 w file path pos acc text data writable :
  holds w0 w file (DiskStream path pos acc text) path (Regular data writable) ->
  ftell file w = Returned [EvFtell file] w pos.
Proof.
  intros (Hfile & Hpath & Hsame).
  unfold ftell, deref, bind, emit, get, defined, ret.
  cbn [after app]. rewrite Hfile. cbn [after app].
  rewrite Hpath. reflexivity.
Qed.

Lemma fread_disk w0 w file path pos acc text data writable buf n :
  holds w0 w file (DiskStream path pos acc text) path (Regular data writable) ->
  can_read acc = true ->
  let got := delivered (io_quota w0) text data pos n in
  (length got.1 ≤ length buf)%nat ->
  exists w',
    fread buf n file w
    = Returned [EvFread file n] w' (lengthZ got.1, (Some <$> got.1) ++ drop (length got.1) buf)
    /\ holds w0 w' file (DiskStream path got.2 acc text) path (Regular data writable).
Proof.
  intros (Hfile & Hpath & Hsame) Hacc got Hroom.
  pose proof Hsame as (Hl & He & Hc & Hm & Hb & Hq).
  unfold fread, stream_read, deref, update, bind, emit, get, defined, modify, ret.
  cbn [after app]. rewrite Hfile. cbn [after app].
  rewrite Hacc. cbn [negb after app].
  rewrite Hpath, Hq. cbn [after app].
  fold (delivered (io_quota w0) text data pos n). fold got.
  change (if text
          then crlf_decode (takeZ (limit (io_quota w0) n) (dropZ pos data))
          else takeZ (limit (io_quota w0) n) (dropZ pos data)) with got.1.
  destruct (decide (length got.1 ≤ length buf)%nat); [|contradiction].
  cbn [after app].
  eexists. split; [reflexivity|]. settle_holds.
Qed.

Lemma TraceLog_survives cfg w logType text args :
  survives cfg w logType = true ->
  well_staged cfg logType text = true ->
  exists t, TraceLog cfg logType text args w = Returned t w tt.
Proof.
  unfold survives. intros Hs Hstaged. rewrite TraceLog_closed_form, Hstaged.
  destruct (negb _); [eexists; reflexivity|].
  destruct (_ <? logTypeLevel w); [eexists; reflexivity|].
  destruct (logCallback w); [eexists; reflexivity|].
  cbn [orb] in Hs. apply Z.ltb_lt in Hs. apply Z.leb_gt in Hs.
  cbv zeta. rewrite Hs. eexists; reflexivity.
Qed.

Lemma survives_settings cfg w w' logType :
  same_settings w w' -> survives cfg w' logType = survives cfg w logType.
Proof. intros (Hl & He & Hc & _). unfold survives. rewrite Hl, He, Hc. reflexivity. Qed.

Lemma read_target_settings cfg w w' path :
  same_settings w w' -> read_target cfg w' path = read_target cfg w path.
Proof.
  intros (_ & _ & _ & Hm & Hb & _). unfold read_target. rewrite Hm, Hb. reflexivity.
Qed.

Lemma read_target_disk_target cfg w path target :
  read_target cfg w path = Some target -> disk_target cfg w path = Some target.
Proof.
  unfold read_target, disk_target. destruct (PLATFORM_ANDROID cfg); [|trivial].
  destruct (assetManager w) as [manager|]; [|discriminate].
  cbn [mbind option_bind]. destruct (bundle manager !! path); [discriminate|trivial].
Qed.

(** [LoadFileData] on a file of N bytes, 0 < N < 2^31, that is read in full:
    a block of exactly those N bytes and N in [*bytesRead]. *)
Lemma LoadFileData_loaded cfg w path target data writable :
  read_target cfg w path = Some target ->
  disk w !! target = Some (Regular data writable) ->
  io_quota w = None ->
  0 < lengthZ data < 2 ^ 31 ->
  survives cfg w LOG_INFO = true ->
  exists t w',
    LoadFileData cfg (Some path) w = Returned t w' (Some (Some <$> data), lengthZ data)
    /\ same_settings w w'.
Proof.
  intros Htarget Hdisk Hquota Hsize Hsurvives.
  destruct (std_fopen_rb cfg w target data writable Hdisk) as (w1 & file & Hfopen & H1).
  destruct (fseek_disk w w1 file target 0 ReadOnly false data writable 0 SEEK_END
              (lengthZ data) H1) as (w2 & Hseek_end & H2).
  { unfold seek_target, SEEK_END, SEEK_SET, SEEK_CUR. simpl.
    rewrite Z.add_0_r. destruct (0 <=? lengthZ data) eqn:E; [reflexivity|].
    apply Z.leb_gt in E. lia. }
  pose proof (ftell_disk w w2 file target _ _ _ _ _ H2) as Htell.
  destruct (fseek_disk w w2 file target _ ReadOnly false data writable 0 SEEK_SET
              0 H2) as (w3 & Hseek_set & H3); [reflexivity|].
  assert (Hgot : delivered (io_quota w) false data 0 (lengthZ data)
                 = (data, lengthZ data)).
  { unfold delivered. rewrite Hquota. cbn [limit].
    rewrite dropZ_le0, takeZ_ge by lia. reflexivity. }
  destruct (fread_disk w w3 file target 0 ReadOnly false data writable
              (malloc (lengthZ data)) (lengthZ data) H3 eq_refl)
    as (w4 & Hread & H4).
  { rewrite Hgot. cbn [fst]. unfold malloc. rewrite length_replicate.
    unfold lengthZ. lia. }
  rewrite Hgot in Hread, H4. cbn [fst snd] in Hread, H4.
  replace (drop (length data) (malloc (lengthZ data))) with (@nil (option byte))
    in Hread
    by (symmetry; apply drop_ge; unfold malloc, lengthZ;
        rewrite length_replicate; lia).
  rewrite app_nil_r in Hread.
  destruct (fclose_disk w w4 file target _ _ _ _ H4) as (w5 & Hclose & _ & Hsame5).
  destruct H4 as (_ & _ & Hsame4).
  destruct (TraceLog_survives cfg w4 LOG_INFO "FILEIO: [%s] File loaded successfully"
              [VaStr path]) as (t & Hlog).
  { rewrite (survives_settings cfg w w4) by assumption. assumption. }
  { unfold well_staged. destruct (PLATFORM_ANDROID cfg); reflexivity. }
  unfold LoadFileData.
  unfold bind at 1.
  rewrite (fopen_for_reading cfg w path "rb" target eq_refl Htarget), Hfopen.
  cbn [after].
  rewrite (bind_Returned _ _ _ _ _ _ Hseek_end).
  rewrite (bind_Returned _ _ _ _ _ _ Htell). cbv zeta.
  rewrite (bind_Returned _ _ _ _ _ _ Hseek_set).
  rewrite to_int32_small by lia.
  destruct (0 <? lengthZ data) eqn:Epos; [|apply Z.ltb_ge in Epos; lia].
  unfold bind at 1. unfold bind at 1.
  rewrite Hread. cbn [after fst snd].
  rewrite !to_uint32_small by lia. rewrite Z.eqb_refl. cbn [negb].
  unfold TRACELOG. unfold bind at 1. rewrite Hlog. cbn [after].
  unfold ret at 1. cbn [after].
  rewrite (bind_Returned _ _ _ _ _ _ Hclose). unfold ret. cbn [after].
  eexists _, _. split; [reflexivity | assumption].
Qed.

(** C6, as amended: for a name that opens for writing and, to be read, is
    looked up on the disk, for data of at least one byte and fewer than 2^31,
    zero bytes included, with transfers that complete and a logger that lets
    the process live after an INFO message: saving the data and loading the
    same name returns a block holding exactly the bytes saved, and their
    number in [*bytesRead]. *)
Theorem save_then_load cfg w path target data :
  read_target cfg w path = Some target ->
  opens_for_writing (disk w) target = true ->
  io_quota w = None ->
  0 < lengthZ data < 2 ^ 31 ->
  survives cfg w LOG_INFO = true ->
  exists t w',
    (SaveFileData cfg (Some path) data (lengthZ data) ;; LoadFileData cfg (Some path)) w
    = Returned t w' (Some (Some <$> data), lengthZ data).
Proof.
  intros Htarget Hopen Hquota Hsize Hsurvives.
  destruct (SaveFileData_opened cfg w path target data (lengthZ data)
              (read_target_disk_target _ _ _ _ Htarget) Hopen (Z.le_refl _))
    as (file & w1 & Hdisk1 & Hsame1 & Hsave).
  rewrite Hquota, takeZ_ge, transferred_all in Hdisk1, Hsave by lia.
  rewrite to_uint32_small in Hsave by lia.
  unfold save_report in Hsave.
  destruct (lengthZ data =? 0) eqn:E0; [apply Z.eqb_eq in E0; lia|].
  rewrite Z.eqb_refl in Hsave. cbn [negb fst snd] in Hsave.
  destruct (TraceLog_survives cfg w LOG_INFO "FILEIO: [%s] File saved successfully"
              [VaStr path] Hsurvives) as (t1 & Hlog).
  { unfold well_staged. destruct (PLATFORM_ANDROID cfg); reflexivity. }
  rewrite Hlog in Hsave.
  destruct (LoadFileData_loaded cfg w1 path target data true) as (t2 & w2 & Hload & _).
  - rewrite (read_target_settings cfg w w1) by assumption. assumption.
  - assumption.
  - destruct Hsame1 as (_ & _ & _ & _ & _ & Hq). congruence.
  - assumption.
  - rewrite (survives_settings cfg w w1) by assumption. assumption.
  - rewrite (bind_Returned _ _ _ _ _ _ Hsave), Hload. cbn [after].
    eexists _, _. reflexivity.
Qed.

Lemma save_then_load_witness :
  let w := initial_world ∅ in
  let data := [x00; x41; x00; xff] in
  read_target desktop w "a.bin" = Some "a.bin"
  /\ opens_for_writing (disk w) "a.bin" = true
  /\ io_quota w = None
  /\ 0 < lengthZ data < 2 ^ 31
  /\ survives desktop w LOG_INFO = true
  /\ exists t w',
       (SaveFileData desktop (Some "a.bin") data 4 ;; LoadFileData desktop (Some "a.bin")) w
       = Returned t w' (Some [Some x00; Some x41; Some x00; Some xff], 4).
Proof.
  cbv zeta. do 3 (split; [reflexivity|]).
  split; [split; reflexivity|]. split; [reflexivity|].
  apply (save_then_load desktop (initial_world ∅) "a.bin" "a.bin" [x00; x41; x00; xff]);
    first [reflexivity | split; reflexivity].
Defined.

(** ** Loading text: the part that holds *)

Lemma std_fopen_rt cfg w path data writable :
  disk w !! path = Some (Regular data writable) ->
  exists w1 file,
    std_fopen cfg path "rt" w = Returned [EvFopen path "rt"] w1 (Some file)
    /\ holds w w1 file (DiskStream path 0 ReadOnly (TEXT_MODE_CRLF cfg)) path
         (Regular data writable).
Proof.
  intros Hpath. unfold std_fopen.
  change (parse_mode "rt") with (Some (OpenExisting, ReadOnly)).
  change (has_char "b" "rt") with false.
  rewrite andb_true_r.
  unfold bind, emit, get, modify, alloc, ret. cbn [after app].
  rewrite Hpath. cbn [can_write negb andb after app].
  eexists _, _. split; [reflexivity|]. settle_holds.
Qed.

Lemma crlf_decode_length bs : (length (crlf_decode bs) ≤ length bs)%nat.
Proof.
  induction bs as [|b rest IH]; [reflexivity|].
  cbn [crlf_decode]. destruct rest as [|b' rest']; [reflexivity|].
  destruct (Byte.eqb b CR && Byte.eqb b' LF); cbn [length] in *; lia.
Qed.

Lemma takeZ_length {A} (l : list A) n : (length (takeZ n l) ≤ length l)%nat.
Proof.
  revert n. induction l as [|x l IH]; intros n; [reflexivity|].
  cbn [takeZ]. destruct (n <=? 0); cbn [length]; [lia|].
  specialize (IH (n - 1)). lia.
Qed.

Lemma dropZ_length {A} (l : list A) n : (length (dropZ n l) ≤ length l)%nat.
Proof.
  revert n. induction l as [|x l IH]; intros n; [reflexivity|].
  cbn [dropZ]. destruct (n <=? 0); cbn [length]; [lia|].
  specialize (IH (n - 1)). lia.
Qed.

Lemma delivered_length q text data pos n :
  (length (delivered q text data pos n).1 ≤ length data)%nat.
Proof.
  unfold delivered. cbn [fst].
  pose proof (takeZ_length (dropZ pos data) (limit q n)).
  pose proof (dropZ_length data pos).
  destruct text; [pose proof (crlf_decode_length (takeZ (limit q n) (dropZ pos data)))|];
    lia.
Qed.

(** The block of [LoadFileText] after the read: shrunk if the count fell
    short, then terminated.  Either way it holds the bytes read and one NUL,
    [count + 1] bytes in all. *)
Lemma shrink_and_terminate (got : list byte) size w :
  lengthZ got <= size -> size + 1 < 2 ^ 32 ->
  let count := to_uint32 (lengthZ got) in
  let text := (Some <$> got) ++ drop (length got) (malloc (to_uint32 (size + 1))) in
  poke (if count <? size then realloc text (to_uint32 (count + 1)) else text) count NUL w
  = Returned [] w ((Some <$> got) ++ [Some NUL]).
Proof.
  unfold lengthZ. intros Hcount Hsize. cbv zeta.
  rewrite (to_uint32_small (Z.of_nat (length got))) by lia.
  rewrite !to_uint32_small by lia.
  unfold malloc. rewrite drop_replicate.
  assert (Hput : forall k : nat,
    (0 < k)%nat ->
    poke (take (length got + 1) ((Some <$> got) ++ replicate k None))
         (Z.of_nat (length got)) NUL w
    = Returned [] w ((Some <$> got) ++ [Some NUL])).
  { intros k Hk. unfold poke, lengthZ.
    rewrite take_app_ge, length_fmap by (rewrite length_fmap; lia).
    replace (length got + 1 - length got)%nat with 1%nat by lia.
    rewrite take_replicate. replace (1 `min` k)%nat with 1%nat by lia.
    cbn [replicate]. rewrite length_app, length_fmap. cbn [length].
    destruct (0 <=? Z.of_nat (length got)) eqn:E1; [|apply Z.leb_gt in E1; lia].
    destruct (Z.of_nat (length got) <? Z.of_nat (length got + 1)) eqn:E2;
      [|apply Z.ltb_ge in E2; lia].
    cbn [andb]. unfold ret. do 2 f_equal.
    rewrite Nat2Z.id.
    rewrite insert_app_r_alt by (rewrite length_fmap; lia).
    rewrite length_fmap, Nat.sub_diag. reflexivity. }
  destruct (Z.of_nat (length got) <? size) eqn:E.
  - unfold realloc. rewrite resize_le.
    + replace (Z.to_nat (Z.of_nat (length got) + 1)) with (length got + 1)%nat by lia.
      apply Hput. apply Z.ltb_lt in E. lia.
    + rewrite length_app, length_fmap, length_replicate. apply Z.ltb_lt in E. lia.
  - apply Z.ltb_ge in E.
    rewrite <- (Hput (Z.to_nat (size + 1) - length got)%nat) by lia.
    f_equal. symmetry. apply take_ge.
    rewrite length_app, length_fmap, length_replicate. lia.
Qed.

(** [LoadFileText] on a file with a size that [ftell] can report, and not
    zero: the block returned holds the bytes read, then one NUL, and nothing
    else, so [count + 1] bytes whether or not the count fell short of the
    size; a file of size zero gives the null pointer and a warning. *)
Lemma LoadFileText_terminated cfg w path target data writable :
  read_target cfg w path = Some target ->
  disk w !! target = Some (Regular data writable) ->
  lengthZ data + 1 < 2 ^ 32 ->
  let got := (delivered (io_quota w) (TEXT_MODE_CRLF cfg) data 0 (lengthZ data)).1 in
  (0 < lengthZ data ->
   survives cfg w LOG_INFO = true ->
   exists t w',
     LoadFileText cfg (Some path) w = Returned t w' (Some ((Some <$> got) ++ [Some NUL])))
  /\ (lengthZ data = 0 ->
      log_stream (events_of (LoadFileText cfg (Some path) w))
      = events_of (TraceLog cfg LOG_WARNING "FILEIO: [%s] Failed to read text file"
                     [VaStr path] w)
      /\ (survives cfg w LOG_WARNING = true ->
          value_of (LoadFileText cfg (Some path) w) = Some None)).
Proof.
  intros Htarget Hdisk Hsize got.
  destruct (std_fopen_rt cfg w target data writable Hdisk) as (w1 & file & Hfopen & H1).
  destruct (fseek_disk w w1 file target 0 ReadOnly _ data writable 0 SEEK_END
              (lengthZ data) H1) as (w2 & Hseek_end & H2).
  { unfold seek_target, SEEK_END, SEEK_SET, SEEK_CUR. simpl.
    rewrite Z.add_0_r. destruct (0 <=? lengthZ data) eqn:E; [reflexivity|].
    apply Z.leb_gt in E. unfold lengthZ in E. lia. }
  pose proof (ftell_disk w w2 file target _ _ _ _ _ H2) as Htell.
  destruct (fseek_disk w w2 file target _ ReadOnly _ data writable 0 SEEK_SET
              0 H2) as (w3 & Hseek_set & H3); [reflexivity|].
  assert (Hprefix : forall k : option FILE -> M (option block),
    (textFile <- fopen cfg path "rt" ;; k textFile) w
    = after ((if PLATFORM_ANDROID cfg then [EvAssetOpen path] else [])
             ++ [EvFopen target "rt"]) (k (Some file) w1)).
  { intros k. unfold bind at 1.
    rewrite (fopen_for_reading cfg w path "rt" target eq_refl Htarget), Hfopen.
    cbn [after]. destruct (k (Some file) w1); reflexivity. }
  assert (Hnonneg : 0 <= lengthZ data) by (unfold lengthZ; lia).
  split.
  - intros Hpos Hsurvives.
    pose proof (delivered_length (io_quota w) (TEXT_MODE_CRLF cfg) data 0 (lengthZ data))
      as Hlen. fold got in Hlen.
    destruct (fread_disk w w3 file target 0 ReadOnly _ data writable
                (malloc (to_uint32 (lengthZ data + 1))) (lengthZ data) H3 eq_refl)
      as (w4 & Hread & H4).
    { fold got. unfold malloc. rewrite length_replicate, to_uint32_small by lia.
      unfold lengthZ. lia. }
    fold got in Hread, H4.
    destruct (fclose_disk w w4 file target _ _ _ _ H4) as (w5 & Hclose & _ & Hsame5).
    destruct H4 as (_ & _ & Hsame4).
    destruct (TraceLog_survives cfg w4 LOG_INFO
                "FILEIO: [%s] Text file loaded successfully" [VaStr path]) as (t & Hlog).
    { rewrite (survives_settings cfg w w4) by assumption. assumption. }
    { unfold well_staged. destruct (PLATFORM_ANDROID cfg); reflexivity. }
    unfold LoadFileText. rewrite Hprefix.
    rewrite (bind_Returned _ _ _ _ _ _ Hseek_end).
    rewrite (bind_Returned _ _ _ _ _ _ Htell). cbv zeta.
    rewrite (bind_Returned _ _ _ _ _ _ Hseek_set).
    rewrite (to_uint32_small (lengthZ data)) by lia.
    destruct (0 <? lengthZ data) eqn:Epos; [|apply Z.ltb_ge in Epos; lia].
    unfold bind at 1. unfold bind at 1.
    rewrite Hread. cbn [after fst snd].
    unfold bind at 1.
    rewrite (shrink_and_terminate got (lengthZ data) w4)
      by (unfold lengthZ in *; lia).
    cbn [after]. unfold TRACELOG. unfold bind at 1. rewrite Hlog. cbn [after].
    unfold ret at 1. cbn [after].
    rewrite (bind_Returned _ _ _ _ _ _ Hclose). unfold ret. cbn [after].
    eexists _, _. reflexivity.
  - intros Hzero.
    destruct (fclose_disk w w3 file target _ _ _ _ H3) as (w5 & Hclose & _ & Hsame5).
    destruct H3 as (_ & _ & Hsame3).
    pose proof (TraceLog_settings cfg LOG_WARNING "FILEIO: [%s] Failed to read text file"
                  [VaStr path] w w3 Hsame3) as Hlog3.
    pose proof (TraceLog_log_stream cfg LOG_WARNING
                  "FILEIO: [%s] Failed to read text file" [VaStr path] w) as Hlog.
    assert (Hsteps : forall k : M (option block),
      LoadFileText cfg (Some path) w
      = after ((if PLATFORM_ANDROID cfg then [EvAssetOpen path] else [])
               ++ [EvFopen target "rt"])
          (after [EvFseek file 0 SEEK_END]
             (after [EvFtell file]
                (after [EvFseek file 0 SEEK_SET]
                   ((text <- (TRACELOG cfg LOG_WARNING
                                "FILEIO: [%s] Failed to read text file" [VaStr path] ;;
                              ret None) ;;
                     fclose file ;; ret text) w3))))).
    { intros _. unfold LoadFileText. rewrite Hprefix.
      rewrite (bind_Returned _ _ _ _ _ _ Hseek_end).
      rewrite (bind_Returned _ _ _ _ _ _ Htell). cbv zeta.
      rewrite (bind_Returned _ _ _ _ _ _ Hseek_set).
      rewrite Hzero. reflexivity. }
    rewrite (Hsteps (ret None)). clear Hsteps. unfold TRACELOG.
    destruct (TraceLog cfg LOG_WARNING _ [VaStr path] w) as [t w' []|t w' s|] eqn:E;
      cbn [in_world events_of] in Hlog3, Hlog.
    + assert (Hrest :
        (text <- (TraceLog cfg LOG_WARNING "FILEIO: [%s] Failed to read text file"
                    [VaStr path] ;; ret None) ;;
         fclose file ;; ret text) w3
        = Returned (t ++ [EvFclose file]) w5 (@None block)).
      { rewrite (bind_Returned _ _ _ _ _ _
                   (bind_Returned _ (fun _ => ret None) _ _ _ _ Hlog3)).
        unfold ret at 1. cbn [after].
        rewrite (bind_Returned _ _ _ _ _ _ Hclose). unfold ret. cbn [after].
        rewrite !app_nil_r. reflexivity. }
      rewrite Hrest. cbn [after events_of value_of].
      split; [|reflexivity].
      rewrite !log_stream_app, Hlog.
      destruct (PLATFORM_ANDROID cfg); cbn; apply app_nil_r.
    + rewrite (bind_Exited _ _ _ _ _ _
                 (bind_Exited _ (fun _ => ret None) _ _ _ _ Hlog3)).
      cbn [after events_of value_of]. split.
      * rewrite !log_stream_app, Hlog. destruct (PLATFORM_ANDROID cfg); reflexivity.
      * intros Hsurvives.
        destruct (TraceLog_survives cfg w LOG_WARNING
                    "FILEIO: [%s] Failed to read text file" [VaStr path] Hsurvives)
          as (t' & Ht').
        { unfold well_staged. destruct (PLATFORM_ANDROID cfg); reflexivity. }
        rewrite Ht' in E. discriminate E.
    + pose proof (TraceLog_world cfg LOG_WARNING "FILEIO: [%s] Failed to read text file"
                    [VaStr path] w) as Hw.
      rewrite E in Hw. unfold well_staged in Hw.
      destruct (PLATFORM_ANDROID cfg); discriminate Hw.
Qed.

(** On a host that translates line ends, the count falls short of the size:
    four bytes on the disk, three read, and a block of four with the NUL at
    index three. *)
Example LoadFileText_shrinks :
  value_of (LoadFileText windows (Some "notes.txt")
              (initial_world {[ "notes.txt" := Regular [x61; CR; LF; x62] true ]}))
  = Some (Some [Some x61; Some LF; Some x62; Some NUL]).
Proof. vm_compute. reflexivity. Qed.

(** The Android branch of the logger at the exit threshold. *)
Example TraceLog_android_exit :
  TraceLog android LOG_FATAL "Out of memory" [] (initial_world ∅)
  = Exited [EvAndroidLog ANDROID_LOG_FATAL "raylib" "Out of memory" []]
           (initial_world ∅) 1.
Proof. vm_compute. reflexivity. Qed.

(** * Further properties *)

(** ** The stream of a helper, step by step *)

Lemma streaming_lookup f s b : heap (streaming f s b) !! f = Some s.
Proof. unfold streaming. cbn [heap set_heap]. apply lookup_insert_eq. Qed.

Lemma streaming_disk f s b : disk (streaming f s b) = disk b.
Proof. reflexivity. Qed.

Lemma streaming_quota f s b : io_quota (streaming f s b) = io_quota b.
Proof. reflexivity. Qed.

Lemma streaming_again f s s' b :
  set_heap (<[f := s']> (heap (streaming f s b)))
           (next_object (streaming f s b)) (streaming f s b)
  = streaming f s' b.
Proof.
  unfold streaming. cbn [heap next_object set_heap].
  rewrite insert_insert_eq. reflexivity.
Qed.

Lemma streaming_closed f s b :
  set_heap (delete f (heap (streaming f s b)))
           (next_object (streaming f s b)) (streaming f s b)
  = released f b.
Proof.
  unfold streaming, released. cbn [heap next_object set_heap].
  rewrite delete_insert_eq. reflexivity.
Qed.

Lemma streaming_with_file f s path n b :
  set_disk (<[path := n]> (disk (streaming f s b))) (streaming f s b)
  = streaming f s (with_file path n b).
Proof. reflexivity. Qed.

Lemma with_file_again path n n' w :
  with_file path n' (with_file path n w) = with_file path n' w.
Proof.
  unfold with_file. cbn [disk set_disk]. rewrite insert_insert_eq. reflexivity.
Qed.

Lemma with_file_lookup path n w : disk (with_file path n w) !! path = Some n.
Proof. unfold with_file. cbn [disk set_disk]. apply lookup_insert_eq. Qed.

(** With an allocator that hands out unused addresses, closing the stream
    leaves the heap as it was before the open. *)
Lemma released_heap b :
  heap b !! next_object b = None -> heap (released (next_object b) b) = heap b.
Proof. intros H. unfold released. cbn [heap set_heap]. apply delete_id, H. Qed.

Lemma std_fopen_existing cfg b path mode acc n :
  parse_mode mode = Some (OpenExisting, acc) ->
  can_write acc = false ->
  disk b !! path = Some n ->
  std_fopen cfg path mode b
  = Returned [EvFopen path mode]
      (streaming (next_object b)
         (DiskStream path 0 acc (TEXT_MODE_CRLF cfg && negb (has_char "b" mode))) b)
      (Some (next_object b)).
Proof.
  intros Hmode Hacc Hpath. unfold std_fopen. rewrite Hmode.
  unfold bind, emit, get, modify, alloc, ret. cbn [after app].
  rewrite Hpath, Hacc. destruct n; reflexivity.
Qed.

Lemma std_fopen_missing cfg b path mode acc :
  parse_mode mode = Some (OpenExisting, acc) ->
  disk b !! path = None ->
  std_fopen cfg path mode b = Returned [EvFopen path mode] b None.
Proof.
  intros Hmode Hpath. unfold std_fopen. rewrite Hmode.
  unfold bind, emit, get, ret. cbn [after app].
  rewrite Hpath. reflexivity.
Qed.

Lemma std_fopen_truncate cfg b path mode acc :
  parse_mode mode = Some (OpenTruncate, acc) ->
  can_write acc = true ->
  opens_for_writing (disk b) path = true ->
  std_fopen cfg path mode b
  = Returned [EvFopen path mode]
      (streaming (next_object b)
         (DiskStream path 0 acc (TEXT_MODE_CRLF cfg && negb (has_char "b" mode)))
         (with_file path (Regular [] true) b))
      (Some (next_object b)).
Proof.
  intros Hmode Hacc Hopen. unfold std_fopen, opens_for_writing in *. rewrite Hmode.
  unfold bind, emit, get, modify, alloc, ret. cbn [after app].
  destruct (disk b !! path) as [[data writable|pending]|] eqn:Hpath.
  - subst writable. rewrite Hacc. reflexivity.
  - discriminate.
  - destruct (decide (path = "")) as [->|Hne]; [discriminate|]. reflexivity.
Qed.

Lemma std_fopen_refused cfg b path mode acc :
  parse_mode mode = Some (OpenTruncate, acc) ->
  can_write acc = true ->
  write_protected (disk b) path = true ->
  std_fopen cfg path mode b = Returned [EvFopen path mode] b None.
Proof.
  intros Hmode Hacc Hopen. unfold std_fopen, write_protected in *. rewrite Hmode.
  unfold bind, emit, get, modify, alloc, ret. cbn [after app].
  destruct (disk b !! path) as [[data writable|pending]|] eqn:Hpath.
  - apply negb_true_iff in Hopen. subst writable. rewrite Hacc. reflexivity.
  - discriminate.
  - destruct (decide (path = "")) as [->|Hne]; [reflexivity|].
    apply String.eqb_eq in Hopen. contradiction.
Qed.

Lemma fseek_streaming f b path pos acc text data writable offset whence target :
  disk b !! path = Some (Regular data writable) ->
  seek_target (lengthZ data) pos offset whence = Some target ->
  fseek f offset whence (streaming f (DiskStream path pos acc text) b)
  = Returned [EvFseek f offset whence]
      (streaming f (DiskStream path target acc text) b) 0.
Proof.
  intros Hpath Htarget.
  unfold fseek, deref, update, bind, emit, get, defined, modify, ret.
  cbn [after app]. rewrite streaming_lookup. cbn [after app].
  rewrite streaming_disk, Hpath, Htarget. cbn [after app].
  rewrite streaming_again. reflexivity.
Qed.

Lemma fseek_streaming_fifo f b path pos acc text pending offset whence :
  disk b !! path = Some (Fifo pending) ->
  fseek f offset whence (streaming f (DiskStream path pos acc text) b)
  = Returned [EvFseek f offset whence]
      (streaming f (DiskStream path pos acc text) b) (-1).
Proof.
  intros Hpath.
  unfold fseek, deref, update, bind, emit, get, defined, modify, ret.
  cbn [after app]. rewrite streaming_lookup. cbn [after app].
  rewrite streaming_disk, Hpath. reflexivity.
Qed.

Lemma ftell_streaming f b path pos acc text n :
  disk b !! path = Some n ->
  ftell f (streaming f (DiskStream path pos acc text) b)
  = Returned [EvFtell f] (streaming f (DiskStream path pos acc text) b)
      match n with Regular _ _ => pos | Fifo _ => -1 end.
Proof.
  intros Hpath.
  unfold ftell, deref, bind, emit, get, defined, ret.
  cbn [after app]. rewrite streaming_lookup. cbn [after app].
  rewrite streaming_disk, Hpath. destruct n; reflexivity.
Qed.

Lemma fread_streaming f b path pos acc text data writable buf n :
  disk b !! path = Some (Regular data writable) ->
  can_read acc = true ->
  let got := delivered (io_quota b) text data pos n in
  (length got.1 ≤ length buf)%nat ->
  fread buf n f (streaming f (DiskStream path pos acc text) b)
  = Returned [EvFread f n]
      (streaming f (DiskStream path got.2 acc text) b)
      (lengthZ got.1, (Some <$> got.1) ++ drop (length got.1) buf).
Proof.
  intros Hpath Hacc got Hroom.
  unfold fread, stream_read, deref, update, bind, emit, get, defined, modify, ret.
  cbn [after app]. rewrite streaming_lookup. cbn [after app].
  rewrite Hacc. cbn [negb after app].
  rewrite !streaming_disk, !streaming_quota, Hpath. cbn [after app].
  change (if text
          then crlf_decode (takeZ (limit (io_quota b) n) (dropZ pos data))
          else takeZ (limit (io_quota b) n) (dropZ pos data)) with got.1.
  destruct (decide (length got.1 ≤ length buf)%nat); [|contradiction].
  cbn [after app]. rewrite streaming_again. reflexivity.
Qed.

Lemma fclose_streaming f b path pos acc text :
  fclose f (streaming f (DiskStream path pos acc text) b)
  = Returned [EvFclose f] (released f b) 0.
Proof.
  unfold fclose, deref, free, bind, emit, get, defined, modify, ret.
  cbn [after app]. rewrite streaming_lookup. cbn [after app].
  rewrite streaming_closed. reflexivity.
Qed.

(** What a write of [bytes] at position [pos] leaves in a file that held
    [old], and where the stream stands afterwards. *)
Lemma stream_write_streaming cfg f b path pos acc (text : bool) old writable bytes :
  disk b !! path = Some (Regular old writable) ->
  can_write acc = true ->
  let sent := transferred (io_quota b) bytes in
  let out := if text then crlf_encode sent else sent in
  stream_write cfg f bytes (streaming f (DiskStream path pos acc text) b)
  = Returned []
      (streaming f (DiskStream path (pos + lengthZ out) acc text)
         (with_file path
            (Regular (takeZ pos old ++ replicate (Z.to_nat (pos - lengthZ old)) NUL
                      ++ out ++ dropZ (pos + lengthZ out) old) writable) b))
      (lengthZ sent).
Proof.
  intros Hpath Hacc sent out.
  unfold stream_write, deref, update, bind, emit, get, defined, modify, ret.
  cbn [after app]. rewrite streaming_lookup. cbn [after app].
  rewrite Hacc. cbn [negb after app].
  rewrite !streaming_disk, !streaming_quota, Hpath. cbn [after app].
  unfold streaming, with_file. cbn [heap disk next_object set_heap set_disk].
  rewrite insert_insert_eq. reflexivity.
Qed.

(** ** More on the logger *)

(** X1: for a message that reaches the default branch of the build without
    the Android log, the two [strcat] stay inside the staging buffer exactly
    when label, text, line feed and terminator take at most
    [MAX_TRACELOG_MSG_LENGTH] bytes; one byte more and a store lands outside
    the array. *)
Theorem TraceLog_staging_bound cfg w logType text args :
  SUPPORT_TRACELOG cfg = true ->
  PLATFORM_ANDROID cfg = false ->
  logTypeLevel w <= logType ->
  logCallback w = None ->
  TraceLog cfg logType text args w = Undefined
  <-> (MAX_TRACELOG_MSG_LENGTH
       < length (label_bytes logType) + length (c_str text) + 2)%nat.
Proof.
  intros Hsupport Handroid Hlevel Hcb.
  rewrite TraceLog_closed_form, Hsupport, Hcb.
  unfold well_staged. rewrite Handroid.
  apply Z.ltb_ge in Hlevel. rewrite Hlevel. cbn [negb orb].
  unfold fits_staging_buffer. destruct (bool_decide _) eqn:E.
  - apply bool_decide_eq_true in E. cbv zeta.
    destruct (logTypeExit w <=? logType); split; first [discriminate | lia].
  - apply bool_decide_eq_false in E. split; [lia | reflexivity].
Qed.

Lemma TraceLog_staging_bound_witness :
  SUPPORT_TRACELOG desktop = true
  /\ PLATFORM_ANDROID desktop = false
  /\ logTypeLevel (initial_world ∅) <= LOG_WARNING
  /\ logCallback (initial_world ∅) = None
  /\ (TraceLog desktop LOG_WARNING (letters 118) [] (initial_world ∅) = Undefined
      <-> (MAX_TRACELOG_MSG_LENGTH
           < length (label_bytes LOG_WARNING) + length (c_str (letters 118)) + 2)%nat).
Proof.
  split; [reflexivity|]. split; [reflexivity|]. split; [vm_compute; discriminate|].
  split; [reflexivity|].
  apply (TraceLog_staging_bound desktop (initial_world ∅) LOG_WARNING (letters 118) []);
    first [reflexivity | vm_compute; discriminate].
Defined.

(** X2: a severity outside the six the [switch] statements know is still
    filtered, emitted and tested against the exit threshold.  The default
    branch prints the text and the line feed with no label in front; the
    Android branch prints nothing at all, and the process is terminated all
    the same when the severity is at or above the exit threshold. *)
Theorem TraceLog_unknown_severity cfg w logType text args :
  SUPPORT_TRACELOG cfg = true ->
  unknown_severity logType ->
  logTypeLevel w <= logType ->
  logCallback w = None ->
  well_staged cfg logType text = true ->
  let output :=
    if PLATFORM_ANDROID cfg then []
    else [EvVprintf (String.string_of_list_byte (c_str text ++ [LF])) args] in
  TraceLog cfg logType text args w
  = if logTypeExit w <=? logType then Exited output w 1 else Returned output w tt.
Proof.
  intros Hsupport Hunknown Hlevel Hcb Hstaged output.
  assert (Hprefix : log_prefix logType = None /\ android_priority logType = None).
  { unfold unknown_severity, LOG_TRACE, LOG_FATAL in Hunknown.
    unfold log_prefix, android_priority,
      LOG_TRACE, LOG_DEBUG, LOG_INFO, LOG_WARNING, LOG_ERROR, LOG_FATAL.
    repeat match goal with
           | |- context [logType =? ?k] =>
               destruct (Z.eqb_spec logType k); [lia|]
           end.
    split; reflexivity. }
  destruct Hprefix as [Hlabel Hprio].
  rewrite TraceLog_closed_form, Hsupport, Hcb, Hstaged.
  apply Z.ltb_ge in Hlevel. rewrite Hlevel. cbn [negb]. cbv zeta.
  unfold default_event, formatted_message, label_bytes, output.
  rewrite Hlabel, Hprio.
  destruct (PLATFORM_ANDROID cfg); reflexivity.
Qed.

Lemma TraceLog_unknown_severity_witness :
  let w := set_logTypeExit LOG_NONE (initial_world ∅) in
  SUPPORT_TRACELOG android = true
  /\ unknown_severity LOG_NONE
  /\ logTypeLevel w <= LOG_NONE
  /\ logCallback w = None
  /\ well_staged android LOG_NONE "shutting down" = true
  /\ TraceLog android LOG_NONE "shutting down" [] w = Exited [] w 1
  /\ TraceLog desktop LOG_NONE "shutting down" [] w
     = Exited [EvVprintf (String.string_of_list_byte
                            (c_str "shutting down" ++ [LF])) []] w 1.
Proof.
  cbv zeta. split; [reflexivity|].
  split; [right; reflexivity|]. split; [vm_compute; discriminate|].
  split; [reflexivity|]. split; [reflexivity|]. split.
  - apply (TraceLog_unknown_severity android
             (set_logTypeExit LOG_NONE (initial_world ∅)) LOG_NONE "shutting down" []);
      first [reflexivity | right; reflexivity | vm_compute; discriminate].
  - apply (TraceLog_unknown_severity desktop
             (set_logTypeExit LOG_NONE (initial_world ∅)) LOG_NONE "shutting down" []);
      first [reflexivity | right; reflexivity | vm_compute; discriminate].
Defined.


(** ** More on loading *)

Lemma survives_lower cfg w low high :
  low <= high -> survives cfg w high = true -> survives cfg w low = true.
Proof.
  unfold survives. intros Hle Hs.
  destruct (negb (SUPPORT_TRACELOG cfg)); [reflexivity|].
  cbn [orb] in *.
  destruct (logCallback w); [rewrite orb_true_r; reflexivity|].
  rewrite orb_false_r in *.
  apply orb_true_iff in Hs. apply orb_true_iff.
  destruct Hs as [Hs|Hs]; apply Z.ltb_lt in Hs; [left|right]; apply Z.ltb_lt; lia.
Qed.

(** [TraceLog] inside a helper: the world the helper has built so far has the
    logger of the world it started in. *)
Lemma TraceLog_inside cfg logType text args w W :
  logTypeLevel W = logTypeLevel w ->
  logTypeExit W = logTypeExit w ->
  logCallback W = logCallback w ->
  survives cfg w logType = true ->
  well_staged cfg logType text = true ->
  TraceLog cfg logType text args W
  = Returned (events_of (TraceLog cfg logType text args w)) W tt.
Proof.
  intros Hl He Hc Hs Hstaged.
  rewrite (TraceLog_globals cfg logType text args w W Hl He Hc).
  destruct (TraceLog_survives cfg w logType text args Hs Hstaged) as (t & ->).
  reflexivity.
Qed.

Lemma transferred_length q (offered : list byte) :
  (length (transferred q offered) ≤ length offered)%nat.
Proof. apply takeZ_length. Qed.

Lemma fopen_existing cfg w path target mode acc n :
  first_char_is "w" mode = false ->
  parse_mode mode = Some (OpenExisting, acc) ->
  can_write acc = false ->
  read_target cfg w path = Some target ->
  disk w !! target = Some n ->
  fopen cfg path mode w
  = Returned (open_events cfg path target mode)
      (streaming (next_object w)
         (DiskStream target 0 acc (TEXT_MODE_CRLF cfg && negb (has_char "b" mode))) w)
      (Some (next_object w)).
Proof.
  intros Hw Hmode Hacc Htarget Hdisk.
  rewrite (fopen_for_reading cfg w path mode target Hw Htarget).
  rewrite (std_fopen_existing cfg w target mode acc n Hmode Hacc Hdisk).
  reflexivity.
Qed.

Lemma fopen_missing cfg w path target mode acc :
  first_char_is "w" mode = false ->
  parse_mode mode = Some (OpenExisting, acc) ->
  read_target cfg w path = Some target ->
  disk w !! target = None ->
  fopen cfg path mode w = Returned (open_events cfg path target mode) w None.
Proof.
  intros Hw Hmode Htarget Hdisk.
  rewrite (fopen_for_reading cfg w path mode target Hw Htarget).
  rewrite (std_fopen_missing cfg w target mode acc Hmode Hdisk).
  reflexivity.
Qed.

(** X4: [LoadFileData] on a regular file of N bytes, 0 < N < 2^31.  The
    block returned has N bytes whatever the count: the bytes [fread]
    delivered, a prefix of the file, and after them bytes that were never
    written.  [*bytesRead] is the count, never more than N; a count short of
    N is logged as a warning and the partial block is still returned.  The
    stream is closed, and nothing else in the world has changed: neither the
    disk nor the logger. *)
Theorem LoadFileData_reads cfg w path target data writable :
  read_target cfg w path = Some target ->
  disk w !! target = Some (Regular data writable) ->
  0 < lengthZ data < 2 ^ 31 ->
  survives cfg w LOG_WARNING = true ->
  let file := next_object w in
  let got := transferred (io_quota w) data in
  let report := load_report (lengthZ got) (lengthZ data) in
  LoadFileData cfg (Some path) w
  = Returned
      (open_events cfg path target "rb"
       ++ [EvFseek file 0 SEEK_END; EvFtell file; EvFseek file 0 SEEK_SET;
           EvFread file (lengthZ data)]
       ++ events_of (TraceLog cfg report.1 report.2 [VaStr path] w)
       ++ [EvFclose file])
      (released file w)
      (Some ((Some <$> got) ++ replicate (length data - length got) None), lengthZ got)
  /\ lengthZ got <= lengthZ data.
Proof.
  intros Htarget Hdisk Hsize Hsurvives file got report.
  pose proof (transferred_length (io_quota w) data) as Hgot. fold got in Hgot.
  split; [|unfold lengthZ; lia].
  pose proof (fopen_existing cfg w path target "rb" ReadOnly _
                eq_refl eq_refl eq_refl Htarget Hdisk) as Hfopen.
  change (has_char "b" "rb") with true in Hfopen.
  rewrite andb_false_r in Hfopen. fold file in Hfopen.
  pose proof (fseek_streaming file w target 0 ReadOnly false data writable 0 SEEK_END
                (lengthZ data) Hdisk) as Hseek_end.
  assert (Hend : seek_target (lengthZ data) 0 0 SEEK_END = Some (lengthZ data)).
  { unfold seek_target, SEEK_END, SEEK_SET, SEEK_CUR. simpl.
    rewrite Z.add_0_r. destruct (0 <=? lengthZ data) eqn:E; [reflexivity|].
    apply Z.leb_gt in E. lia. }
  specialize (Hseek_end Hend).
  pose proof (ftell_streaming file w target (lengthZ data) ReadOnly false _ Hdisk)
    as Htell. cbv iota in Htell.
  pose proof (fseek_streaming file w target (lengthZ data) ReadOnly false data writable
                0 SEEK_SET 0 Hdisk eq_refl) as Hseek_set.
  assert (Hdelivered : delivered (io_quota w) false data 0 (lengthZ data)
                       = (got, 0 + lengthZ got)).
  { unfold delivered. rewrite dropZ_le0 by lia. reflexivity. }
  pose proof (fread_streaming file w target 0 ReadOnly false data writable
                (malloc (lengthZ data)) (lengthZ data) Hdisk eq_refl) as Hread.
  cbv zeta in Hread. rewrite Hdelivered in Hread. cbn [fst snd] in Hread.
  assert (Hroom : (length got ≤ length (malloc (lengthZ data)))%nat).
  { unfold malloc, lengthZ. rewrite length_replicate. lia. }
  specialize (Hread Hroom).
  replace (drop (length got) (malloc (lengthZ data)))
    with (replicate (length data - length got) (@None byte)) in Hread
    by (unfold malloc, lengthZ; rewrite drop_replicate, Nat2Z.id; reflexivity).
  pose proof (fclose_streaming file w target (0 + lengthZ got) ReadOnly false) as Hclose.
  assert (Hlog :
    TraceLog cfg report.1 report.2 [VaStr path]
      (streaming file (DiskStream target (0 + lengthZ got) ReadOnly false) w)
    = Returned (events_of (TraceLog cfg report.1 report.2 [VaStr path] w))
        (streaming file (DiskStream target (0 + lengthZ got) ReadOnly false) w) tt).
  { apply TraceLog_inside; try reflexivity.
    - unfold report, load_report.
      destruct (negb (lengthZ got =? lengthZ data)); cbn [fst]; [assumption|].
      apply (survives_lower cfg w LOG_INFO LOG_WARNING); [discriminate | assumption].
    - unfold report, load_report, well_staged.
      destruct (negb (lengthZ got =? lengthZ data)), (PLATFORM_ANDROID cfg);
        reflexivity. }
  unfold LoadFileData.
  rewrite (bind_Returned _ _ _ _ _ _ Hfopen).
  rewrite (bind_Returned _ _ _ _ _ _ Hseek_end).
  rewrite (bind_Returned _ _ _ _ _ _ Htell). cbv zeta.
  rewrite (bind_Returned _ _ _ _ _ _ Hseek_set).
  rewrite to_int32_small by lia.
  destruct (0 <? lengthZ data) eqn:Epos; [|apply Z.ltb_ge in Epos; lia].
  unfold bind at 1. unfold bind at 1.
  rewrite Hread. cbn [after fst snd].
  rewrite !to_uint32_small by (unfold lengthZ in *; lia).
  unfold TRACELOG.
  assert (Hpick :
    (if negb (lengthZ got =? lengthZ data)
     then TraceLog cfg LOG_WARNING "FILEIO: [%s] File partially loaded" [VaStr path]
     else TraceLog cfg LOG_INFO "FILEIO: [%s] File loaded successfully" [VaStr path])
    = TraceLog cfg report.1 report.2 [VaStr path]).
  { unfold report, load_report.
    destruct (negb (lengthZ got =? lengthZ data)); reflexivity. }
  rewrite Hpick. unfold bind at 1. rewrite Hlog. cbn [after].
  unfold ret at 1. cbn [after].
  rewrite (bind_Returned _ _ _ _ _ _ Hclose). unfold ret. cbn [after].
  rewrite !app_nil_r, <- !app_assoc. reflexivity.
Qed.

Lemma LoadFileData_reads_witness :
  let w := set_io_quota (Some 2)
             (initial_world {[ "f.bin" := Regular [x61; x00; x63; x64] true ]}) in
  read_target desktop w "f.bin" = Some "f.bin"
  /\ disk w !! "f.bin" = Some (Regular [x61; x00; x63; x64] true)
  /\ 0 < lengthZ [x61; x00; x63; x64] < 2 ^ 31
  /\ survives desktop w LOG_WARNING = true
  /\ value_of (LoadFileData desktop (Some "f.bin") w)
     = Some (Some [Some x61; Some x00; None; None], 2)
  /\ log_stream (events_of (LoadFileData desktop (Some "f.bin") w))
     = [EvVprintf (formatted_message LOG_WARNING "FILEIO: [%s] File partially loaded")
                  [VaStr "f.bin"]].
Proof.
  cbv zeta. split; [reflexivity|]. split; [reflexivity|].
  split; [split; reflexivity|]. split; [reflexivity|].
  destruct (LoadFileData_reads desktop
              (set_io_quota (Some 2)
                 (initial_world {[ "f.bin" := Regular [x61; x00; x63; x64] true ]}))
              "f.bin" "f.bin" [x61; x00; x63; x64] true) as [Hrun _];
    [reflexivity | reflexivity | split; reflexivity | reflexivity |].
  rewrite Hrun. split; vm_compute; reflexivity.
Defined.

(** X5: loading a name under which the disk has nothing.  [fopen] is the
    only call made, the matching warning is logged, the null pointer comes
    back (with 0 in [*bytesRead]) and the world is exactly as before: no
    stream was opened, none is left behind. *)
Theorem load_missing_file cfg w path target :
  read_target cfg w path = Some target ->
  disk w !! target = None ->
  survives cfg w LOG_WARNING = true ->
  LoadFileData cfg (Some path) w
  = Returned
      (open_events cfg path target "rb"
       ++ events_of (TraceLog cfg LOG_WARNING "FILEIO: [%s] Failed to open file"
                       [VaStr path] w))
      w (None, 0)
  /\ LoadFileText cfg (Some path) w
     = Returned
         (open_events cfg path target "rt"
          ++ events_of (TraceLog cfg LOG_WARNING "FILEIO: [%s] Failed to open text file"
                          [VaStr path] w))
         w None.
Proof.
  intros Htarget Hdisk Hsurvives. split.
  - unfold LoadFileData.
    rewrite (bind_Returned _ _ _ _ _ _
               (fopen_missing cfg w path target "rb" ReadOnly
                  eq_refl eq_refl Htarget Hdisk)).
    unfold TRACELOG.
    rewrite (bind_Returned _ _ _ _ _ _
               (TraceLog_inside cfg LOG_WARNING "FILEIO: [%s] Failed to open file"
                  [VaStr path] w w eq_refl eq_refl eq_refl Hsurvives
                  ltac:(unfold well_staged; destruct (PLATFORM_ANDROID cfg); reflexivity))).
    unfold ret. cbn [after]. rewrite app_nil_r. reflexivity.
  - unfold LoadFileText.
    rewrite (bind_Returned _ _ _ _ _ _
               (fopen_missing cfg w path target "rt" ReadOnly
                  eq_refl eq_refl Htarget Hdisk)).
    unfold TRACELOG.
    rewrite (bind_Returned _ _ _ _ _ _
               (TraceLog_inside cfg LOG_WARNING "FILEIO: [%s] Failed to open text file"
                  [VaStr path] w w eq_refl eq_refl eq_refl Hsurvives
                  ltac:(unfold well_staged; destruct (PLATFORM_ANDROID cfg); reflexivity))).
    unfold ret. cbn [after]. rewrite app_nil_r. reflexivity.
Qed.

Lemma load_missing_file_witness :
  let w := initial_world ∅ in
  read_target desktop w "nothing.dat" = Some "nothing.dat"
  /\ disk w !! "nothing.dat" = None
  /\ survives desktop w LOG_WARNING = true
  /\ LoadFileData desktop (Some "nothing.dat") w
     = Returned
         [EvFopen "nothing.dat" "rb";
          EvVprintf (formatted_message LOG_WARNING "FILEIO: [%s] Failed to open file")
                    [VaStr "nothing.dat"]]
         w (None, 0).
Proof.
  cbv zeta. split; [reflexivity|]. split; [reflexivity|]. split; [reflexivity|].
  destruct (load_missing_file desktop (initial_world ∅) "nothing.dat" "nothing.dat")
    as [Hrun _]; [reflexivity | reflexivity | reflexivity |].
  rewrite Hrun. vm_compute. reflexivity.
Defined.

Ltac run H := rewrite (bind_Returned _ _ _ _ _ _ H).

Lemma well_staged_literal cfg logType text :
  fits_staging_buffer logType text = true -> well_staged cfg logType text = true.
Proof. intros H. unfold well_staged. rewrite H. apply orb_true_r. Qed.

(** X6: loading a file whose size is zero, or cannot be told because the
    stream cannot be repositioned ([ftell] answers -1).  [LoadFileData] keeps
    the size in an [int], so both fail the test [size > 0]: nothing is
    allocated or read, the warning is logged, the stream is closed and the
    null pointer returned.  [LoadFileText] does the same for the empty
    file. *)
Theorem load_without_size cfg w path target n :
  read_target cfg w path = Some target ->
  disk w !! target = Some n ->
  match n with Regular data _ => data = [] | Fifo _ => True end ->
  survives cfg w LOG_WARNING = true ->
  let file := next_object w in
  let sized := [EvFseek file 0 SEEK_END; EvFtell file; EvFseek file 0 SEEK_SET] in
  LoadFileData cfg (Some path) w
  = Returned
      (open_events cfg path target "rb" ++ sized
       ++ events_of (TraceLog cfg LOG_WARNING "FILEIO: [%s] Failed to read file"
                       [VaStr path] w)
       ++ [EvFclose file])
      (released file w) (None, 0)
  /\ (forall writable, n = Regular [] writable ->
      LoadFileText cfg (Some path) w
      = Returned
          (open_events cfg path target "rt" ++ sized
           ++ events_of (TraceLog cfg LOG_WARNING "FILEIO: [%s] Failed to read text file"
                           [VaStr path] w)
           ++ [EvFclose file])
          (released file w) None).
Proof.
  intros Htarget Hdisk Hn Hsurvives file sized. split.
  - pose proof (fopen_existing cfg w path target "rb" ReadOnly n
                  eq_refl eq_refl eq_refl Htarget Hdisk) as Hfopen.
    change (has_char "b" "rb") with true in Hfopen.
    rewrite andb_false_r in Hfopen. fold file in Hfopen.
    pose proof (fclose_streaming file w target 0 ReadOnly false) as Hclose.
    pose proof (TraceLog_inside cfg LOG_WARNING "FILEIO: [%s] Failed to read file"
                  [VaStr path] w (streaming file (DiskStream target 0 ReadOnly false) w)
                  eq_refl eq_refl eq_refl Hsurvives
                  ltac:(apply well_staged_literal; reflexivity)) as Hlog.
    pose proof (ftell_streaming file w target 0 ReadOnly false n Hdisk) as Htell.
    unfold LoadFileData. run Hfopen.
    destruct n as [data writable|pending].
    + subst data.
      run (fseek_streaming file w target 0 ReadOnly false [] writable 0 SEEK_END 0
             Hdisk eq_refl).
      run Htell. cbv zeta.
      run (fseek_streaming file w target 0 ReadOnly false [] writable 0 SEEK_SET 0
             Hdisk eq_refl).
      change (0 <? to_int32 0) with false. cbv iota.
      unfold TRACELOG.
      rewrite (bind_Returned _ _ _ _ _ _
                 (bind_Returned _ (fun _ => ret (None, 0)) _ _ _ _ Hlog)).
      unfold ret at 1. cbn [after]. run Hclose. unfold ret. cbn [after].
      rewrite ?app_nil_r, <- ?app_assoc. reflexivity.
    + run (fseek_streaming_fifo file w target 0 ReadOnly false pending 0 SEEK_END Hdisk).
      run Htell. cbv zeta.
      run (fseek_streaming_fifo file w target 0 ReadOnly false pending 0 SEEK_SET Hdisk).
      change (0 <? to_int32 (-1)) with false. cbv iota.
      unfold TRACELOG.
      rewrite (bind_Returned _ _ _ _ _ _
                 (bind_Returned _ (fun _ => ret (None, 0)) _ _ _ _ Hlog)).
      unfold ret at 1. cbn [after]. run Hclose. unfold ret. cbn [after].
      rewrite ?app_nil_r, <- ?app_assoc. reflexivity.
  - intros writable ->.
    pose proof (fopen_existing cfg w path target "rt" ReadOnly _
                  eq_refl eq_refl eq_refl Htarget Hdisk) as Hfopen.
    change (has_char "b" "rt") with false in Hfopen.
    rewrite andb_true_r in Hfopen. fold file in Hfopen.
    pose proof (fclose_streaming file w target 0 ReadOnly (TEXT_MODE_CRLF cfg)) as Hclose.
    pose proof (TraceLog_inside cfg LOG_WARNING "FILEIO: [%s] Failed to read text file"
                  [VaStr path] w
                  (streaming file (DiskStream target 0 ReadOnly (TEXT_MODE_CRLF cfg)) w)
                  eq_refl eq_refl eq_refl Hsurvives
                  ltac:(apply well_staged_literal; reflexivity)) as Hlog.
    unfold LoadFileText. run Hfopen.
    run (fseek_streaming file w target 0 ReadOnly (TEXT_MODE_CRLF cfg) [] writable
           0 SEEK_END 0 Hdisk eq_refl).
    run (ftell_streaming file w target 0 ReadOnly (TEXT_MODE_CRLF cfg) _ Hdisk).
    cbv zeta.
    run (fseek_streaming file w target 0 ReadOnly (TEXT_MODE_CRLF cfg) [] writable
           0 SEEK_SET 0 Hdisk eq_refl).
    change (0 <? to_uint32 0) with false. cbv iota.
    unfold TRACELOG.
    rewrite (bind_Returned _ _ _ _ _ _
               (bind_Returned _ (fun _ => ret None) _ _ _ _ Hlog)).
    unfold ret at 1. cbn [after]. run Hclose. unfold ret. cbn [after].
    rewrite ?app_nil_r, <- ?app_assoc. reflexivity.
Qed.

Lemma load_without_size_witness :
  let w := initial_world {[ "pipe" := Fifo [x68; x69] ]} in
  read_target desktop w "pipe" = Some "pipe"
  /\ disk w !! "pipe" = Some (Fifo [x68; x69])
  /\ survives desktop w LOG_WARNING = true
  /\ value_of (LoadFileData desktop (Some "pipe") w) = Some (None, 0)
  /\ log_stream (events_of (LoadFileData desktop (Some "pipe") w))
     = [EvVprintf (formatted_message LOG_WARNING "FILEIO: [%s] Failed to read file")
                  [VaStr "pipe"]].
Proof.
  cbv zeta. split; [reflexivity|]. split; [reflexivity|]. split; [reflexivity|].
  destruct (load_without_size desktop (initial_world {[ "pipe" := Fifo [x68; x69] ]})
              "pipe" "pipe" (Fifo [x68; x69])) as [Hrun _];
    [reflexivity | reflexivity | exact I | reflexivity |].
  rewrite Hrun. split; vm_compute; reflexivity.
Defined.





(** ** More on saving *)

Lemma fopen_truncate cfg w path target mode acc :
  first_char_is "w" mode = true ->
  parse_mode mode = Some (OpenTruncate, acc) ->
  can_write acc = true ->
  disk_target cfg w path = Some target ->
  opens_for_writing (disk w) target = true ->
  fopen cfg path mode w
  = Returned [EvFopen target mode]
      (streaming (next_object w)
         (DiskStream target 0 acc (TEXT_MODE_CRLF cfg && negb (has_char "b" mode)))
         (with_file target (Regular [] true) w))
      (Some (next_object w)).
Proof.
  intros Hw Hmode Hacc Htarget Hopen.
  rewrite (fopen_for_writing cfg w path mode target Hw Htarget).
  apply std_fopen_truncate; assumption.
Qed.

Lemma fopen_refused cfg w path target mode acc :
  first_char_is "w" mode = true ->
  parse_mode mode = Some (OpenTruncate, acc) ->
  can_write acc = true ->
  disk_target cfg w path = Some target ->
  write_protected (disk w) target = true ->
  fopen cfg path mode w = Returned [EvFopen target mode] w None.
Proof.
  intros Hw Hmode Hacc Htarget Hopen.
  rewrite (fopen_for_writing cfg w path mode target Hw Htarget).
  apply (std_fopen_refused cfg w target mode acc); assumption.
Qed.

(** A stream just opened for writing takes [bytes]: the file, empty since the
    open, now holds what the transfer carried. *)
Lemma first_write cfg f w target acc (text : bool) bytes :
  can_write acc = true ->
  let sent := transferred (io_quota w) bytes in
  let out := if text then crlf_encode sent else sent in
  stream_write cfg f bytes
    (streaming f (DiskStream target 0 acc text) (with_file target (Regular [] true) w))
  = Returned []
      (streaming f (DiskStream target (0 + lengthZ out) acc text)
         (with_file target (Regular out true) w))
      (lengthZ sent).
Proof.
  intros Hacc sent out.
  rewrite (stream_write_streaming cfg f (with_file target (Regular [] true) w)
             target 0 acc text [] true bytes (with_file_lookup _ _ _) Hacc).
  cbv zeta. change (io_quota (with_file target (Regular [] true) w)) with (io_quota w).
  fold sent. fold out. rewrite with_file_again.
  change (Z.to_nat (0 - lengthZ (@nil byte))) with 0%nat.
  cbn [takeZ dropZ replicate app]. rewrite app_nil_r. reflexivity.
Qed.

Lemma SaveFileData_run cfg w path target data n :
  disk_target cfg w path = Some target ->
  opens_for_writing (disk w) target = true ->
  n <= lengthZ data ->
  survives cfg w LOG_WARNING = true ->
  let file := next_object w in
  let sent := transferred (io_quota w) (takeZ n data) in
  let report := save_report (to_uint32 (lengthZ sent)) n in
  SaveFileData cfg (Some path) data n w
  = Returned
      ([EvFopen target "wb"; EvFwrite file n]
       ++ events_of (TraceLog cfg report.1 report.2 [VaStr path] w)
       ++ [EvFclose file])
      (released file (with_file target (Regular sent true) w)) tt.
Proof.
  intros Htarget Hopen Hn Hsurvives file sent report.
  pose proof (fopen_truncate cfg w path target "wb" WriteOnly
                eq_refl eq_refl eq_refl Htarget Hopen) as Hfopen.
  change (has_char "b" "wb") with true in Hfopen.
  rewrite andb_false_r in Hfopen. fold file in Hfopen.
  assert (Hfwrite :
    fwrite cfg data n file
      (streaming file (DiskStream target 0 WriteOnly false)
         (with_file target (Regular [] true) w))
    = Returned [EvFwrite file n]
        (streaming file (DiskStream target (0 + lengthZ sent) WriteOnly false)
           (with_file target (Regular sent true) w))
        (lengthZ sent)).
  { unfold fwrite. unfold bind at 1. unfold emit at 1. cbn [after].
    apply Z.ltb_ge in Hn. rewrite Hn.
    rewrite (first_write cfg file w target WriteOnly false (takeZ n data) eq_refl).
    reflexivity. }
  pose proof (fclose_streaming file (with_file target (Regular sent true) w) target
                (0 + lengthZ sent) WriteOnly false) as Hclose.
  pose proof (TraceLog_inside cfg report.1 report.2 [VaStr path] w
                (streaming file (DiskStream target (0 + lengthZ sent) WriteOnly false)
                   (with_file target (Regular sent true) w))
                eq_refl eq_refl eq_refl) as Hlog.
  assert (Hlevel : survives cfg w report.1 = true).
  { unfold report, save_report.
    destruct (_ =? 0); [assumption|]. destruct (negb _); [assumption|].
    apply (survives_lower cfg w LOG_INFO LOG_WARNING); [discriminate | assumption]. }
  assert (Hstaged : well_staged cfg report.1 report.2 = true).
  { unfold report, save_report.
    destruct (_ =? 0); [apply well_staged_literal; reflexivity|].
    destruct (negb _); apply well_staged_literal; reflexivity. }
  specialize (Hlog Hlevel Hstaged).
  unfold SaveFileData. run Hfopen. run Hfwrite.
  assert (Hpick :
    (if to_uint32 (lengthZ sent) =? 0
     then TRACELOG cfg LOG_WARNING "FILEIO: [%s] Failed to write file" [VaStr path]
     else if negb (to_uint32 (lengthZ sent) =? n)
          then TRACELOG cfg LOG_WARNING "FILEIO: [%s] File partially written" [VaStr path]
          else TRACELOG cfg LOG_INFO "FILEIO: [%s] File saved successfully" [VaStr path])
    = TraceLog cfg report.1 report.2 [VaStr path]).
  { unfold report, save_report, TRACELOG.
    destruct (_ =? 0); [reflexivity|]. destruct (negb _); reflexivity. }
  rewrite Hpick. run Hlog. run Hclose. unfold ret. cbn [after].
  rewrite ?app_nil_r. reflexivity.
Qed.

Lemma takeZ_exact {A} (l : list A) n :
  0 <= n <= lengthZ l -> lengthZ (takeZ n l) = n.
Proof.
  unfold lengthZ. revert n. induction l as [|x l IH]; intros n Hn; [cbn in *; lia|].
  cbn [takeZ]. destruct (n <=? 0) eqn:E.
  - apply Z.leb_le in E. cbn. lia.
  - apply Z.leb_gt in E. cbn [length] in *. specialize (IH (n - 1)). lia.
Qed.

(** X8: [SaveFileData] on a name that opens for writing, when the C library
    takes every byte it is given.  Afterwards the file holds exactly the
    first [bytesToWrite] bytes of the data and nothing of what it held
    before; the message of success is logged, or, for a count of 0, the
    warning of a failed write; the stream is closed; no other file, and
    nothing else in the world, has changed. *)
Theorem SaveFileData_writes cfg w path target data n :
  disk_target cfg w path = Some target ->
  opens_for_writing (disk w) target = true ->
  0 <= n <= lengthZ data ->
  n < 2 ^ 32 ->
  io_quota w = None ->
  survives cfg w LOG_WARNING = true ->
  let written := takeZ n data in
  let report := complete_report n in
  exists t w',
    SaveFileData cfg (Some path) data n w = Returned t w' tt
    /\ w' = released (next_object w) (with_file target (Regular written true) w)
    /\ disk w' !! target = Some (Regular written true)
    /\ (forall other, other <> target -> disk w' !! other = disk w !! other)
    /\ log_stream t = events_of (TraceLog cfg report.1 report.2 [VaStr path] w)
    /\ lengthZ written = n.
Proof.
  intros Htarget Hopen Hn Hsize Hquota Hsurvives written report.
  pose proof (SaveFileData_run cfg w path target data n Htarget Hopen
                ltac:(lia) Hsurvives) as Hrun.
  cbv zeta in Hrun. rewrite Hquota, transferred_all in Hrun. fold written in Hrun.
  pose proof (takeZ_exact data n Hn) as Hlen. fold written in Hlen.
  rewrite Hlen, (to_uint32_small n) in Hrun by lia.
  replace (save_report n n) with report in Hrun
    by (unfold report, complete_report, save_report;
        rewrite Z.eqb_refl; destruct (n =? 0); reflexivity).
  eexists _, _. split; [exact Hrun|]. split; [reflexivity|].
  split; [apply lookup_insert_eq|]. split; [|split; [|exact Hlen]].
  - intros other Hother. unfold released, with_file. cbn [disk set_heap set_disk].
    apply lookup_insert_ne. congruence.
  - rewrite !log_stream_app, TraceLog_log_stream. cbn. apply app_nil_r.
Qed.

Lemma SaveFileData_writes_witness :
  let w := initial_world {[ "s.bin" := Regular [x01; x02; x03; x04; x05] true ]} in
  disk_target desktop w "s.bin" = Some "s.bin"
  /\ opens_for_writing (disk w) "s.bin" = true
  /\ 0 <= 2 <= lengthZ [x0a; x00; x0c]
  /\ 2 < 2 ^ 32
  /\ io_quota w = None
  /\ survives desktop w LOG_WARNING = true
  /\ exists t w',
       SaveFileData desktop (Some "s.bin") [x0a; x00; x0c] 2 w = Returned t w' tt
       /\ disk w' !! "s.bin" = Some (Regular [x0a; x00] true)
       /\ log_stream t
          = [EvVprintf (formatted_message LOG_INFO "FILEIO: [%s] File saved successfully")
                       [VaStr "s.bin"]].
Proof.
  cbv zeta. split; [reflexivity|]. split; [reflexivity|].
  split; [split; vm_compute; discriminate|]. split; [reflexivity|].
  split; [reflexivity|]. split; [reflexivity|].
  destruct (SaveFileData_writes desktop
              (initial_world {[ "s.bin" := Regular [x01; x02; x03; x04; x05] true ]})
              "s.bin" "s.bin" [x0a; x00; x0c] 2)
    as (t & w' & Hrun & _ & Hdisk & _ & Hlog & _);
    [reflexivity | reflexivity | split; vm_compute; discriminate | reflexivity
    | reflexivity | reflexivity |].
  exists t, w'. split; [exact Hrun|]. split; [exact Hdisk|].
  rewrite Hlog. vm_compute. reflexivity.
Defined.

(** X9: saving under a name no open for writing gets through: a regular
    file that may not be written, or the empty name.  [fopen] is the only
    call made, the warning is logged and the world is exactly as before: a
    file that is there keeps its content. *)
Theorem save_cannot_open cfg w path target data n text :
  disk_target cfg w path = Some target ->
  write_protected (disk w) target = true ->
  survives cfg w LOG_WARNING = true ->
  SaveFileData cfg (Some path) data n w
  = Returned
      ([EvFopen target "wb"]
       ++ events_of (TraceLog cfg LOG_WARNING "FILEIO: [%s] Failed to open file"
                       [VaStr path] w))
      w tt
  /\ SaveFileText cfg (Some path) text w
     = Returned
         ([EvFopen target "wt"]
          ++ events_of (TraceLog cfg LOG_WARNING "FILEIO: [%s] Failed to open text file"
                          [VaStr path] w))
         w tt.
Proof.
  intros Htarget Hopen Hsurvives. split.
  - unfold SaveFileData.
    run (fopen_refused cfg w path target "wb" WriteOnly
           eq_refl eq_refl eq_refl Htarget Hopen).
    unfold TRACELOG.
    rewrite (TraceLog_inside cfg LOG_WARNING "FILEIO: [%s] Failed to open file"
               [VaStr path] w w eq_refl eq_refl eq_refl Hsurvives
               ltac:(apply well_staged_literal; reflexivity)).
    reflexivity.
  - unfold SaveFileText.
    run (fopen_refused cfg w path target "wt" WriteOnly
           eq_refl eq_refl eq_refl Htarget Hopen).
    unfold TRACELOG.
    rewrite (TraceLog_inside cfg LOG_WARNING "FILEIO: [%s] Failed to open text file"
               [VaStr path] w w eq_refl eq_refl eq_refl Hsurvives
               ltac:(apply well_staged_literal; reflexivity)).
    reflexivity.
Qed.

Lemma save_cannot_open_witness :
  let w := initial_world {[ "ro.bin" := Regular [x01; x02] false ]} in
  disk_target desktop w "ro.bin" = Some "ro.bin"
  /\ write_protected (disk w) "ro.bin" = true
  /\ survives desktop w LOG_WARNING = true
  /\ SaveFileData desktop (Some "ro.bin") [x09] 1 w
     = Returned
         [EvFopen "ro.bin" "wb";
          EvVprintf (formatted_message LOG_WARNING "FILEIO: [%s] Failed to open file")
                    [VaStr "ro.bin"]]
         w tt.
Proof.
  cbv zeta. split; [reflexivity|]. split; [reflexivity|]. split; [reflexivity|].
  destruct (save_cannot_open desktop
              (initial_world {[ "ro.bin" := Regular [x01; x02] false ]})
              "ro.bin" "ro.bin" [x09] 1 "") as [Hrun _];
    [reflexivity | reflexivity | reflexivity |].
  rewrite Hrun. vm_compute. reflexivity.
Defined.

(** ** Text, saved and loaded *)









(** ** Assets of the bundle *)

Lemma serving_stream a o b :
  heap (serving a o b) !! Pos.succ a = Some (FunopenStream a).
Proof. apply streaming_lookup. Qed.

Lemma serving_asset a o b : heap (serving a o b) !! a = Some (AssetObject o).
Proof.
  unfold serving, streaming. cbn [heap set_heap].
  rewrite lookup_insert_ne by (intros H; first [exact (Pos.succ_discr _ H) | exact (Pos.succ_discr _ (eq_sym H))]).
  apply lookup_insert_eq.
Qed.

Lemma serving_again a o o' b :
  set_heap (<[a := AssetObject o']> (heap (serving a o b)))
           (next_object (serving a o b)) (serving a o b)
  = serving a o' b.
Proof.
  unfold serving, streaming. cbn [heap next_object set_heap].
  rewrite insert_insert_ne by (intros H; first [exact (Pos.succ_discr _ H) | exact (Pos.succ_discr _ (eq_sym H))]).
  rewrite insert_insert_eq. reflexivity.
Qed.

Lemma serving_closed a o b :
  set_heap (delete (Pos.succ a) (delete a (heap (serving a o b))))
           (next_object (serving a o b)) (serving a o b)
  = served a b.
Proof.
  unfold serving, served, streaming, released. cbn [heap next_object set_heap].
  rewrite delete_insert_ne by (intros H; first [exact (Pos.succ_discr _ H) | exact (Pos.succ_discr _ (eq_sym H))]).
  rewrite !delete_insert_eq. reflexivity.
Qed.

(** With an asset of that name in the bundle, an open that is not for
    writing asks the asset manager and wraps the asset in a stream; the base
    data path is not looked at. *)
Lemma fopen_asset cfg w name mode manager data :
  PLATFORM_ANDROID cfg = true ->
  first_char_is "w" mode = false ->
  assetManager w = Some manager ->
  bundle manager !! name = Some data ->
  fopen cfg name mode w
  = Returned [EvAssetOpen name] (serving (next_object w) (Asset data 0) w)
      (Some (Pos.succ (next_object w))).
Proof.
  intros Handroid Hmode Hmanager Hasset.
  unfold fopen, android_fopen. rewrite Handroid, Hmode.
  unfold AAssetManager_open, funopen, alloc, bind, emit, get, defined, modify, ret.
  cbn [after app]. rewrite Hmanager. cbn [after app]. rewrite Hasset.
  cbn [after app]. reflexivity.
Qed.

Lemma seek_target_bounds len pos offset whence t :
  seek_target len pos offset whence = Some t -> 0 <= t.
Proof.
  unfold seek_target. intros H.
  destruct (if whence =? SEEK_SET then Some offset
            else if whence =? SEEK_CUR then Some (pos + offset)
                 else if whence =? SEEK_END then Some (len + offset) else None)
    as [t'|]; [|discriminate].
  cbn [mbind option_bind] in H. destruct (0 <=? t') eqn:E; [|discriminate].
  injection H as <-. apply Z.leb_le, E.
Qed.

Lemma android_seek_serving a data pos b offset whence t :
  seek_target (lengthZ data) pos offset whence = Some t ->
  t <= lengthZ data ->
  android_seek a offset whence (serving a (Asset data pos) b)
  = Returned [EvAssetSeek offset whence] (serving a (Asset data t) b) t.
Proof.
  intros Htarget Hend.
  unfold android_seek, AAsset_seek, deref, update, bind, emit, get, defined, modify, ret.
  cbn [after app]. rewrite serving_asset. cbn [after app asset_data asset_pos].
  rewrite Htarget. destruct (t <=? lengthZ data) eqn:E; [|apply Z.leb_gt in E; lia].
  cbn [after app]. rewrite serving_again. reflexivity.
Qed.

(** [fseek] on the stream of an asset: one [AAsset_seek], and 0 when it
    answers a position. *)
Lemma fseek_serving a data pos b offset whence t :
  seek_target (lengthZ data) pos offset whence = Some t ->
  t <= lengthZ data ->
  fseek (Pos.succ a) offset whence (serving a (Asset data pos) b)
  = Returned [EvFseek (Pos.succ a) offset whence; EvAssetSeek offset whence]
      (serving a (Asset data t) b) 0.
Proof.
  intros Htarget Hend.
  pose proof (seek_target_bounds _ _ _ _ _ Htarget) as Hpos.
  unfold fseek. unfold bind at 1. unfold emit at 1. cbn [after].
  unfold bind at 1. unfold deref, bind, get, defined, ret. cbn [after app].
  rewrite serving_stream. cbn [after app].
  rewrite (android_seek_serving a data pos b offset whence t Htarget Hend).
  cbn [after app]. destruct (t <? 0) eqn:E; [apply Z.ltb_lt in E; lia|].
  reflexivity.
Qed.

(** [ftell] on the stream of an asset: the position of the asset. *)
Lemma ftell_serving a data pos b :
  0 <= pos <= lengthZ data ->
  ftell (Pos.succ a) (serving a (Asset data pos) b)
  = Returned [EvFtell (Pos.succ a); EvAssetSeek 0 SEEK_CUR]
      (serving a (Asset data pos) b) pos.
Proof.
  intros Hpos.
  assert (Htarget : seek_target (lengthZ data) pos 0 SEEK_CUR = Some pos).
  { unfold seek_target, SEEK_SET, SEEK_CUR. simpl.
    rewrite Z.add_0_r. destruct (0 <=? pos) eqn:E; [reflexivity|].
    apply Z.leb_gt in E. lia. }
  unfold ftell. unfold bind at 1. unfold emit at 1. cbn [after].
  unfold bind at 1. unfold deref, bind, get, defined, ret. cbn [after app].
  rewrite serving_stream. cbn [after app].
  rewrite (android_seek_serving a data pos b 0 SEEK_CUR pos Htarget) by lia.
  cbn [after app]. destruct (pos <? 0) eqn:E; [apply Z.ltb_lt in E; lia|].
  reflexivity.
Qed.

Lemma takeZ_bound {A} (l : list A) n : 0 <= n -> lengthZ (takeZ n l) <= n.
Proof.
  unfold lengthZ. revert n. induction l as [|x l IH]; intros n Hn; [cbn; lia|].
  cbn [takeZ]. destruct (n <=? 0) eqn:E; [cbn; lia|].
  apply Z.leb_gt in E. cbn [length]. specialize (IH (n - 1)). lia.
Qed.

(** A count that fits an [int] passes through [android_read] unchanged, and
    so does the number of bytes delivered. *)
Lemma android_read_serving a data pos b n :
  0 <= n < 2 ^ 31 ->
  let got := takeZ n (dropZ pos data) in
  android_read a n (serving a (Asset data pos) b)
  = Returned [EvAssetRead n] (serving a (Asset data (pos + lengthZ got)) b)
      (lengthZ got, got).
Proof.
  intros Hn got.
  pose proof (takeZ_bound (dropZ pos data) n ltac:(lia)) as Hgot. fold got in Hgot.
  assert (Hcount : to_size_t (to_int32 n) = n).
  { rewrite to_int32_small by lia. unfold to_size_t. apply Z.mod_small. lia. }
  unfold android_read. rewrite Hcount.
  unfold AAsset_read, deref, update, bind, emit, get, defined, modify, ret.
  cbn [after app]. rewrite serving_asset. cbn [after app asset_data asset_pos fst snd].
  fold got. rewrite serving_again.
  rewrite to_int32_small by (unfold lengthZ in *; lia).
  reflexivity.
Qed.

(** [fread] on the stream of an asset: one [AAsset_read], which delivers what
    is left of the asset, up to the count asked for. *)
Lemma fread_serving a data pos b buf n :
  0 <= n < 2 ^ 31 ->
  let got := takeZ n (dropZ pos data) in
  (length got ≤ length buf)%nat ->
  fread buf n (Pos.succ a) (serving a (Asset data pos) b)
  = Returned [EvFread (Pos.succ a) n; EvAssetRead n]
      (serving a (Asset data (pos + lengthZ got)) b)
      (lengthZ got, (Some <$> got) ++ drop (length got) buf).
Proof.
  intros Hn got Hroom.
  pose proof (android_read_serving a data pos b n Hn) as Hread.
  cbv zeta in Hread. fold got in Hread.
  unfold fread. unfold bind at 1. unfold emit at 1. cbn [after].
  unfold bind at 1. unfold stream_read. unfold bind at 1.
  unfold deref, bind at 1, get, defined, ret. cbn [after app].
  rewrite serving_stream. cbn [after app].
  unfold bind at 1. rewrite Hread. cbn [after app fst snd].
  destruct (lengthZ got <? 0) eqn:E; [apply Z.ltb_lt in E; unfold lengthZ in E; lia|].
  destruct (decide (length got ≤ length buf)%nat); [|contradiction].
  reflexivity.
Qed.

(** [fclose] on the stream of an asset closes the asset too. *)
Lemma fclose_serving a o b :
  fclose (Pos.succ a) (serving a o b)
  = Returned [EvFclose (Pos.succ a); EvAssetClose] (served a b) 0.
Proof.
  unfold fclose, android_close, AAsset_close,
    deref, free, bind, emit, get, defined, modify, ret.
  cbn [after app]. rewrite serving_stream. cbn [after app].
  rewrite serving_asset. cbn [after app heap next_object set_heap].
  rewrite <- (serving_closed a o b). reflexivity.
Qed.

Lemma seek_end_target (data : list byte) pos :
  seek_target (lengthZ data) pos 0 SEEK_END = Some (lengthZ data).
Proof.
  unfold seek_target, SEEK_END, SEEK_SET, SEEK_CUR. simpl.
  rewrite Z.add_0_r. destruct (0 <=? lengthZ data) eqn:E; [reflexivity|].
  apply Z.leb_gt in E. unfold lengthZ in E. lia.
Qed.

Lemma whole_asset (data : list byte) : takeZ (lengthZ data) (dropZ 0 data) = data.
Proof. rewrite dropZ_le0 by lia. apply takeZ_ge. lia. Qed.

Lemma LoadFileData_asset_run cfg w manager name data :
  PLATFORM_ANDROID cfg = true ->
  assetManager w = Some manager ->
  bundle manager !! name = Some data ->
  0 < lengthZ data < 2 ^ 31 ->
  survives cfg w LOG_INFO = true ->
  let asset := next_object w in
  LoadFileData cfg (Some name) w
  = Returned
      (asset_events name (Pos.succ asset) (lengthZ data)
       ++ events_of (TraceLog cfg LOG_INFO "FILEIO: [%s] File loaded successfully"
                       [VaStr name] w)
       ++ [EvFclose (Pos.succ asset); EvAssetClose])
      (served asset w)
      (Some (Some <$> data), lengthZ data).
Proof.
  intros Handroid Hmanager Hasset Hsize Hsurvives asset.
  pose proof (fopen_asset cfg w name "rb" manager data Handroid eq_refl Hmanager Hasset)
    as Hfopen. fold asset in Hfopen.
  pose proof (fread_serving asset data 0 w (malloc (lengthZ data)) (lengthZ data)
                ltac:(lia)) as Hread.
  cbv zeta in Hread. rewrite whole_asset in Hread.
  assert (Hroom : (length data ≤ length (malloc (lengthZ data)))%nat)
    by (unfold malloc, lengthZ; rewrite length_replicate; lia).
  specialize (Hread Hroom).
  replace (drop (length data) (malloc (lengthZ data))) with (@nil (option byte)) in Hread
    by (unfold malloc, lengthZ; rewrite drop_replicate, Nat2Z.id, Nat.sub_diag;
        reflexivity).
  rewrite app_nil_r in Hread.
  pose proof (TraceLog_inside cfg LOG_INFO "FILEIO: [%s] File loaded successfully"
                [VaStr name] w (serving asset (Asset data (0 + lengthZ data)) w)
                eq_refl eq_refl eq_refl Hsurvives
                ltac:(apply well_staged_literal; reflexivity)) as Hlog.
  unfold LoadFileData. run Hfopen.
  run (fseek_serving asset data 0 w 0 SEEK_END (lengthZ data)
         (seek_end_target data 0) (Z.le_refl _)).
  run (ftell_serving asset data (lengthZ data) w ltac:(lia)). cbv zeta.
  run (fseek_serving asset data (lengthZ data) w 0 SEEK_SET 0 eq_refl ltac:(lia)).
  rewrite to_int32_small by lia.
  destruct (0 <? lengthZ data) eqn:Epos; [|apply Z.ltb_ge in Epos; lia].
  unfold bind at 1. unfold bind at 1.
  rewrite Hread. cbn [after fst snd].
  rewrite !to_uint32_small by lia. rewrite Z.eqb_refl. cbn [negb].
  unfold TRACELOG. unfold bind at 1. rewrite Hlog. cbn [after].
  unfold ret at 1. cbn [after].
  run (fclose_serving asset (Asset data (0 + lengthZ data)) w). unfold ret. cbn [after].
  unfold asset_events. rewrite ?app_nil_r, <- ?app_assoc. reflexivity.
Qed.

(** X12: on Android, after [InitAssetManager] has installed a manager whose
    bundle holds an asset of N bytes under the name, 0 < N < 2^31,
    [LoadFileData] returns the bytes of the asset and N.  Every call on the
    stream reaches the asset through [android_seek], [android_read] and
    [android_close]; no file of the disk is opened, whether or not one of
    that name lies under the base data path, and the base data path may be
    null.  Stream and asset are both released on return. *)
Theorem load_bundled_asset cfg w manager base name data :
  PLATFORM_ANDROID cfg = true ->
  bundle manager !! name = Some data ->
  0 < lengthZ data < 2 ^ 31 ->
  survives cfg w LOG_INFO = true ->
  let asset := next_object w in
  (InitAssetManager (Some manager) base ;; LoadFileData cfg (Some name)) w
  = Returned
      (asset_events name (Pos.succ asset) (lengthZ data)
       ++ events_of (TraceLog cfg LOG_INFO "FILEIO: [%s] File loaded successfully"
                       [VaStr name] w)
       ++ [EvFclose (Pos.succ asset); EvAssetClose])
      (served asset (set_android (Some manager) base w))
      (Some (Some <$> data), lengthZ data).
Proof.
  intros Handroid Hasset Hsize Hsurvives asset.
  unfold bind, InitAssetManager, modify.
  rewrite (LoadFileData_asset_run cfg (set_android (Some manager) base w) manager name data
             Handroid eq_refl Hasset Hsize Hsurvives).
  rewrite (TraceLog_globals cfg LOG_INFO _ _ w (set_android (Some manager) base w)
             eq_refl eq_refl eq_refl), events_in_world.
  reflexivity.
Qed.

Lemma load_bundled_asset_witness :
  let manager := Manager {[ "logo.png" := [x50; x4e; x47] ]} in
  let w := initial_world {[ "/data/app/logo.png" := Regular [x61] true ]} in
  PLATFORM_ANDROID android = true
  /\ bundle manager !! "logo.png" = Some [x50; x4e; x47]
  /\ 0 < lengthZ [x50; x4e; x47] < 2 ^ 31
  /\ survives android w LOG_INFO = true
  /\ exists t w',
       (InitAssetManager (Some manager) (Some "/data/app") ;;
        LoadFileData android (Some "logo.png")) w
       = Returned t w' (Some [Some x50; Some x4e; Some x47], 3)
       /\ List.filter is_stdio_event t
          = [EvFseek 2 0 SEEK_END; EvFtell 2; EvFseek 2 0 SEEK_SET; EvFread 2 3; EvFclose 2]
       /\ heap w' = ∅.
Proof.
  cbv zeta. split; [reflexivity|]. split; [reflexivity|].
  split; [split; reflexivity|]. split; [reflexivity|].
  eexists _, _. split.
  - rewrite (load_bundled_asset android
               (initial_world {[ "/data/app/logo.png" := Regular [x61] true ]})
               (Manager {[ "logo.png" := [x50; x4e; x47] ]}) (Some "/data/app")
               "logo.png" [x50; x4e; x47]);
      [reflexivity | reflexivity | reflexivity | split; reflexivity | reflexivity].
  - split; vm_compute; reflexivity.
Defined.

Lemma LoadFileText_asset_run cfg w manager name data :
  PLATFORM_ANDROID cfg = true ->
  assetManager w = Some manager ->
  bundle manager !! name = Some data ->
  0 < lengthZ data < 2 ^ 31 ->
  survives cfg w LOG_INFO = true ->
  let asset := next_object w in
  LoadFileText cfg (Some name) w
  = Returned
      (asset_events name (Pos.succ asset) (lengthZ data)
       ++ events_of (TraceLog cfg LOG_INFO "FILEIO: [%s] Text file loaded successfully"
                       [VaStr name] w)
       ++ [EvFclose (Pos.succ asset); EvAssetClose])
      (served asset w)
      (Some ((Some <$> data) ++ [Some NUL])).
Proof.
  intros Handroid Hmanager Hasset Hsize Hsurvives asset.
  pose proof (fopen_asset cfg w name "rt" manager data Handroid eq_refl Hmanager Hasset)
    as Hfopen. fold asset in Hfopen.
  pose proof (fread_serving asset data 0 w (malloc (to_uint32 (lengthZ data + 1)))
                (lengthZ data) ltac:(lia)) as Hread.
  cbv zeta in Hread. rewrite whole_asset in Hread.
  assert (Hroom : (length data ≤ length (malloc (to_uint32 (lengthZ data + 1))))%nat).
  { unfold malloc. rewrite length_replicate, to_uint32_small by lia.
    unfold lengthZ. lia. }
  specialize (Hread Hroom).
  pose proof (TraceLog_inside cfg LOG_INFO "FILEIO: [%s] Text file loaded successfully"
                [VaStr name] w (serving asset (Asset data (0 + lengthZ data)) w)
                eq_refl eq_refl eq_refl Hsurvives
                ltac:(apply well_staged_literal; reflexivity)) as Hlog.
  unfold LoadFileText. run Hfopen.
  run (fseek_serving asset data 0 w 0 SEEK_END (lengthZ data)
         (seek_end_target data 0) (Z.le_refl _)).
  run (ftell_serving asset data (lengthZ data) w ltac:(lia)). cbv zeta.
  run (fseek_serving asset data (lengthZ data) w 0 SEEK_SET 0 eq_refl ltac:(lia)).
  rewrite (to_uint32_small (lengthZ data)) by lia.
  destruct (0 <? lengthZ data) eqn:Epos; [|apply Z.ltb_ge in Epos; lia].
  unfold bind at 1. unfold bind at 1.
  rewrite Hread. cbn [after fst snd].
  unfold bind at 1.
  rewrite (shrink_and_terminate data (lengthZ data)) by lia.
  cbn [after]. unfold TRACELOG. unfold bind at 1. rewrite Hlog. cbn [after].
  unfold ret at 1. cbn [after].
  run (fclose_serving asset (Asset data (0 + lengthZ data)) w). unfold ret. cbn [after].
  unfold asset_events. rewrite ?app_nil_r, <- ?app_assoc. reflexivity.
Qed.

(** X13: on Android, [LoadFileText] of a name the bundle holds, with N bytes,
    0 < N < 2^31 so that the count fits the [int] of [android_read], returns
    the bytes of the asset followed by one NUL: N + 1 bytes.  The asset is
    read whole, so the count is the size and the block is never shrunk; line
    ends are left as they are.  The [fopen] of the C library is never
    called and the disk is as before; stream and asset are released on
    return, and the success message is the one thing logged. *)
Theorem LoadFileText_asset cfg w manager name data :
  PLATFORM_ANDROID cfg = true ->
  assetManager w = Some manager ->
  bundle manager !! name = Some data ->
  0 < lengthZ data < 2 ^ 31 ->
  survives cfg w LOG_INFO = true ->
  exists t,
    LoadFileText cfg (Some name) w
    = Returned t (served (next_object w) w) (Some ((Some <$> data) ++ [Some NUL]))
    /\ length ((Some <$> data) ++ [@Some byte NUL]) = S (length data)
    /\ Forall (fun e => match e with EvFopen _ _ => False | _ => True end) t
    /\ log_stream t
       = events_of (TraceLog cfg LOG_INFO "FILEIO: [%s] Text file loaded successfully"
                      [VaStr name] w)
    /\ disk (served (next_object w) w) = disk w.
Proof.
  intros Handroid Hmanager Hasset Hsize Hsurvives.
  pose proof (LoadFileText_asset_run cfg w manager name data
                Handroid Hmanager Hasset Hsize Hsurvives) as Hrun.
  cbv zeta in Hrun. eexists. split; [exact Hrun|].
  pose proof (TraceLog_world cfg LOG_INFO "FILEIO: [%s] Text file loaded successfully"
                [VaStr name] w) as Hlog.
  assert (Hevents : Forall (fun e => is_log_event e = true)
            (events_of (TraceLog cfg LOG_INFO "FILEIO: [%s] Text file loaded successfully"
                          [VaStr name] w))).
  { destruct (TraceLog cfg LOG_INFO _ _ w); cbn [events_of];
      [apply Hlog | apply Hlog | constructor]. }
  split; [|split; [|split; [|reflexivity]]].
  - rewrite length_app, length_fmap. cbn [length]. lia.
  - apply Forall_app. split; [unfold asset_events; repeat constructor|].
    apply Forall_app. split; [|repeat constructor].
    eapply Forall_impl; [exact Hevents|].
    intros e He. destruct e; try exact I. discriminate He.
  - rewrite !log_stream_app, TraceLog_log_stream. cbn. apply app_nil_r.
Qed.

Lemma LoadFileText_asset_witness :
  let w := set_android (Some (Manager {[ "a.txt" := [x61; CR; LF; x62] ]})) None
             (initial_world ∅) in
  PLATFORM_ANDROID android = true
  /\ assetManager w = Some (Manager {[ "a.txt" := [x61; CR; LF; x62] ]})
  /\ bundle (Manager {[ "a.txt" := [x61; CR; LF; x62] ]}) !! "a.txt"
     = Some [x61; CR; LF; x62]
  /\ 0 < lengthZ [x61; CR; LF; x62] < 2 ^ 31
  /\ survives android w LOG_INFO = true
  /\ value_of (LoadFileText android (Some "a.txt") w)
     = Some (Some [Some x61; Some CR; Some LF; Some x62; Some NUL]).
Proof.
  cbv zeta. do 3 (split; [reflexivity|]). split; [split; reflexivity|].
  split; [reflexivity|].
  destruct (LoadFileText_asset android
              (set_android (Some (Manager {[ "a.txt" := [x61; CR; LF; x62] ]})) None
                 (initial_world ∅))
              (Manager {[ "a.txt" := [x61; CR; LF; x62] ]}) "a.txt" [x61; CR; LF; x62])
    as (t & Hrun & _);
    [reflexivity | reflexivity | reflexivity | split; reflexivity | reflexivity |].
  rewrite Hrun. reflexivity.
Defined.

(** ** Thresholds and termination *)

(** X14: a warning that terminates the process does so inside the helper.
    After [SetTraceLogExit] with a level at or below [LOG_WARNING], with no
    callback and warnings emitted, [LoadFileData] on an empty file opens it,
    finds no size, logs the warning and exits with status 1 from within
    [TraceLog]: [fclose] is never reached and the stream is still open. *)
Theorem warning_exit_skips_fclose cfg w level path target writable :
  SUPPORT_TRACELOG cfg = true ->
  logCallback w = None ->
  logTypeLevel w <= LOG_WARNING ->
  level <= LOG_WARNING ->
  read_target cfg w path = Some target ->
  disk w !! target = Some (Regular [] writable) ->
  let file := next_object w in
  (SetTraceLogExit level ;; LoadFileData cfg (Some path)) w
  = Exited
      (open_events cfg path target "rb"
       ++ [EvFseek file 0 SEEK_END; EvFtell file; EvFseek file 0 SEEK_SET]
       ++ option_list (default_event cfg LOG_WARNING "FILEIO: [%s] Failed to read file"
                         [VaStr path]))
      (streaming file (DiskStream target 0 ReadOnly false) (set_logTypeExit level w))
      1.
Proof.
  intros Hsupport Hcallback Hlevel Hexit Htarget Hdisk file.
  set (w1 := set_logTypeExit level w).
  assert (Hstart : (SetTraceLogExit level ;; LoadFileData cfg (Some path)) w
                   = LoadFileData cfg (Some path) w1)
    by (unfold bind, SetTraceLogExit, modify; apply after_nil).
  rewrite Hstart.
  pose proof (fopen_existing cfg w1 path target "rb" ReadOnly _
                eq_refl eq_refl eq_refl Htarget Hdisk) as Hfopen.
  change (has_char "b" "rb") with true in Hfopen.
  rewrite andb_false_r in Hfopen. change (next_object w1) with file in Hfopen.
  assert (Hlog :
    TraceLog cfg LOG_WARNING "FILEIO: [%s] Failed to read file" [VaStr path]
      (streaming file (DiskStream target 0 ReadOnly false) w1)
    = Exited (option_list (default_event cfg LOG_WARNING
                             "FILEIO: [%s] Failed to read file" [VaStr path]))
        (streaming file (DiskStream target 0 ReadOnly false) w1) 1).
  { rewrite TraceLog_closed_form, Hsupport.
    change (logTypeLevel (streaming file (DiskStream target 0 ReadOnly false) w1))
      with (logTypeLevel w).
    change (logCallback (streaming file (DiskStream target 0 ReadOnly false) w1))
      with (logCallback w).
    change (logTypeExit (streaming file (DiskStream target 0 ReadOnly false) w1))
      with level.
    rewrite Hcallback,
      (well_staged_literal cfg LOG_WARNING "FILEIO: [%s] Failed to read file" eq_refl).
    cbn [negb]. cbv zeta.
    destruct (LOG_WARNING <? logTypeLevel w) eqn:E1; [apply Z.ltb_lt in E1; lia|].
    destruct (level <=? LOG_WARNING) eqn:E2; [|apply Z.leb_gt in E2; lia].
    reflexivity. }
  unfold LoadFileData. run Hfopen.
  run (fseek_streaming file w1 target 0 ReadOnly false [] writable 0 SEEK_END 0
         Hdisk eq_refl).
  run (ftell_streaming file w1 target 0 ReadOnly false _ Hdisk). cbv zeta.
  run (fseek_streaming file w1 target 0 ReadOnly false [] writable 0 SEEK_SET 0
         Hdisk eq_refl).
  change (0 <? to_int32 0) with false. cbv iota.
  unfold TRACELOG.
  rewrite (bind_Exited _ _ _ _ _ _
             (bind_Exited _ (fun _ => ret (None, 0)) _ _ _ _ Hlog)).
  cbn [after]. rewrite ?app_nil_r, <- ?app_assoc. reflexivity.
Qed.

Lemma warning_exit_skips_fclose_witness :
  let w := initial_world {[ "empty.bin" := Regular [] true ]} in
  SUPPORT_TRACELOG desktop = true
  /\ logCallback w = None
  /\ logTypeLevel w <= LOG_WARNING
  /\ LOG_WARNING <= LOG_WARNING
  /\ read_target desktop w "empty.bin" = Some "empty.bin"
  /\ disk w !! "empty.bin" = Some (Regular [] true)
  /\ exists t w',
       (SetTraceLogExit LOG_WARNING ;; LoadFileData desktop (Some "empty.bin")) w
       = Exited t w' 1
       /\ heap w' !! 1%positive = Some (DiskStream "empty.bin" 0 ReadOnly false)
       /\ List.filter is_stdio_event t
          = [EvFopen "empty.bin" "rb"; EvFseek 1 0 SEEK_END; EvFtell 1;
             EvFseek 1 0 SEEK_SET].
Proof.
  cbv zeta. split; [reflexivity|]. split; [reflexivity|].
  split; [vm_compute; discriminate|]. split; [vm_compute; discriminate|].
  split; [reflexivity|]. split; [reflexivity|].
  eexists _, _. split.
  - rewrite (warning_exit_skips_fclose desktop
               (initial_world {[ "empty.bin" := Regular [] true ]})
               LOG_WARNING "empty.bin" "empty.bin" true);
      [reflexivity | reflexivity | reflexivity | vm_compute; discriminate
      | vm_compute; discriminate | reflexivity | reflexivity].
  - split; vm_compute; reflexivity.
Defined.

(** X15: the two thresholds are set without regard to each other.  With the
    exit threshold at or below the emission threshold and no callback, every
    message that is emitted terminates the process, and a message below the
    emission threshold does not, even at or above the exit threshold.  Once
    a callback is installed with [SetTraceLogCallback], the emitted messages
    go to it and none terminates. *)
Theorem exit_threshold_below_level cfg w level exit_level logType text args cb :
  SUPPORT_TRACELOG cfg = true ->
  logCallback w = None ->
  exit_level <= level ->
  well_staged cfg logType text = true ->
  let w1 := set_logTypeExit exit_level (set_logTypeLevel level w) in
  (SetTraceLogLevel level ;; SetTraceLogExit exit_level ;;
   TraceLog cfg logType text args) w
  = (if logType <? level then Returned [] w1 tt
     else Exited (option_list (default_event cfg logType text args)) w1 1)
  /\ (SetTraceLogLevel level ;; SetTraceLogExit exit_level ;;
      SetTraceLogCallback (Some cb) ;; TraceLog cfg logType text args) w
     = Returned (if logType <? level then [] else [EvCallback cb logType text args])
         (set_logCallback (Some cb) w1) tt.
Proof.
  intros Hsupport Hcallback Hexit Hstaged w1. split.
  - assert (Hstart : (SetTraceLogLevel level ;; SetTraceLogExit exit_level ;;
                      TraceLog cfg logType text args) w
                     = TraceLog cfg logType text args w1).
    { unfold SetTraceLogLevel, SetTraceLogExit, modify, bind. cbn [after].
      fold w1. destruct (TraceLog cfg logType text args w1); reflexivity. }
    rewrite Hstart, TraceLog_closed_form, Hsupport, Hstaged.
    change (logTypeLevel w1) with level. change (logCallback w1) with (logCallback w).
    change (logTypeExit w1) with exit_level. rewrite Hcallback. cbn [negb]. cbv zeta.
    destruct (logType <? level) eqn:E1; [reflexivity|].
    apply Z.ltb_ge in E1.
    destruct (exit_level <=? logType) eqn:E2; [reflexivity|apply Z.leb_gt in E2; lia].
  - assert (Hstart : (SetTraceLogLevel level ;; SetTraceLogExit exit_level ;;
                      SetTraceLogCallback (Some cb) ;; TraceLog cfg logType text args) w
                     = TraceLog cfg logType text args (set_logCallback (Some cb) w1)).
    { unfold SetTraceLogLevel, SetTraceLogExit, SetTraceLogCallback, modify, bind.
      cbn [after]. fold w1.
      destruct (TraceLog cfg logType text args (set_logCallback (Some cb) w1));
        reflexivity. }
    rewrite Hstart, TraceLog_closed_form, Hsupport.
    change (logTypeLevel (set_logCallback (Some cb) w1)) with level.
    change (logCallback (set_logCallback (Some cb) w1)) with (Some cb).
    cbn [negb]. destruct (logType <? level); reflexivity.
Qed.

Lemma exit_threshold_below_level_witness :
  let w := initial_world ∅ in
  SUPPORT_TRACELOG desktop = true
  /\ logCallback w = None
  /\ LOG_DEBUG <= LOG_WARNING
  /\ well_staged desktop LOG_INFO "Started" = true
  /\ (SetTraceLogLevel LOG_WARNING ;; SetTraceLogExit LOG_DEBUG ;;
      TraceLog desktop LOG_INFO "Started" []) w
     = Returned [] (set_logTypeExit LOG_DEBUG (set_logTypeLevel LOG_WARNING w)) tt
  /\ (SetTraceLogLevel LOG_INFO ;; SetTraceLogExit LOG_DEBUG ;;
      TraceLog desktop LOG_INFO "Started" []) w
     = Exited [EvVprintf (formatted_message LOG_INFO "Started") []]
         (set_logTypeExit LOG_DEBUG (set_logTypeLevel LOG_INFO w)) 1.
Proof.
  cbv zeta. split; [reflexivity|]. split; [reflexivity|].
  split; [vm_compute; discriminate|]. split; [reflexivity|]. split.
  - destruct (exit_threshold_below_level desktop (initial_world ∅) LOG_WARNING LOG_DEBUG
                LOG_INFO "Started" [] (FunPtr 1)) as [Hrun _];
      [reflexivity | reflexivity | vm_compute; discriminate | reflexivity |].
    rewrite Hrun. reflexivity.
  - reflexivity.
Defined.
